(** * Map view: geometry parsing, categorical colours, legend and measurement

    A shallow embedding of the pure core of [src/src/map-view-new.tsx]
    (the React component [MapView]) and the properties its specification
    states about it.

    Conventions of the embedding.
    - A JavaScript number is a binary64 float ([PrimFloat.float]); the
      arithmetic of the source is the arithmetic of [float_scope].
    - A JavaScript string is a [string]: a sequence of code units below 256.
    - React state read by a function through its closure ([hiddenValues],
      [colorField], [measurementUnits], [data]) is an explicit argument.
    - A handler that sets a state is followed by a render and by the
      effects of the component whose dependencies changed, in the order
      in which the source declares them.
    - What the browser or Leaflet provides and the source only calls
      ([LatLng.distanceTo], [Number::toString], the optional [wellknown]
      parser) is a [Variable] of the section that needs it. *)

From Stdlib Require Import ZArith Floats String Ascii List Bool Lia.
From Stdlib Require Import DecimalString.
From stdpp Require Import base gmap strings list.

Set Warnings "-inexact-float".

(* ===================================================================== *)
(** ** JavaScript numbers *)
(* ===================================================================== *)

Module JSNumber.

#[local] Open Scope float_scope.

(** [isNaN x] for a value that already is a number. *)
Definition isNaN (x : float) : bool := is_nan x.

(** [a === b] on numbers: IEEE equality ([NaN] differs from itself,
    [0 === -0]). *)
Definition strictEq (a b : float) : bool := (a =? b).

(** [Math.min(a, b)]: [NaN] if either is, and [-0] below [+0]. *)
Definition Math_min (a b : float) : float :=
  if is_nan a || is_nan b then nan
  else if a <? b then a
  else if b <? a then b
  else if get_sign a then a else b.

(** [Math.max(a, b)]: [NaN] if either is, and [+0] above [-0]. *)
Definition Math_max (a b : float) : float :=
  if is_nan a || is_nan b then nan
  else if a <? b then b
  else if b <? a then a
  else if get_sign a then b else a.

(** [Math.abs]. *)
Definition Math_abs (x : float) : float := abs x.

(** The decimal digits of a natural number, ["0"] for zero. *)
Definition digitsOf (n : N) : string :=
  NilZero.string_of_uint (N.to_uint n).

(** [n] zeros. *)
Fixpoint zeros (n : nat) : string :=
  match n with
  | O => EmptyString
  | S k => String "0" (zeros k)
  end.

(** The first [n] characters of [s], and the rest. *)
Fixpoint splitAt (n : nat) (s : string) : string * string :=
  match n, s with
  | S k, String c s' => let '(a, b) := splitAt k s' in (String c a, b)
  | _, _ => (EmptyString, s)
  end.

(** The integer [n] for which [n / 10^f - x] is as close to zero as
    possible, the larger one of two, for the exact value
    [x = m * 2^e >= 0] of a finite float. *)
Definition roundScaled (m : positive) (e : Z) (f : nat) : N :=
  let scaled := (Z.pos m * 10 ^ Z.of_nat f)%Z in
  if (0 <=? e)%Z then Z.to_N (scaled * 2 ^ e)%Z
  else
    let den := (2 ^ (- e))%Z in
    Z.to_N ((2 * scaled + den) / (2 * den))%Z.

(** Steps 11.a to 11.c of [Number.prototype.toFixed]: the digits of [n]
    with a decimal point before the last [f] of them. *)
Definition placePoint (n : N) (f : nat) : string :=
  let m := digitsOf n in
  match f with
  | O => m
  | S _ =>
      let k := String.length m in
      let m' := if (k <=? f)%nat then (zeros (f + 1 - k) +:+ m) else m in
      let '(a, b) := splitAt (String.length m' - f) m' in
      a +:+ "." +:+ b
  end.

Section ToFixed.

(** [Number::toString], which [toFixed] falls back to from 10^21 on. *)
Variable Number_toString : float -> string.

(** [x.toFixed(f)] for [0 <= f <= 100]. *)
Definition toFixed (x : float) (f : nat) : string :=
  if is_nan x then "NaN"
  else if is_infinity x then (if x <? 0 then "-Infinity" else "Infinity")
  else
    let s := if x <? 0 then "-" else "" in
    let ax := abs x in
    if 1e21 <=? ax then s +:+ Number_toString ax
    else
      match Prim2SF ax with
      | S754_finite _ m e => s +:+ placePoint (roundScaled m e f) f
      | _ => s +:+ placePoint 0 f
      end.

End ToFixed.

End JSNumber.

(* ===================================================================== *)
(** ** JavaScript strings *)
(* ===================================================================== *)

Module JSString.


Definition codeOf (c : ascii) : N := N_of_ascii c.

(** White space and line terminators among the code units below 256: what
    [trim] strips, what [\s] matches and what [parseFloat] skips. *)
Definition isWhiteSpace (c : ascii) : bool :=
  let n := codeOf c in
  ((9 <=? n) && (n <=? 13) || (n =? 32) || (n =? 160))%N.

Definition isDigit (c : ascii) : bool :=
  let n := codeOf c in ((48 <=? n) && (n <=? 57))%N.

Definition digitValue (c : ascii) : N := (codeOf c - 48)%N.

(** The upper-case image of one code unit. Only the letters [a] to [z] are
    mapped: the source compares upper-cased text with the words [POLYGON]
    and [MULTIPOLYGON] alone, and no other code unit below 256 has an
    upper-case image made of their letters. *)
Definition toUpperChar (c : ascii) : ascii :=
  let n := codeOf c in
  if ((97 <=? n) && (n <=? 122))%N then ascii_of_N (n - 32) else c.


Fixpoint toUpperCase (s : string) : string :=
  match s with
  | EmptyString => EmptyString
  | String c s' => String (toUpperChar c) (toUpperCase s')
  end.

(** [s.startsWith(p)]. *)
Fixpoint startsWith (s p : string) {struct p} : bool :=
  match p, s with
  | EmptyString, _ => true
  | String a p', String b s' => Ascii.eqb a b && startsWith s' p'
  | String _ _, EmptyString => false
  end.

(** [s.includes(p)]. *)
Fixpoint includes (s p : string) : bool :=
  startsWith s p ||
  match s with
  | EmptyString => false
  | String _ s' => includes s' p
  end.

Fixpoint trimStart (s : string) : string :=
  match s with
  | String c s' => if isWhiteSpace c then trimStart s' else s
  | EmptyString => EmptyString
  end.

Fixpoint trimEnd (s : string) : string :=
  match s with
  | EmptyString => EmptyString
  | String c s' =>
      match trimEnd s' with
      | EmptyString => if isWhiteSpace c then EmptyString else String c EmptyString
      | t => String c t
      end
  end.

(** Every character of [s] is of the class [cls]. *)
Fixpoint allChars (cls : ascii -> bool) (s : string) : bool :=
  match s with
  | EmptyString => true
  | String c s' => cls c && allChars cls s'
  end.

(** [s.trim()]. *)
Definition trim (s : string) : string := trimEnd (trimStart s).

(** [s.split(sep)] for a separator of one character. *)
Fixpoint split (sep : ascii) (s : string) : list string :=
  match s with
  | EmptyString => [EmptyString]
  | String c s' =>
      if Ascii.eqb c sep then EmptyString :: split sep s'
      else
        match split sep s' with
        | tok :: rest => String c tok :: rest
        | [] => [String c EmptyString]
        end
  end.

(** [s.split(/\s+/)]: the pieces between the maximal runs of white space,
    an empty piece before a leading run and after a trailing one.
    [inRun] tells that the character before was white space. *)
Fixpoint splitWhiteSpaceFrom (inRun : bool) (s : string) : list string :=
  match s with
  | EmptyString => [EmptyString]
  | String c s' =>
      if isWhiteSpace c then
        if inRun then splitWhiteSpaceFrom true s'
        else EmptyString :: splitWhiteSpaceFrom true s'
      else
        match splitWhiteSpaceFrom false s' with
        | tok :: rest => String c tok :: rest
        | [] => [String c EmptyString]
        end
  end.

Definition splitWhiteSpace (s : string) : list string :=
  splitWhiteSpaceFrom false s.

End JSString.

(* ===================================================================== *)
(** ** Numeric literals: [parseFloat] and [Number] *)
(* ===================================================================== *)

Module JSNumeric.

Import JSString.

(** The float nearest to [m * 10^e10], ties to even, with the sign [neg]:
    the rounding of a decimal literal's mathematical value. A quotient is
    cut to 64 bits or more below its leading bit, with one more bit that
    tells whether anything was cut off, before it is rounded to 53. *)
Definition decimalToFloat (neg : bool) (m : N) (e10 : Z) : float :=
  let a :=
    if (m =? 0)%N then PrimFloat.zero
    else if (0 <=? e10)%Z then
      SF2Prim (binary_normalize prec emax (Z.of_N m * 10 ^ e10) 0 false)
    else
      let den := (10 ^ (- e10))%Z in
      let s := Z.max 0 (Z.log2 den - Z.log2 (Z.of_N m) + 64) in
      let num := (Z.of_N m * 2 ^ s)%Z in
      let q := (num / den)%Z in
      let sticky := if (num mod den =? 0)%Z then 0%Z else 1%Z in
      SF2Prim (binary_normalize prec emax (2 * q + sticky) (- s - 1) false)
  in
  if neg then (- a)%float else a.

(** An optional sign. *)
Definition scanSign (s : string) : bool * string :=
  match s with
  | String "-"%char s' => (true, s')
  | String "+"%char s' => (false, s')
  | _ => (false, s)
  end.

(** The longest run of decimal digits at the head of [s], read into [acc]:
    the value, the number of digits and the rest. *)
Fixpoint scanDigits (s : string) (acc : N) : N * nat * string :=
  match s with
  | String c s' =>
      if isDigit c then
        let '(v, n, r) := scanDigits s' (acc * 10 + digitValue c)%N in (v, S n, r)
      else (acc, O, s)
  | EmptyString => (acc, O, s)
  end.

(** [ExponentPart], when one stands at the head of [s]: [e] or [E], an
    optional sign and one digit at least. *)
Definition scanExponent (s : string) : Z * string :=
  match s with
  | String c s1 =>
      if (Ascii.eqb c "e"%char || Ascii.eqb c "E"%char)%bool then
        let '(neg, s2) := scanSign s1 in
        let '(v, n, r) := scanDigits s2 0%N in
        match n with
        | O => (0%Z, s)
        | S _ => ((if neg then - Z.of_N v else Z.of_N v)%Z, r)
        end
      else (0%Z, s)
  | EmptyString => (0%Z, s)
  end.

(** The longest prefix of [s] that is a [StrUnsignedDecimalLiteral] other
    than [Infinity]: its digits as an integer, its power of ten, the rest. *)
Definition scanUnsignedDecimal (s : string) : option (N * Z * string) :=
  let '(ip, ni, r1) := scanDigits s 0%N in
  match r1 with
  | String "."%char r2 =>
      let '(m, nf, r3) := scanDigits r2 ip in
      match ni, nf with
      | O, O => None
      | _, _ =>
          let '(e, r4) := scanExponent r3 in
          Some (m, (e - Z.of_nat nf)%Z, r4)
      end
  | _ =>
      match ni with
      | O => None
      | S _ => let '(e, r4) := scanExponent r1 in Some (ip, e, r4)
      end
  end.

(** [parseFloat(s)]: leading white space is skipped, the longest prefix
    that is a decimal literal is read, [NaN] if there is none. *)
Definition parseFloat (s : string) : float :=
  let '(neg, t) := scanSign (trimStart s) in
  if startsWith t "Infinity" then (if neg then neg_infinity else infinity)
  else
    match scanUnsignedDecimal t with
    | Some (m, e, _) => decimalToFloat neg m e
    | None => nan
    end.

(** [parseFloat(undefined)] reads the text [undefined]: [NaN]. *)
Definition parseFloatAt (coords : list string) (i : nat) : float :=
  match coords !! i with
  | Some s => parseFloat s
  | None => nan
  end.

(** The digits of a literal in radix 2, 8 or 16: the value of [s] when
    every character of it is a digit of the radix, read into [acc]. *)
Definition radixDigit (radix : N) (c : ascii) : option N :=
  let n := codeOf c in
  let v :=
    if isDigit c then Some (n - 48)%N
    else if ((97 <=? n) && (n <=? 102))%N then Some (n - 87)%N
    else if ((65 <=? n) && (n <=? 70))%N then Some (n - 55)%N
    else None in
  match v with
  | Some d => if (d <? radix)%N then Some d else None
  | None => None
  end.

Fixpoint scanRadix (radix : N) (s : string) (acc : N) : option N :=
  match s with
  | EmptyString => Some acc
  | String c s' =>
      match radixDigit radix c with
      | Some d => scanRadix radix s' (acc * radix + d)%N
      | None => None
      end
  end.

Definition radixLiteral (radix : N) (digits : string) : float :=
  match digits with
  | EmptyString => nan
  | _ =>
      match scanRadix radix digits 0%N with
      | Some v => SF2Prim (binary_normalize prec emax (Z.of_N v) 0 false)
      | None => nan
      end
  end.

(** [Number(s)] on a string: the whole of the trimmed text has to be a
    numeric literal, and the empty text is zero. *)
Definition Number_ofString (s : string) : float :=
  match trim s with
  | EmptyString => PrimFloat.zero
  | String "0"%char (String "x"%char d) | String "0"%char (String "X"%char d) => radixLiteral 16 d
  | String "0"%char (String "o"%char d) | String "0"%char (String "O"%char d) => radixLiteral 8 d
  | String "0"%char (String "b"%char d) | String "0"%char (String "B"%char d) => radixLiteral 2 d
  | t =>
      let '(neg, u) := scanSign t in
      if String.eqb u "Infinity" then (if neg then neg_infinity else infinity)
      else
        match scanUnsignedDecimal u with
        | Some (m, e, EmptyString) => decimalToFloat neg m e
        | _ => nan
        end
  end.

End JSNumeric.

(* ===================================================================== *)
(** ** The regular expressions of the source *)
(* ===================================================================== *)

Module Regex.

Import JSString.

(** The pieces the three patterns of the source are made of. *)
Inductive Atom :=
| Chr (c : ascii)               (** one character, case ignored (flag [i]) *)
| Star (cls : ascii -> bool)    (** [cls*], greedy *)
| Group (cls : ascii -> bool).  (** [(cls+)], greedy: the capture group *)

(** [cls*] before the continuation [k]: the longest run first, then the
    shorter ones. *)
Fixpoint greedyStar (cls : ascii -> bool) (k : string -> option string)
    (s : string) : option string :=
  match s with
  | String d s' =>
      if cls d then
        match greedyStar cls k s' with
        | Some r => Some r
        | None => k s
        end
      else k s
  | EmptyString => k s
  end.

(** [(cls+)] after its first character: [acc] is the text captured so far,
    handed to [k] with the rest. *)
Fixpoint greedyGroup (cls : ascii -> bool) (k : string -> string -> option string)
    (acc : string) (s : string) : option string :=
  match s with
  | String d s' =>
      if cls d then
        match greedyGroup cls k (acc +:+ String d EmptyString) s' with
        | Some r => Some r
        | None => k acc s
        end
      else k acc s
  | EmptyString => k acc s
  end.

(** A backtracking match of the pattern at the head of [s]; the result is
    the text of the capture group. *)
Fixpoint matchHere (p : list Atom) (captured : string) (s : string) : option string :=
  match p with
  | [] => Some captured
  | Chr c :: p' =>
      match s with
      | String d s' =>
          if Ascii.eqb (toUpperChar d) (toUpperChar c) then matchHere p' captured s'
          else None
      | EmptyString => None
      end
  | Star cls :: p' => greedyStar cls (matchHere p' captured) s
  | Group cls :: p' =>
      match s with
      | String d s' =>
          if cls d then greedyGroup cls (matchHere p') (String d EmptyString) s'
          else None
      | EmptyString => None
      end
  end.

(** [s.match(p)] for a pattern without the flag [g]: the leftmost match,
    of which the source reads the capture [match[1]]. *)
Fixpoint regexMatch (p : list Atom) (s : string) : option string :=
  match matchHere p EmptyString s with
  | Some captured => Some captured
  | None =>
      match s with
      | String _ s' => regexMatch p s'
      | EmptyString => None
      end
  end.

Definition word (w : string) : list Atom := map Chr (list_ascii_of_string w).
Definition ws : Atom := Star isWhiteSpace.
Definition lparen : Atom := Chr "("%char.
Definition rparen : Atom := Chr ")"%char.
Definition notRparen (c : ascii) : bool := negb (Ascii.eqb c ")"%char).

(** [/MULTIPOLYGON\s*\(\s*\(\s*\(\s*([^)]+)\s*\)\s*\)\s*\)/i] *)
Definition MULTIPOLYGON_RE : list Atom :=
  word "MULTIPOLYGON" ++
  [ws; lparen; ws; lparen; ws; lparen; ws; Group notRparen;
   ws; rparen; ws; rparen; ws; rparen].

(** [/POLYGON\s*\(\s*\(\s*([^)]+)\s*\)\s*\)/i] *)
Definition POLYGON_RE : list Atom :=
  word "POLYGON" ++
  [ws; lparen; ws; lparen; ws; Group notRparen; ws; rparen; ws; rparen].

(** [/POINT\s*\(\s*([^)]+)\s*\)/i] *)
Definition POINT_RE : list Atom :=
  word "POINT" ++ [ws; lparen; ws; Group notRparen; ws; rparen].

End Regex.

(* ===================================================================== *)
(** ** Values of a record *)
(* ===================================================================== *)

Module JSValue.


(** What a field of a record may hold. *)
Inductive JsValue :=
| JsUndefined
| JsNull
| JsBoolean (b : bool)
| JsNumber (x : float)
| JsString (s : string).

(** The truth value of [v] in a condition and on the left of [||]. *)
Definition truthy (v : JsValue) : bool :=
  match v with
  | JsUndefined | JsNull => false
  | JsBoolean b => b
  | JsNumber x => negb (is_zero x || is_nan x)
  | JsString s => negb (String.eqb s "")
  end.

(** A record of the data set: field name to value. *)
Abbreviation DataRecord := (gmap string JsValue).

(** [record[key]]: [undefined] for a field the record lacks. *)
Definition getField (record : DataRecord) (key : string) : JsValue :=
  default JsUndefined (record !! key).

Section ToString.

Variable Number_toString : float -> string.

(** [String(v)]. *)
Definition String_of (v : JsValue) : string :=
  match v with
  | JsUndefined => "undefined"
  | JsNull => "null"
  | JsBoolean true => "true"
  | JsBoolean false => "false"
  | JsNumber x => Number_toString x
  | JsString s => s
  end.

(** [String(v || 'No value')]: the categorical value of a record. *)
Definition categoryOf (v : JsValue) : string :=
  if truthy v then String_of v else "No value".

End ToString.

Inductive Permission := view | edit | hidden.

Record Column := mkColumn {
  key : string;
  label : string;
  isGeometry : bool;
  permission : option Permission
}.

End JSValue.

(* ===================================================================== *)
(** ** Geometry parser *)
(* ===================================================================== *)

Module GeometryParser.

Import JSNumber JSString JSNumeric Regex JSValue.

(** A GeoJSON position: [[lng, lat]]. *)
Abbreviation Position := (float * float)%type.

(** The GeoJSON geometries the manual parser builds. *)
Inductive Geometry :=
| Polygon (coordinates : list (list Position))
| MultiPolygon (coordinates : list (list (list Position))).

(** How the evaluation of a block ends: with a value, or by an exception. *)
Inductive completion (A : Type) :=
| Normal (a : A)
| Throw.
Arguments Normal {A} a.
Arguments Throw {A}.

(** [try { body } catch { return null }]. *)
Definition catchNull {A : Type} (body : completion (option A)) : option A :=
  match body with
  | Normal r => r
  | Throw => None
  end.

(** The check on truncation at the head of [parseMultiPolygonManually]. *)
Definition appearsTruncated (wkt : string) : bool :=
  includes (toUpperCase wkt) "MULTIPOLYGON" && negb (includes wkt ")))").

(** [match ? match[1] : ''], the text left in [coordString]. *)
Definition captureOrEmpty (m : option string) : string :=
  match m with
  | Some captured => captured
  | None => ""
  end.

(** The variables [coordString] and [isMultiPolygon] after the extraction. *)
Definition extractCoordString (wkt : string) : string * bool :=
  if includes (toUpperCase wkt) "MULTIPOLYGON" then
    (captureOrEmpty (regexMatch MULTIPOLYGON_RE wkt), true)
  else if includes (toUpperCase wkt) "POLYGON" then
    (captureOrEmpty (regexMatch POLYGON_RE wkt), false)
  else ("", false).

(** The callback of [map] over the pieces of [coordString]. *)
Definition parsePair (pair : string) : option Position :=
  let coords := splitWhiteSpace (trim pair) in
  let lng := parseFloatAt coords 0 in
  let lat := parseFloatAt coords 1 in
  if isNaN lng || isNaN lat then None else Some (lng, lat).

(** [.filter(pair => pair !== null)]. *)
Fixpoint filterNotNull {A : Type} (l : list (option A)) : list A :=
  match l with
  | [] => []
  | Some a :: l' => a :: filterNotNull l'
  | None :: l' => filterNotNull l'
  end.

(** The valid coordinate pairs of a coordinate list. *)
Definition parseCoordPairs (coordString : string) : list Position :=
  filterNotNull (map parsePair (split "," coordString)).

(** The ring handed to GeoJSON: [coordPairs], with its first point pushed
    at the end when the last one differs. Reading a component of
    [coordPairs[0]] or of the last element throws when there is none. *)
Definition closeRing (coordPairs : list Position) : completion (list Position) :=
  match coordPairs !! 0%nat, coordPairs !! (length coordPairs - 1)%nat with
  | Some firstPoint, Some lastPoint =>
      if negb (strictEq (fst firstPoint) (fst lastPoint))
         || negb (strictEq (snd firstPoint) (snd lastPoint))
      then Normal (coordPairs ++ [(fst firstPoint, snd firstPoint)])
      else Normal coordPairs
  | _, _ => Throw
  end.

(** The body of the [try] block of [parseMultiPolygonManually]. *)
Definition parseMultiPolygonManually_body (wkt : string) : completion (option Geometry) :=
  if appearsTruncated wkt then Normal None
  else
    let '(coordString, isMultiPolygon) := extractCoordString wkt in
    if String.eqb coordString "" then Normal None
    else
      let coordPairs := parseCoordPairs coordString in
      if (length coordPairs <? 3)%nat then Normal None
      else
        match closeRing coordPairs with
        | Normal ring =>
            if isMultiPolygon then Normal (Some (MultiPolygon [[ring]]))
            else Normal (Some (Polygon [ring]))
        | Throw => Throw
        end.

Definition parseMultiPolygonManually (wkt : string) : option Geometry :=
  catchNull (parseMultiPolygonManually_body wkt).

(** [parseCoordinates] on the text of a cell: [[lat, lng]] or [null]. *)
Definition parseCoordinates (coordString : string) : option (float * float) :=
  if String.eqb coordString "" then None
  else
    let str := trim coordString in
    if includes str "POINT" then
      match regexMatch POINT_RE str with
      | Some captured =>
          let coords := map Number_ofString (splitWhiteSpace captured) in
          match coords with
          | c0 :: c1 :: _ => Some (c1, c0)
          | _ => None
          end
      | None => None
      end
    else if includes str "," then
      let parts := map (fun part => parseFloat (trim part)) (split "," str) in
      match parts with
      | p0 :: p1 :: _ =>
          if negb (isNaN p0) && negb (isNaN p1) then
            if (Math_abs p0 <=? 90)%float then Some (p0, p1) else Some (p1, p0)
          else None
      | _ => None
      end
    else None.

(** A ring is closed when its first and its last position are the same
    numbers under [===]. *)
Definition ringClosed (ring : list Position) : bool :=
  match ring !! 0%nat, ring !! (length ring - 1)%nat with
  | Some firstPoint, Some lastPoint =>
      strictEq (fst firstPoint) (fst lastPoint)
      && strictEq (snd firstPoint) (snd lastPoint)
  | _, _ => false
  end.

(** What the rendering effect makes of one geometry cell. *)
Inductive CellOutcome :=
| NotRendered                              (** an empty or non-string cell *)
| WktGeometry (geometry : option Geometry) (** the variable [geometry] *)
| Marker (coords : option (float * float)). (** the variable [coords] *)

Section Cell.

(** [window.wellknown], when the library was loaded: it may throw. *)
Variable wellknown : option (string -> completion (option Geometry)).

(** The body of [recordGeometryColumns.forEach] up to the parsed value. *)
Definition processGeometryData (geomData : JsValue) : CellOutcome :=
  if truthy geomData then
    match geomData with
    | JsString s =>
        let cleanGeomData := toUpperCase (trim s) in
        if startsWith cleanGeomData "POLYGON" || startsWith cleanGeomData "MULTIPOLYGON" then
          let geometry := parseMultiPolygonManually s in
          match geometry, wellknown with
          | None, Some parse => WktGeometry (catchNull (parse s))
          | _, _ => WktGeometry geometry
          end
        else Marker (parseCoordinates s)
    | _ => NotRendered
    end
  else NotRendered.

(** Whether a layer is added for the cell. Leaflet refuses a marker at a
    [NaN] coordinate by an exception, which the effect catches. *)
Definition addsFeature (outcome : CellOutcome) : bool :=
  match outcome with
  | NotRendered => false
  | WktGeometry geometry => bool_decide (is_Some geometry)
  | Marker (Some (lat, lng)) => negb (isNaN lat) && negb (isNaN lng)
  | Marker None => false
  end.

(** [geometryColumns.filter(col => record[col.key])]. *)
Definition recordGeometryColumns (geometryColumns : list Column) (record : DataRecord)
    : list Column :=
  filter (fun col => truthy (getField record (key col)) = true) geometryColumns.

(** The features of the data set: a record and a geometry column of it
    for every layer the effect adds. *)
Definition buildFeatures (geometryColumns : list Column) (data : list DataRecord)
    : list (DataRecord * string) :=
  flat_map
    (fun record =>
       flat_map
         (fun geometryCol =>
            if addsFeature (processGeometryData (getField record (key geometryCol)))
            then [(record, key geometryCol)] else [])
         (recordGeometryColumns geometryColumns record))
    data.

End Cell.

End GeometryParser.

(* ===================================================================== *)
(** ** Coordinate pairs in words *)
(* ===================================================================== *)

(** The coordinate pairs of a coordinate list as the specification and the
    claims word them, to be compared with what the parser computes. *)
Module CoordinateText.

Import JSNumber JSString JSNumeric GeometryParser.



(** Whether a numeral stands at the head of a text: the word [Infinity],
    a digit, or a point and a digit. *)
Definition startsNumeral (t : string) : bool :=
  startsWith t "Infinity"
  || match t with
     | String c r =>
         isDigit c
         || (Ascii.eqb c "."%char
             && match r with
                | String d _ => isDigit d
                | EmptyString => false
                end)
     | EmptyString => false
     end.

(** Whether a field reads as a number: after white space and one sign at
    most, a numeral stands at its head. What follows the numeral is not
    looked at. *)
Definition readsNumber (field : string) : bool :=
  match trimStart field with
  | String "-"%char t | String "+"%char t => startsNumeral t
  | t => startsNumeral t
  end.

(** The pair a token of the coordinate list stands for: the numbers at
    the head of its first two fields, when both read as numbers. *)
Definition tokenPair (token : string) : option Position :=
  match splitWhiteSpace (trim token) with
  | a :: b :: _ =>
      if readsNumber a && readsNumber b then Some (parseFloat a, parseFloat b)
      else None
  | _ => None
  end.

(** The pairs of a coordinate list, in its order. *)
Definition coordinatePairs (coordString : string) : list Position :=
  omap tokenPair (split "," coordString).

(** A list of pairs made a ring: the first pair is added at the end when
    the last differs from it in a number. *)
Definition closedRing (pairs : list Position) : list Position :=
  match pairs, last pairs with
  | first :: _, Some final =>
      if strictEq (fst first) (fst final) && strictEq (snd first) (snd final)
      then pairs else pairs ++ [first]
  | _, _ => pairs
  end.

End CoordinateText.

(* ===================================================================== *)
(** ** Categorical colour assigner *)
(* ===================================================================== *)

Module ColorAssigner.

Import JSString JSValue.
#[local] Open Scope Z_scope.

(** [ToInt32]: the integer modulo 2^32, read as a signed 32-bit integer. *)
Definition toInt32 (z : Z) : Z := (z + 2 ^ 31) mod 2 ^ 32 - 2 ^ 31.

(** [a << n] for a shift count below 32. *)
Definition shiftLeft (a n : Z) : Z := toInt32 (Z.shiftl (toInt32 a) n).

(** [value.charCodeAt(i)]. *)
Definition charCode (c : ascii) : Z := Z.of_N (codeOf c).

(** One turn of the loop of [getColorForValue]. The sum and the difference
    are those of numbers, not of 32-bit integers: only the shift wraps.
    All of it is exact in binary64 while the hash stays below 2^53, that
    is for any text shorter than two million characters. *)
Definition hashStep (hash : Z) (c : ascii) : Z :=
  charCode c + (shiftLeft hash 5 - hash).

Definition hashOf (value : string) : Z :=
  fold_left hashStep (list_ascii_of_string value) 0.

Definition colors : list string :=
  ["#FF6B6B"; "#4ECDC4"; "#45B7D1"; "#96CEB4"; "#FECA57";
   "#FF9FF3"; "#54A0FF"; "#5F27CD"; "#00D2D3"; "#FF9F43";
   "#10AC84"; "#EE5A24"; "#0abde3"; "#006ba6"; "#f39801"].

(** [getColorForValue(value, field)]; reading [colors] out of range would
    give [undefined]. *)
Definition getColorForValue (value : string) (field : string) : string :=
  let hash := hashOf value in
  default "undefined"
    (colors !! Z.to_nat (Z.abs hash mod Z.of_nat (length colors))).

(** The default colours of [getFeatureColor]. *)
Definition defaultColors : list string :=
  ["#3388ff"; "#ff6b6b"; "#4ecdc4"; "#45b7d1"; "#f39c12"; "#e74c3c"; "#9b59b6"; "#2ecc71"].

Section FeatureColor.

Variable Number_toString : float -> string.

(** [getFeatureColor(record, index)] under the colour field [colorField]. *)
Definition getFeatureColor (colorField : string) (record : DataRecord) (index : nat)
    : string :=
  if negb (String.eqb colorField "") && negb (String.eqb colorField "default")
     && truthy (getField record colorField)
  then
    let value := categoryOf Number_toString (getField record colorField) in
    getColorForValue value colorField
  else
    default "undefined" (defaultColors !! (index mod length defaultColors)%nat).

End FeatureColor.

End ColorAssigner.

(* ===================================================================== *)
(** ** Legend *)
(* ===================================================================== *)

Module Legend.

Import JSValue ColorAssigner.

Record LegendItem := mkLegendItem {
  value : string;
  color : string;
  count : nat;
  visible : bool
}.

(** The entry of [valueColorMap] for a value. *)
Record ColorCount := mkColorCount { entryColor : string; entryCount : nat }.

(** A [Map] keeps its keys in the order of their first insertion: a list
    of entries with distinct keys. *)
Definition ValueColorMap : Type := list (string * ColorCount).

(** [m.has(k)]. *)
Fixpoint mapHas (m : ValueColorMap) (k : string) : bool :=
  match m with
  | [] => false
  | (k', _) :: m' => String.eqb k' k || mapHas m' k
  end.

(** [m.get(k).count++]. *)
Fixpoint mapIncrement (m : ValueColorMap) (k : string) : ValueColorMap :=
  match m with
  | [] => []
  | (k', info) :: m' =>
      if String.eqb k' k then (k', mkColorCount (entryColor info) (S (entryCount info))) :: m'
      else (k', info) :: mapIncrement m' k
  end.

(** [m.set(k, info)] for a key the map lacks. *)
Definition mapSetNew (m : ValueColorMap) (k : string) (info : ColorCount) : ValueColorMap :=
  m ++ [(k, info)].

Section Generate.

Variable Number_toString : float -> string.

(** The callback of [data.forEach] in [generateLegendData]. *)
Definition countRecord (colorField : string) (valueColorMap : ValueColorMap)
    (record : DataRecord) : ValueColorMap :=
  let value := categoryOf Number_toString (getField record colorField) in
  let color := getColorForValue value colorField in
  if mapHas valueColorMap value then mapIncrement valueColorMap value
  else mapSetNew valueColorMap value (mkColorCount color 1).

(** [generateLegendData]: the items handed to [setLegendItems]. *)
Definition generateLegendData (colorField : string) (data : list DataRecord)
    (hiddenValues : gset string) : list LegendItem :=
  if String.eqb colorField "" || String.eqb colorField "default"
     || bool_decide (length data = 0%nat)
  then []
  else
    let valueColorMap := fold_left (countRecord colorField) data [] in
    map (fun '(value, info) =>
           mkLegendItem value (entryColor info) (entryCount info)
             (negb (bool_decide (value ∈ hiddenValues))))
        valueColorMap.


End Generate.

(** *** What the properties of the legend speak of *)

Section LegendVocabulary.

Variable Number_toString : float -> string.
Variable colorField : string.

(** The categorical value of a record under the colour field. *)
Definition recordValue (r : DataRecord) : string :=
  categoryOf Number_toString (getField r colorField).

(** The records of a data set whose categorical value is [v]. *)
Definition recordsWith (v : string) (data : list DataRecord) : list DataRecord :=
  filter (fun r => recordValue r = v) data.

(** What [valueColorMap] holds after the records [l] were counted. *)
Definition countsOf (l : list DataRecord) (m : ValueColorMap) : Prop :=
  NoDup m.*1
  /\ (forall k, k ∈ m.*1 <-> exists r, r ∈ l /\ recordValue r = k)
  /\ (forall k info, (k, info) ∈ m ->
        entryColor info = getColorForValue k colorField
        /\ entryCount info = length (recordsWith k l)).

End LegendVocabulary.


End Legend.

(* ===================================================================== *)
(** ** Layers and the visibility controller *)
(* ===================================================================== *)

Module Visibility.

Import JSValue GeometryParser Legend.

(** The options of a Leaflet path that the source sets. *)
Record PathStyle := mkPathStyle {
  color : string;
  weight : float;
  opacity : float;
  fillColor : string;
  fillOpacity : float
}.

(** What a layer of the layer group draws. *)
Inductive Shape :=
| GeoJSONShape (geometry : Geometry)
| CircleMarkerShape (lat lng : float)
| LabelShape (labelText : string).

(** A layer of [layerGroupRef.current]: its [record] property, when it
    carries one, what it draws and its style. A circle marker carries the
    record of its cell. The [L.geoJSON] layer of a polygon carries none:
    [onEachFeature] puts the record on its parameter [layer], the layer of
    the feature inside, and [eachLayer] on the group visits the layer
    around it. A label carries none either. *)
Record Layer := mkLayer {
  record : option DataRecord;
  shape : Shape;
  style : PathStyle
}.

(** [layer.setStyle({ opacity, fillOpacity })]: the other options stay. *)
Definition setStyle (layer : Layer) (newOpacity newFillOpacity : float) : Layer :=
  mkLayer (record layer) (shape layer)
    (mkPathStyle (color (style layer)) (weight (style layer)) newOpacity
       (fillColor (style layer)) newFillOpacity).

(** What the view holds between two events: the state [hiddenValues], the
    state [legendItems] and the layers of [layerGroupRef.current], [None]
    before the map is there. *)
Record ViewState := mkViewState {
  hiddenValues : gset string;
  legendItems : list LegendItem;
  layerGroup : option (list Layer)
}.

Section Controller.

Variable Number_toString : float -> string.

(** The state [colorField], which no operation below changes. *)
Variable colorField : string.

(** The layers the rendering effect builds from the props and from the
    states [colorField] and [labelField], none of which an operation
    below changes: [Renderer.renderLayers] of them. *)
Variable rendered : list Layer.

(** The callback of [eachLayer] in [updateLayerVisibility]. *)
Definition updateLayer (hiddenVals : gset string) (layer : Layer) : Layer :=
  match record layer with
  | Some r =>
      let value := categoryOf Number_toString (getField r colorField) in
      let isHidden := bool_decide (value ∈ hiddenVals) in
      if isHidden then setStyle layer 0 0
      else setStyle layer 1 0.3
  | None => layer
  end.

(** [updateLayerVisibility(hiddenVals)] on the layer group. *)
Definition updateLayerVisibility (hiddenVals : gset string)
    (group : option (list Layer)) : option (list Layer) :=
  match group with
  | None => None
  | Some layers =>
      if String.eqb colorField "" || String.eqb colorField "default" then Some layers
      else Some (map (updateLayer hiddenVals) layers)
  end.

(** [toggleLegendItem(value)]. *)
Definition toggleLegendItem (value : string) (st : ViewState) : ViewState :=
  let newHiddenValues :=
    if bool_decide (value ∈ hiddenValues st) then hiddenValues st ∖ {[value]}
    else hiddenValues st ∪ {[value]} in
  mkViewState newHiddenValues (legendItems st)
    (updateLayerVisibility newHiddenValues (layerGroup st)).

(** The click handler of the button [Show All]. *)
Definition showAll (st : ViewState) : ViewState :=
  mkViewState ∅
    (map (fun item => mkLegendItem (value item) (Legend.color item) (count item) true)
         (legendItems st))
    (layerGroup st).

(** The rendering effect. Two of its dependencies, [visibleColumns] and
    [geometryColumns], are arrays built anew by every render, so it runs
    after every render: once the map is there it clears the layer group
    and adds the layers it builds. Its tail hands them to Leaflet to fit
    the view of the map, and adds and styles no layer. Leaflet refuses
    bounds that are not finite by an exception, which that tail does not
    catch: the views below are those of renders whose effect returns. *)
Definition renderingEffect (st : ViewState) : ViewState :=
  match layerGroup st with
  | None => st
  | Some _ => mkViewState (hiddenValues st) (legendItems st) (Some rendered)
  end.

(** The effect that depends on [hiddenValues], run after each change. *)
Definition hiddenValuesEffect (st : ViewState) : ViewState :=
  mkViewState (hiddenValues st) (legendItems st)
    (updateLayerVisibility (hiddenValues st) (layerGroup st)).

(** A render that a change of another state brings about, the filter, the
    selection or the table: the rendering effect runs and the effect of
    [hiddenValues], whose dependency is the same set as before, does not. *)
Definition rerender (st : ViewState) : ViewState := renderingEffect st.

(** The operations of the legend on the view. *)
Inductive LegendOp :=
| Toggle (value : string)
| ShowAll.

(** A click in the legend: the handler, which sets [hiddenValues] to a new
    set, and the render that follows, with its effects in the order of the
    source, the rendering effect and then the effect of [hiddenValues]. *)
Definition step (st : ViewState) (op : LegendOp) : ViewState :=
  hiddenValuesEffect
    (renderingEffect
       match op with
       | Toggle value => toggleLegendItem value st
       | ShowAll => showAll st
       end).

Definition run (ops : list LegendOp) (st : ViewState) : ViewState :=
  fold_left step ops st.

(** The categorical value of a layer that carries a record. *)
Definition layerValue (layer : Layer) : option string :=
  match record layer with
  | Some r => Some (categoryOf Number_toString (getField r colorField))
  | None => None
  end.

End Controller.

End Visibility.

(* ===================================================================== *)
(** ** Measurement engine *)
(* ===================================================================== *)

Module Measurement.

Import JSNumber.
#[local] Open Scope float_scope.

(** Leaflet's [LatLng]. *)
Record LatLng := mkLatLng { lat : float; lng : float }.

(** Leaflet's [LatLngBounds]: the south-west and north-east corners. *)
Record LatLngBounds := mkBounds { southWest : LatLng; northEast : LatLng }.

Definition getNorth (b : LatLngBounds) : float := lat (northEast b).
Definition getSouth (b : LatLngBounds) : float := lat (southWest b).
Definition getEast (b : LatLngBounds) : float := lng (northEast b).
Definition getWest (b : LatLngBounds) : float := lng (southWest b).

(** [LatLngBounds.extend] by one point; [None] is the bounds of nothing. *)
Definition extend (b : option LatLngBounds) (p : LatLng) : option LatLngBounds :=
  match b with
  | None => Some (mkBounds p p)
  | Some b =>
      Some (mkBounds
              (mkLatLng (Math_min (lat p) (getSouth b)) (Math_min (lng p) (getWest b)))
              (mkLatLng (Math_max (lat p) (getNorth b)) (Math_max (lng p) (getEast b))))
  end.

(** [L.polygon(points).getBounds()]. *)
Definition getBounds (points : list LatLng) : option LatLngBounds :=
  fold_left extend points None.

Section LineDistance.

(** [a.distanceTo(b)] of Leaflet. *)
Variable distanceTo : LatLng -> LatLng -> float.

(** The loop of [calculateLineDistance], entered with the running [total]
    and the points from index [i] on. *)
Fixpoint lineDistanceLoop (total : float) (points : list LatLng) : float :=
  match points with
  | p :: ((q :: _) as rest) => lineDistanceLoop (total + distanceTo p q) rest
  | _ => total
  end.

Definition calculateLineDistance (points : list LatLng) : float :=
  lineDistanceLoop 0 points.

End LineDistance.

(** [calculatePolygonArea], with the operators of its formula bound as
    JavaScript binds them. With three points or more the bounds exist. *)
Definition calculatePolygonArea (points : list LatLng) : float :=
  if (length points <? 3)%nat then 0
  else
    match getBounds points with
    | Some bounds =>
        let approxArea :=
          getNorth bounds - getSouth bounds * getEast bounds
          - getWest bounds * 111320 * 111320 in
        Math_abs approxArea
    | None => nan
    end.

(** The area of the bounding extent as the specification words it. *)
Definition boundingExtentArea (b : LatLngBounds) : float :=
  Math_abs ((getNorth b - getSouth b) * (getEast b - getWest b) * 111320 * 111320).

Inductive MeasurementUnits := metric | imperial.

Section Format.

Variable Number_toString : float -> string.

Definition formatDistance (measurementUnits : MeasurementUnits) (meters : float) : string :=
  match measurementUnits with
  | imperial =>
      let feet := meters * 3.28084 in
      if feet <? 5280 then toFixed Number_toString feet 2 +:+ " ft"
      else
        let miles := feet / 5280 in
        toFixed Number_toString miles 2 +:+ " miles"
  | metric =>
      if meters <? 1000 then toFixed Number_toString meters 2 +:+ " m"
      else
        let km := meters / 1000 in
        toFixed Number_toString km 2 +:+ " km"
  end.

Definition formatArea (measurementUnits : MeasurementUnits) (sqMeters : float) : string :=
  match measurementUnits with
  | imperial =>
      let sqFeet := sqMeters * 10.764 in
      if sqFeet <? 43560 then toFixed Number_toString sqFeet 2 +:+ " sq ft"
      else
        let acres := sqFeet / 43560 in
        toFixed Number_toString acres 2 +:+ " acres"
  | metric =>
      if sqMeters <? 10000 then toFixed Number_toString sqMeters 2 +:+ " sq m"
      else
        let hectares := sqMeters / 10000 in
        toFixed Number_toString hectares 2 +:+ " hectares"
  end.

End Format.

End Measurement.

(* ===================================================================== *)
(** ** Rendering effect *)
(* ===================================================================== *)

Module Renderer.

Import JSNumber JSValue GeometryParser ColorAssigner Visibility Measurement.
#[local] Open Scope float_scope.

(** The positions of a geometry as the [LatLng]s Leaflet makes of them. *)
Definition latLngs (geometry : Geometry) : list LatLng :=
  let toLatLng (p : Position) := mkLatLng (snd p) (fst p) in
  match geometry with
  | Polygon coordinates => map toLatLng (concat coordinates)
  | MultiPolygon coordinates => map toLatLng (concat (concat coordinates))
  end.

(** [layerBounds.getCenter()]: Leaflet makes a [LatLng] of the two means,
    which throws at a [NaN], as reading a corner of bounds without corners
    does. *)
Definition getCenter (bounds : option LatLngBounds) : completion LatLng :=
  match bounds with
  | None => Throw
  | Some b =>
      let latitude := (getSouth b + getNorth b) / 2 in
      let longitude := (getWest b + getEast b) / 2 in
      if isNaN latitude || isNaN longitude then Throw
      else Normal (mkLatLng latitude longitude)
  end.

(** A label is a Leaflet marker with a [divIcon]. It has no path: of the
    options of [PathStyle] it has the opacity, 1 when none is given. *)
Definition labelLayer (labelText : string) : Layer :=
  mkLayer None (LabelShape labelText) (mkPathStyle "" 0 1 "" 0).

Section Render.

Variable Number_toString : float -> string.

(** [window.wellknown], when the library was loaded. *)
Variable wellknown : option (string -> completion (option Geometry)).

(** The states [colorField] and [labelField] and the geometry columns. *)
Variable colorField labelField : string.
Variable geometryColumns : list Column.

(** The layers the body of [recordGeometryColumns.forEach] adds to the
    layer group for one cell. A polygon is drawn by an [L.geoJSON] layer
    with the style given, where Leaflet has the opacity 1; its label is
    added after it when a label field is selected that the record holds,
    unless the centre of its bounds throws, which the [catch] of the
    effect takes. A coordinate pair is drawn by a circle marker, which
    Leaflet refuses at a [NaN] by an exception, taken by the same
    [catch]. *)
Definition renderCell (record : DataRecord) (index : nat) (geometryCol : Column)
    : list Layer :=
  let fill := getFeatureColor Number_toString colorField record index in
  match processGeometryData wellknown (getField record (key geometryCol)) with
  | WktGeometry (Some geometry) =>
      let layer := mkLayer None (GeoJSONShape geometry) (mkPathStyle fill 2 1 fill 0.3) in
      if negb (String.eqb labelField "") && negb (String.eqb labelField "none")
         && truthy (getField record labelField)
      then
        match getCenter (getBounds (latLngs geometry)) with
        | Normal _ =>
            [layer; labelLayer (String_of Number_toString (getField record labelField))]
        | Throw => [layer]
        end
      else [layer]
  | Marker (Some (latitude, longitude)) =>
      if isNaN latitude || isNaN longitude then []
      else [mkLayer (Some record) (CircleMarkerShape latitude longitude)
              (mkPathStyle "#ffffff" 2 1 fill 0.8)]
  | _ => []
  end.

(** The body of [data.forEach]. *)
Definition renderRecord (index : nat) (record : DataRecord) : list Layer :=
  flat_map (renderCell record index) (recordGeometryColumns geometryColumns record).

(** The layers of the group after the rendering effect, in the order in
    which it adds them. *)
Definition renderLayers (data : list DataRecord) : list Layer :=
  concat (imap renderRecord data).

End Render.

End Renderer.

(* ===================================================================== *)
(** ** Scenarios *)
(* ===================================================================== *)

Module Scenarios.

Import JSValue ColorAssigner Legend GeometryParser Visibility Measurement Renderer.
#[local] Open Scope float_scope.

(** The session of the end-to-end scenario: a right triangle with legs of
    100 m each way, 100 / 111320 degrees, at the default centre of the map. *)
Definition rightTriangle : list LatLng :=
  [ mkLatLng 12.97 77.59;
    mkLatLng (12.97 + 100 / 111320) 77.59;
    mkLatLng 12.97 (77.59 + 100 / 111320) ].

(** [Number::toString] in the scenarios, whose colour field holds text
    alone: it is never called. *)
Definition numberText : float -> string := fun _ => "".

(** The polygon of the first end-to-end scenario, and what the pattern
    captures of it. *)
Definition scenarioPolygon : string :=
  "POLYGON((77.1 12.9, 77.2 12.9, 77.2 13.0, 77.1 12.9))".

Definition scenarioCoordString : string :=
  "77.1 12.9, 77.2 12.9, 77.2 13.0, 77.1 12.9".

(** The truncated multipolygon of the second end-to-end scenario. *)
Definition scenarioTruncated : string := "MULTIPOLYGON (((0 0, 1 0, 1 1".


(** The record of the truncated multipolygon of the end-to-end scenario,
    with a status. *)
Definition truncatedRecord : DataRecord :=
  {[ "id" := JsNumber 2;
     "geometry" := JsString "MULTIPOLYGON (((0 0, 1 0, 1 1";
     "status" := JsString "Active" ]}.

Definition geometryColumn : Column := mkColumn "geometry" "Geometry" true (Some view).

(** Two records at the default centre of the map, given as a coordinate
    pair. *)
Definition activeRecord : DataRecord :=
  {[ "geometry" := JsString "12.97, 77.59"; "status" := JsString "Active" ]}.
Definition inactiveRecord : DataRecord :=
  {[ "geometry" := JsString "12.97, 77.59"; "status" := JsString "Inactive" ]}.

(** A circle marker as the rendering effect styles it. *)
Definition markerOf (r : DataRecord) (fill : string) : Layer :=
  mkLayer (Some r) (CircleMarkerShape 12.97 77.59)
    (mkPathStyle "#ffffff" 2 1 fill 0.8).

(** The view of one active record, nothing hidden: the legend as
    [generateLegendData] builds it and the marker of the record. *)
Definition activeView : ViewState :=
  mkViewState ∅
    (generateLegendData numberText "status" [activeRecord] ∅)
    (Some [markerOf activeRecord "#FECA57"]).

(** What the rendering effect builds of a data set in the scenarios: the
    geometry is in the column [geometry], the colour field is [status],
    no label field is selected and the fallback parser is not loaded. *)
Definition scenarioLayers (data : list DataRecord) : list Layer :=
  renderLayers numberText None "status" "" [geometryColumn] data.

End Scenarios.

(* ===================================================================== *)
(** ** Columns and the popup *)
(* ===================================================================== *)

Module Columns.

Import JSValue.

(** [col.permission === p]; a column without a permission equals none. *)
Definition permissionIs (p : Permission) (col : Column) : bool :=
  match permission col, p with
  | Some view, view | Some edit, edit | Some hidden, hidden => true
  | _, _ => false
  end.

(** [columns.filter(col => col.permission !== 'hidden')]. *)
Definition visibleColumns (columns : list Column) : list Column :=
  filter (fun col => negb (permissionIs hidden col) = true) columns.

(** [visibleColumns.filter(col => col.permission === 'edit' && !col.isGeometry)]. *)
Definition editableColumns (columns : list Column) : list Column :=
  filter (fun col => permissionIs edit col && negb (isGeometry col) = true)
         (visibleColumns columns).

(** [columns.filter(col => col.isGeometry)]. *)
Definition geometryColumns (columns : list Column) : list Column :=
  filter (fun col => isGeometry col = true) columns.

(** The columns offered as colour field and as label field:
    [(col.permission === 'view' || col.permission === 'edit') && !col.isGeometry]. *)
Definition categoryColumns (columns : list Column) : list Column :=
  filter (fun col => (permissionIs view col || permissionIs edit col)
                     && negb (isGeometry col) = true) columns.

(** The columns of the fields of [createPopupContent(record, geometryCol)]:
    the visible ones but [id], [Id] and the geometry column, six at most. *)
Definition popupColumns (columns : list Column) (geometryCol : string) : list Column :=
  take 6
    (filter (fun col => negb (String.eqb (key col) "id")
                        && negb (String.eqb (key col) geometryCol)
                        && negb (String.eqb (key col) "Id") = true)
            (visibleColumns columns)).

(** The fields of the popup that get an input: [canEdit]. *)
Definition popupInputs (columns : list Column) (geometryCol : string) : list Column :=
  filter (fun col => permissionIs edit col = true) (popupColumns columns geometryCol).

(** [hasEditableFields]: whether the popup gets its buttons. *)
Definition hasEditableFields (columns : list Column) : bool :=
  negb (Nat.eqb (length (editableColumns columns)) 0).

End Columns.

(* ===================================================================== *)
(** ** Filter and zoom *)
(* ===================================================================== *)

Module Filter.

Import JSString JSValue Legend Visibility.
#[local] Open Scope float_scope.

(** The lower-case image of one code unit below 256: the letters [A] to
    [Z], and the letters from 192 to 222 but the sign at 215. *)
Definition toLowerChar (c : ascii) : ascii :=
  let n := codeOf c in
  if ((65 <=? n) && (n <=? 90))%N then ascii_of_N (n + 32)
  else if ((192 <=? n) && (n <=? 222) && negb (n =? 215))%N then ascii_of_N (n + 32)
  else c.

Fixpoint toLowerCase (s : string) : string :=
  match s with
  | EmptyString => EmptyString
  | String c s' => String (toLowerChar c) (toLowerCase s')
  end.

(** Whether a layer is a label: a Leaflet marker with a [divIcon]. *)
Definition isLabel (layer : Layer) : bool :=
  match shape layer with
  | LabelShape _ => true
  | _ => false
  end.

Section Filter.

Variable Number_toString : float -> string.

(** The test of [applyFilter] on a layer, with [layer.record || {}]. *)
Definition matchesFilter (filterField filterValue : string) (layer : Layer) : bool :=
  let r : DataRecord := default ∅ (record layer) in
  let fieldValue := getField r filterField in
  truthy fieldValue
  && includes (toLowerCase (String_of Number_toString fieldValue))
              (toLowerCase filterValue).

(** [eachLayer(layer => layer.setStyle(...))]: a label is a Leaflet marker,
    which has no [setStyle], so the call on it throws and ends the loop;
    the layers before it keep their new style. The result is the layers
    and whether the loop threw. *)
Fixpoint eachLayerSetStyle (styleFor : Layer -> float * float) (layers : list Layer)
    : list Layer * bool :=
  match layers with
  | [] => ([], false)
  | layer :: rest =>
      match shape layer with
      | LabelShape _ => (layer :: rest, true)
      | _ =>
          let '(rest', threw) := eachLayerSetStyle styleFor rest in
          (setStyle layer (fst (styleFor layer)) (snd (styleFor layer)) :: rest', threw)
      end
  end.

(** [applyFilter] under the states [filterField] and [filterValue]. *)
Definition applyFilter (filterField filterValue : string) (group : option (list Layer))
    : option (list Layer) * bool :=
  if String.eqb filterField "" || String.eqb filterValue "" then (group, false)
  else
    match group with
    | None => (None, false)
    | Some layers =>
        let '(layers', threw) :=
          eachLayerSetStyle
            (fun layer =>
               if matchesFilter filterField filterValue layer then (1, 0.6)
               else (0.3, 0.1))
            layers in
        (Some layers', threw)
    end.

End Filter.

(** [clearFilter]: the layers, the states [filterField] and [filterValue]
    after it, and whether it threw before it reset the two states. *)
Definition clearFilter (filterField filterValue : string) (group : option (list Layer))
    : option (list Layer) * (string * string) * bool :=
  match group with
  | None => (None, ("", ""), false)
  | Some layers =>
      let '(layers', threw) := eachLayerSetStyle (fun _ => (1, 0.3)) layers in
      (Some layers', (if threw then (filterField, filterValue) else ("", "")), threw)
  end.

(** The click on [Clear Filter]: [clearFilter] and, when it set one of the
    two states to another text, the render that follows. When it threw it
    set no state, and when both states were empty already React sees no
    change: no render follows then, and the layers stay as the loop left
    them. *)
Definition clearFilterClick (rendered : list Layer) (filterField filterValue : string)
    (st : ViewState) : ViewState * (string * string) * bool :=
  let '(group, states, threw) := clearFilter filterField filterValue (layerGroup st) in
  let st' := mkViewState (hiddenValues st) (legendItems st) group in
  if threw || (String.eqb filterField "" && String.eqb filterValue "")
  then (st', states, threw)
  else (rerender rendered st', states, threw).

(** [a === b] on the values of a record. *)
Definition strictEquals (a b : JsValue) : bool :=
  match a, b with
  | JsUndefined, JsUndefined | JsNull, JsNull => true
  | JsBoolean x, JsBoolean y => Bool.eqb x y
  | JsNumber x, JsNumber y => (x =? y)
  | JsString x, JsString y => String.eqb x y
  | _, _ => false
  end.

(** The layers [zoomToRecord(record)] zooms to, one after the other: the
    view is left on the last of them. *)
Definition zoomMatches (layers : list Layer) (clicked : DataRecord) : list Layer :=
  filter (fun layer =>
            match record layer with
            | Some r => strictEquals (getField r "Id") (getField clicked "Id")
            | None => false
            end = true)
         layers.

(** [legendItems.some(item => !item.visible)]: whether the button
    [Show All] is rendered. *)
Definition showAllOffered (items : list LegendItem) : bool :=
  existsb (fun item => negb (visible item)) items.

(** The sum of the counts of a legend. *)
Definition totalCount (items : list LegendItem) : nat :=
  foldr (fun item n => (count item + n)%nat) 0%nat items.

End Filter.

(* ===================================================================== *)
(** ** Further scenarios *)
(* ===================================================================== *)

Module FurtherScenarios.

Import JSValue ColorAssigner Legend GeometryParser Visibility Measurement Renderer Scenarios.
#[local] Open Scope float_scope.

(** A geometry column that is hidden, and a record with a square in it. *)
Definition hiddenGeometryColumn : Column :=
  mkColumn "geometry" "Geometry" true (Some hidden).

Definition squareRecord : DataRecord :=
  {[ "Id" := JsNumber 7;
     "geometry" := JsString "POLYGON((0 0, 1 0, 1 1, 0 1, 0 0))";
     "status" := JsString "Active" ]}.

(** The label of a feature, which carries no record. *)
Definition labelOf (labelText : string) : Layer := labelLayer labelText.

(** The layer of the square of [squareRecord] as the rendering effect
    builds it under the colour field [status]. *)
Definition squareLayer : Layer :=
  mkLayer None
    (GeoJSONShape (Polygon [[(0, 0); (1, 0); (1, 1); (0, 1); (0, 0)]]))
    (mkPathStyle "#FECA57" 2 1 "#FECA57" 0.3).

(** The view of one active record with its value hidden and the legend
    built since: the data changed while the value was hidden. *)
Definition hiddenActiveView : ViewState :=
  mkViewState {[ "Active" ]}
    (generateLegendData numberText "status" [activeRecord] {[ "Active" ]})
    (Some [setStyle (markerOf activeRecord "#FECA57") 0 0]).

(** Two records keyed by a lower-case [id], as the popup and the table
    allow. *)
Definition lowerIdRecord (n : float) : DataRecord :=
  {[ "id" := JsNumber n; "status" := JsString "Active" ]}.

(** Three points on a line, as three clicks of a line measurement, and a
    distance on them. *)
Definition linePoints : list LatLng :=
  [mkLatLng 0 0; mkLatLng 0 3; mkLatLng 4 3].

Definition taxicab (a b : LatLng) : float :=
  abs (lat a - lat b) + abs (lng a - lng b).

End FurtherScenarios.

(* ===================================================================== *)
(** * Properties *)
(* ===================================================================== *)

(** ** Measurement engine *)

Section MeasurementFacts.

Import JSNumber Measurement Scenarios.
#[local] Open Scope float_scope.

Lemma getBounds_rightTriangle :
  getBounds rightTriangle =
  Some (mkBounds (mkLatLng 12.97 77.59)
                 (mkLatLng (12.97 + 100 / 111320) (77.59 + 100 / 111320))).
Proof. vm_compute. reflexivity. Qed.

(** C1, at the triangle of the scenario: the source binds the products
    before the differences, so it returns
    [|north - south * east - west * 111320 * 111320|], about 9.6e11 here,
    where the area of the bounding extent is about 10000 and the
    specification expects a value near 5000. *)
Theorem calculatePolygonArea_right_triangle :
  (960000000000 <? calculatePolygonArea rightTriangle) = true
  /\ (calculatePolygonArea rightTriangle <? 970000000000) = true
  /\ (exists b, getBounds rightTriangle = Some b
                /\ (9999 <? boundingExtentArea b) = true
                /\ (boundingExtentArea b <? 10001) = true
                /\ calculatePolygonArea rightTriangle <> boundingExtentArea b).
Proof.
  split; [vm_compute; reflexivity|].
  split; [vm_compute; reflexivity|].
  eexists. split; [apply getBounds_rightTriangle|].
  split; [vm_compute; reflexivity|].
  split; [vm_compute; reflexivity|].
  intros H.
  assert (Hlt : (calculatePolygonArea rightTriangle <? 970000000000) = true)
    by (vm_compute; reflexivity).
  rewrite H in Hlt. vm_compute in Hlt. discriminate.
Qed.

(** What the source computes from three points on: a function of the
    bounding extent alone. *)
Lemma calculatePolygonArea_unfold points b :
  (3 <= length points)%nat ->
  getBounds points = Some b ->
  calculatePolygonArea points =
  Math_abs (getNorth b - getSouth b * getEast b - getWest b * 111320 * 111320).
Proof.
  intros Hlen Hb. unfold calculatePolygonArea.
  destruct (Nat.ltb_spec (length points) 3) as [Hlt|_]; [lia|].
  rewrite Hb. reflexivity.
Qed.

(** It is no area of the polygon: two sessions with the same bounding extent
    get the same value. *)
Lemma calculatePolygonArea_extent_only points1 points2 :
  (3 <= length points1)%nat -> (3 <= length points2)%nat ->
  getBounds points1 = getBounds points2 ->
  calculatePolygonArea points1 = calculatePolygonArea points2.
Proof.
  intros H1 H2 Hb. unfold calculatePolygonArea.
  destruct (Nat.ltb_spec (length points1) 3) as [|_]; [lia|].
  destruct (Nat.ltb_spec (length points2) 3) as [|_]; [lia|].
  rewrite Hb. reflexivity.
Qed.

Lemma lineDistanceLoop_short distanceTo total points :
  (length points < 2)%nat -> lineDistanceLoop distanceTo total points = total.
Proof.
  destruct points as [|p [|q rest]]; simpl; intros Hlen; try reflexivity; lia.
Qed.

(** C10: fewer than two points give a distance of zero, fewer than three an
    area of zero. *)
Theorem degenerate_measurements_are_zero
    (distanceTo : LatLng -> LatLng -> float) (points : list LatLng) :
  ((length points < 2)%nat -> calculateLineDistance distanceTo points = 0)
  /\ ((length points < 3)%nat -> calculatePolygonArea points = 0).
Proof.
  split; intros Hlen.
  - unfold calculateLineDistance. apply lineDistanceLoop_short. exact Hlen.
  - unfold calculatePolygonArea.
    destruct (Nat.ltb_spec (length points) 3) as [_|Hge]; [reflexivity|lia].
Qed.

Lemma degenerate_measurements_are_zero_witness :
  calculateLineDistance (fun _ _ => 1) [mkLatLng 12.97 77.59] = 0
  /\ calculatePolygonArea [mkLatLng 12.97 77.59; mkLatLng 13 77.59] = 0.
Proof.
  split.
  - apply (proj1 (degenerate_measurements_are_zero (fun _ _ => 1) [mkLatLng 12.97 77.59])).
    simpl. lia.
  - apply (proj2 (degenerate_measurements_are_zero (fun _ _ => 1)
                    [mkLatLng 12.97 77.59; mkLatLng 13 77.59])).
    simpl. lia.
Defined.

(** C7: the boundaries of the metric formats, and the two branches of each
    format on either side of them. *)
Theorem metric_format_boundaries (Number_toString : float -> string) :
  formatDistance Number_toString metric 1000 = "1.00 km"
  /\ formatDistance Number_toString metric 999 = "999.00 m"
  /\ formatArea Number_toString metric 10000 = "1.00 hectares"
  /\ formatArea Number_toString metric 9999 = "9999.00 sq m"
  /\ (forall meters,
        formatDistance Number_toString metric meters =
        if meters <? 1000 then toFixed Number_toString meters 2 +:+ " m"
        else toFixed Number_toString (meters / 1000) 2 +:+ " km")
  /\ (forall sqMeters,
        formatArea Number_toString metric sqMeters =
        if sqMeters <? 10000 then toFixed Number_toString sqMeters 2 +:+ " sq m"
        else toFixed Number_toString (sqMeters / 10000) 2 +:+ " hectares").
Proof.
  repeat split; try (vm_compute; reflexivity); intros; reflexivity.
Qed.

End MeasurementFacts.

(** ** Categorical colour assigner *)

Section ColorFacts.

Import JSValue ColorAssigner Legend.

Lemma colors_length : length colors = 15%nat.
Proof. reflexivity. Qed.

Lemma paletteIndex_in_range (hash : Z) :
  (Z.to_nat (Z.abs hash mod Z.of_nat (length colors)) < length colors)%nat.
Proof.
  rewrite colors_length.
  pose proof (Z.mod_pos_bound (Z.abs hash) 15 ltac:(lia)) as Hb.
  change (Z.of_nat 15) with 15%Z. lia.
Qed.

Lemma getColorForValue_in_palette value field :
  getColorForValue value field ∈ colors.
Proof.
  unfold getColorForValue.
  destruct (lookup_lt_is_Some_2 colors _ (paletteIndex_in_range (hashOf value)))
    as [c Hc].
  rewrite Hc. simpl. eapply list_elem_of_lookup_2. exact Hc.
Qed.

Lemma getColorForValue_field_irrelevant value field1 field2 :
  getColorForValue value field1 = getColorForValue value field2.
Proof. reflexivity. Qed.

(** The hash stays within the range where binary64 is exact: each turn
    adds less than 2^31 + 2^8 to its magnitude. *)
Lemma toInt32_range z : (- 2 ^ 31 <= toInt32 z < 2 ^ 31)%Z.
Proof.
  unfold toInt32.
  pose proof (Z.mod_pos_bound (z + 2 ^ 31) (2 ^ 32) ltac:(lia)). lia.
Qed.

Lemma charCode_range c : (0 <= charCode c < 256)%Z.
Proof.
  unfold charCode, JSString.codeOf.
  pose proof (N_ascii_bounded c). lia.
Qed.

Lemma hashStep_bound hash c :
  (Z.abs (hashStep hash c) <= Z.abs hash + (2 ^ 31 + 2 ^ 8))%Z.
Proof.
  unfold hashStep, shiftLeft.
  pose proof (toInt32_range (Z.shiftl (toInt32 hash) 5)).
  pose proof (charCode_range c). lia.
Qed.

Lemma hash_fold_bound chars hash :
  (Z.abs (fold_left hashStep chars hash)
   <= Z.abs hash + Z.of_nat (length chars) * (2 ^ 31 + 2 ^ 8))%Z.
Proof.
  revert hash. induction chars as [|c chars IH]; intros hash; simpl fold_left.
  - simpl. lia.
  - specialize (IH (hashStep hash c)).
    pose proof (hashStep_bound hash c).
    rewrite length_cons. lia.
Qed.

(** The hash of a text of two million characters or fewer stays below
    2^53 in absolute value, where the numbers of JavaScript are exact. *)
Lemma hashOf_exact_range value :
  (String.length value <= 2 ^ 21)%nat -> (Z.abs (hashOf value) < 2 ^ 53)%Z.
Proof.
  intros Hlen. unfold hashOf.
  pose proof (hash_fold_bound (list_ascii_of_string value) 0) as Hb.
  assert (Hl : length (list_ascii_of_string value) = String.length value).
  { clear. induction value as [|c s IH]; simpl; [reflexivity|]. now rewrite IH. }
  rewrite Hl in Hb.
  assert (Z.of_nat (String.length value) <= 2 ^ 21)%Z.
  { apply Nat2Z.inj_le in Hlen. rewrite Nat2Z.inj_pow in Hlen. exact Hlen. }
  nia.
Qed.

End ColorFacts.

(** ** Legend *)

Section LegendFacts.

Import JSValue ColorAssigner Legend.

Variable Number_toString : float -> string.
Variable colorField : string.

Lemma mapHas_spec (m : ValueColorMap) k : mapHas m k = true <-> k ∈ m.*1.
Proof.
  induction m as [|[k' info] m IH]; simpl.
  - split; [discriminate|]. intros H. inversion H.
  - rewrite orb_true_iff, IH, elem_of_cons, String.eqb_eq. intuition congruence.
Qed.

Lemma mapIncrement_keys (m : ValueColorMap) k : (mapIncrement m k).*1 = m.*1.
Proof.
  induction m as [|[k' info] m IH]; [reflexivity|].
  cbn [mapIncrement]. destruct (String.eqb k' k); rewrite !fmap_cons; cbn [fst].
  - reflexivity.
  - now rewrite IH.
Qed.

Lemma mapIncrement_elem (m : ValueColorMap) v k info' :
  NoDup m.*1 ->
  (k, info') ∈ mapIncrement m v ->
  (k <> v /\ (k, info') ∈ m)
  \/ (k = v /\ exists info, (v, info) ∈ m
                /\ info' = mkColorCount (entryColor info) (S (entryCount info))).
Proof.
  induction m as [|[k0 info0] m IH]; simpl; intros Hnd Hin.
  - inversion Hin.
  - apply NoDup_cons in Hnd as [Hk0 Hnd].
    destruct (String.eqb_spec k0 v) as [->|Hne].
    + apply elem_of_cons in Hin as [Heq|Hin].
      * inversion Heq; subst. right. split; [reflexivity|].
        exists info0. split; [left|reflexivity].
      * destruct (decide (k = v)) as [->|Hkv].
        -- exfalso. apply Hk0. apply list_elem_of_fmap. exists (v, info'). auto.
        -- left. split; [exact Hkv|]. now right.
    + apply elem_of_cons in Hin as [Heq|Hin].
      * inversion Heq; subst. left. split; [exact Hne|left].
      * destruct (IH Hnd Hin) as [[Hkv Hm]|[-> [info [Hm ->]]]].
        -- left. split; [exact Hkv|now right].
        -- right. split; [reflexivity|]. exists info. split; [now right|reflexivity].
Qed.

Lemma recordsWith_snoc v l r :
  recordsWith Number_toString colorField v (l ++ [r]) =
  recordsWith Number_toString colorField v l ++ (if decide (recordValue Number_toString colorField r = v) then [r] else []).
Proof.
  unfold recordsWith. rewrite filter_app. reflexivity.
Qed.

Lemma recordsWith_nil_iff v l :
  recordsWith Number_toString colorField v l = [] <-> ~ exists r, r ∈ l /\ recordValue Number_toString colorField r = v.
Proof.
  unfold recordsWith. split.
  - intros Hnil [r [Hr Hv]].
    assert (Hin : r ∈ filter (fun r => recordValue Number_toString colorField r = v) l)
      by (apply list_elem_of_filter; split; assumption).
    rewrite Hnil in Hin. inversion Hin.
  - intros Hno. destruct (filter _ l) as [|r rest] eqn:Hf; [reflexivity|].
    exfalso. apply Hno. exists r.
    assert (Hin : r ∈ filter (fun r => recordValue Number_toString colorField r = v) l)
      by (rewrite Hf; left).
    apply list_elem_of_filter in Hin as [Hv Hr]. split; assumption.
Qed.

Lemma countsOf_nil : countsOf Number_toString colorField [] [].
Proof.
  split; [constructor|]. split.
  - intros k. split.
    + intros H. inversion H.
    + intros [r [H _]]. inversion H.
  - intros k info H. inversion H.
Qed.

Lemma countsOf_step l m r :
  countsOf Number_toString colorField l m ->
  countsOf Number_toString colorField (l ++ [r]) (countRecord Number_toString colorField m r).
Proof.
  intros (Hnd & Hkeys & Hinfo). unfold countRecord.
  fold (recordValue Number_toString colorField r). set (v := recordValue Number_toString colorField r).
  destruct (mapHas m v) eqn:Hhas.
  - apply mapHas_spec in Hhas.
    split; [rewrite mapIncrement_keys; exact Hnd|]. split.
    + intros k. rewrite mapIncrement_keys, Hkeys. split.
      * intros [r0 [Hr0 Hk]]. exists r0. split; [apply elem_of_app; now left|exact Hk].
      * intros [r0 [Hr0 Hk]]. apply elem_of_app in Hr0 as [Hr0|Hr0].
        -- exists r0. split; assumption.
        -- apply list_elem_of_singleton in Hr0. subst r0.
           apply Hkeys. fold v in Hk. rewrite <- Hk. exact Hhas.
    + intros k info' Hin.
      destruct (mapIncrement_elem m v k info' Hnd Hin)
        as [[Hkv Hm]|[-> [info [Hm ->]]]].
      * destruct (Hinfo k info' Hm) as [Hc Hn]. split; [exact Hc|].
        rewrite recordsWith_snoc. fold v.
        destruct (decide (v = k)) as [Heq|_]; [congruence|].
        now rewrite app_nil_r.
      * destruct (Hinfo v info Hm) as [Hc Hn]. simpl. split; [exact Hc|].
        rewrite recordsWith_snoc. fold v.
        destruct (decide (v = v)) as [_|Hne]; [|congruence].
        rewrite length_app. simpl. lia.
  - assert (Hnot : v ∉ m.*1).
    { intros Hin. apply mapHas_spec in Hin. congruence. }
    unfold mapSetNew. split.
    + rewrite fmap_app. simpl. apply NoDup_app. split; [exact Hnd|]. split.
      * intros k Hk Hk'. apply list_elem_of_singleton in Hk'. subst k. auto.
      * apply NoDup_singleton.
    + split.
      * intros k. rewrite fmap_app, elem_of_app, Hkeys. simpl. split.
        -- intros [[r0 [Hr0 Hk]]|Hk].
           ++ exists r0. split; [apply elem_of_app; now left|exact Hk].
           ++ apply list_elem_of_singleton in Hk. subst k.
              exists r. split; [apply elem_of_app; right; left|reflexivity].
        -- intros [r0 [Hr0 Hk]]. apply elem_of_app in Hr0 as [Hr0|Hr0].
           ++ left. exists r0. split; assumption.
           ++ apply list_elem_of_singleton in Hr0. subst r0. right.
              fold v in Hk. subst k. left.
      * intros k info Hin. apply elem_of_app in Hin as [Hin|Hin].
        -- destruct (Hinfo k info Hin) as [Hc Hn]. split; [exact Hc|].
           rewrite recordsWith_snoc. fold v.
           destruct (decide (v = k)) as [Heq|_]; [|now rewrite app_nil_r].
           exfalso. apply Hnot. subst k.
           apply list_elem_of_fmap. exists (v, info). auto.
        -- apply list_elem_of_singleton in Hin. inversion Hin; subst k info.
           simpl. split; [reflexivity|].
           rewrite recordsWith_snoc. fold v.
           destruct (decide (v = v)) as [_|Hne]; [|congruence].
           assert (Hnil : recordsWith Number_toString colorField v l = []).
           { apply recordsWith_nil_iff. intros Hex. apply Hnot, Hkeys, Hex. }
           rewrite Hnil. reflexivity.
Qed.

Lemma countsOf_fold data l m :
  countsOf Number_toString colorField l m ->
  countsOf Number_toString colorField (l ++ data) (fold_left (countRecord Number_toString colorField) data m).
Proof.
  revert l m. induction data as [|r data IH]; intros l m Hm; simpl.
  - now rewrite app_nil_r.
  - replace (l ++ r :: data) with ((l ++ [r]) ++ data)
      by (rewrite <- app_assoc; reflexivity).
    apply IH, countsOf_step, Hm.
Qed.

(** With a colour field selected and data at hand, the legend is the map
    of the counted values. *)
Lemma generateLegendData_selected data hiddenValues :
  colorField <> "" -> colorField <> "default" -> data <> [] ->
  generateLegendData Number_toString colorField data hiddenValues =
  map (fun '(value, info) =>
         mkLegendItem value (entryColor info) (entryCount info)
           (negb (bool_decide (value ∈ hiddenValues))))
      (fold_left (countRecord Number_toString colorField) data []).
Proof.
  intros H1 H2 H3. unfold generateLegendData.
  destruct (String.eqb_spec colorField "") as [|_]; [contradiction|].
  destruct (String.eqb_spec colorField "default") as [|_]; [contradiction|].
  simpl. rewrite bool_decide_eq_false_2; [reflexivity|].
  destruct data; [contradiction|]. simpl. lia.
Qed.

(** The items of the legend, one by one. *)
Lemma generateLegendData_items data hiddenValues :
  colorField <> "" -> colorField <> "default" -> data <> [] ->
  let items := generateLegendData Number_toString colorField data hiddenValues in
  NoDup (value <$> items)
  /\ (forall v, v ∈ (value <$> items) <-> exists r, r ∈ data /\ recordValue Number_toString colorField r = v)
  /\ (forall item, item ∈ items ->
        count item = length (recordsWith Number_toString colorField (value item) data)
        /\ color item = getColorForValue (value item) colorField
        /\ visible item = negb (bool_decide (value item ∈ hiddenValues))).
Proof.
  intros H1 H2 H3 items. subst items.
  rewrite (generateLegendData_selected data hiddenValues H1 H2 H3).
  destruct (countsOf_fold data [] [] countsOf_nil) as (Hnd & Hkeys & Hinfo).
  simpl in Hkeys, Hinfo.
  set (m := fold_left (countRecord Number_toString colorField) data []) in *.
  assert (Hval : value <$> map (fun '(value, info) =>
              mkLegendItem value (entryColor info) (entryCount info)
                (negb (bool_decide (value ∈ hiddenValues)))) m = m.*1).
  { clear. induction m as [|[k info] m IH]; [reflexivity|].
    cbn [map]. rewrite !fmap_cons. f_equal. exact IH. }
  rewrite Hval. split; [exact Hnd|]. split; [exact Hkeys|].
  intros item Hin. apply list_elem_of_fmap in Hin as [[k info] [-> Hin]].
  simpl. destruct (Hinfo k info Hin) as [Hc Hn]. auto.
Qed.

End LegendFacts.

(** ** Legend and features *)

Section LegendTheorems.

Import JSValue ColorAssigner Legend GeometryParser Scenarios.




Lemma generateLegendData_color Number_toString colorField data hiddenValues item :
  item ∈ generateLegendData Number_toString colorField data hiddenValues ->
  color item = getColorForValue (value item) colorField.
Proof.
  intros Hin.
  destruct (decide (colorField = "")) as [->|H1]; [inversion Hin|].
  destruct (decide (colorField = "default")) as [->|H2]; [inversion Hin|].
  destruct data as [|r data].
  - unfold generateLegendData in Hin.
    rewrite orb_true_r in Hin. inversion Hin.
  - apply (generateLegendData_items Number_toString colorField (r :: data)
             hiddenValues H1 H2 ltac:(discriminate)). exact Hin.
Qed.

(** C8: the colour of a value is a function of the value alone, whatever
    the field, one of the fifteen colours of the palette; the legend shows
    it for the value at every rebuild, and a feature whose field has a
    value is drawn in it. *)
Theorem getColorForValue_pure (Number_toString : float -> string) :
  (forall value field1 field2,
      getColorForValue value field1 = getColorForValue value field2)
  /\ (forall value field, getColorForValue value field ∈ colors)
  /\ length colors = 15%nat
  /\ (forall colorField1 data1 hidden1 colorField2 data2 hidden2 item1 item2,
        item1 ∈ generateLegendData Number_toString colorField1 data1 hidden1 ->
        item2 ∈ generateLegendData Number_toString colorField2 data2 hidden2 ->
        value item1 = value item2 ->
        color item1 = color item2
        /\ color item1 = getColorForValue (value item1) colorField1)
  /\ (forall colorField record index,
        colorField <> "" -> colorField <> "default" ->
        truthy (getField record colorField) = true ->
        getFeatureColor Number_toString colorField record index
        = getColorForValue (recordValue Number_toString colorField record) colorField).
Proof.
  split; [intros; reflexivity|].
  split; [intros; apply getColorForValue_in_palette|].
  split; [reflexivity|].
  split.
  - intros colorField1 data1 hidden1 colorField2 data2 hidden2 item1 item2 Hin1 Hin2 Hv.
    rewrite (generateLegendData_color _ _ _ _ _ Hin1),
            (generateLegendData_color _ _ _ _ _ Hin2), Hv.
    split; reflexivity.
  - intros colorField record index H1 H2 Ht. unfold getFeatureColor.
    destruct (String.eqb_spec colorField "") as [|_]; [contradiction|].
    destruct (String.eqb_spec colorField "default") as [|_]; [contradiction|].
    rewrite Ht. reflexivity.
Qed.

Lemma getColorForValue_pure_witness :
  getColorForValue "Active" "status" = getColorForValue "Active" "owner"
  /\ getColorForValue "Active" "status" ∈ colors
  /\ getFeatureColor numberText "status" truncatedRecord 0
     = getColorForValue "Active" "status".
Proof.
  pose proof (getColorForValue_pure numberText) as (Hf & Hp & _ & _ & Hc).
  split; [apply Hf|]. split; [apply Hp|].
  apply (Hc "status" truncatedRecord 0%nat); [discriminate|discriminate|].
  vm_compute. reflexivity.
Defined.

End LegendTheorems.

(** ** Visibility controller *)

Section VisibilityFacts.

Import JSValue ColorAssigner Legend GeometryParser Visibility.
#[local] Open Scope float_scope.

Variable Number_toString : float -> string.
Variable colorField : string.
Variable rendered : list Layer.

(** A layer keeps its record, its shape and the options of its style that
    [setStyle] is not given. *)
Lemma updateLayer_frame hiddenVals layer :
  let layer' := updateLayer Number_toString colorField hiddenVals layer in
  record layer' = record layer
  /\ shape layer' = shape layer
  /\ Visibility.color (style layer') = Visibility.color (style layer)
  /\ weight (style layer') = weight (style layer)
  /\ fillColor (style layer') = fillColor (style layer).
Proof.
  unfold updateLayer. destruct (record layer) as [r|] eqn:Hr.
  - destruct (bool_decide _); simpl; rewrite Hr; repeat split; reflexivity.
  - simpl. rewrite Hr. repeat split; reflexivity.
Qed.

(** The two options it sets are those of the hidden set. *)
Lemma updateLayer_style hiddenVals layer w :
  layerValue Number_toString colorField layer = Some w ->
  let layer' := updateLayer Number_toString colorField hiddenVals layer in
  (w ∈ hiddenVals -> opacity (style layer') = 0 /\ fillOpacity (style layer') = 0)
  /\ (w ∉ hiddenVals -> opacity (style layer') = 1 /\ fillOpacity (style layer') = 0.3).
Proof.
  unfold layerValue, updateLayer. destruct (record layer) as [r|]; [|discriminate].
  intros [= <-]. simpl. split; intros Hw.
  - rewrite bool_decide_eq_true_2 by exact Hw. simpl. split; reflexivity.
  - rewrite bool_decide_eq_false_2 by exact Hw. simpl. split; reflexivity.
Qed.

Lemma updateLayer_no_record hiddenVals layer :
  layerValue Number_toString colorField layer = None ->
  updateLayer Number_toString colorField hiddenVals layer = layer.
Proof.
  unfold layerValue, updateLayer. destruct (record layer); [discriminate|reflexivity].
Qed.

(** Two hidden sets that agree on the value of a layer style it alike. *)
Lemma updateLayer_agree hidden1 hidden2 layer w :
  layerValue Number_toString colorField layer = Some w ->
  (w ∈ hidden1 <-> w ∈ hidden2) ->
  updateLayer Number_toString colorField hidden1 layer
  = updateLayer Number_toString colorField hidden2 layer.
Proof.
  unfold layerValue, updateLayer. destruct (record layer) as [r|]; [|discriminate].
  intros [= <-] Hiff. simpl.
  destruct (decide (categoryOf Number_toString (getField r colorField) ∈ hidden1)) as [Hin|Hout].
  - rewrite !bool_decide_eq_true_2; [reflexivity| |]; tauto.
  - rewrite !bool_decide_eq_false_2; [reflexivity| |]; tauto.
Qed.

Lemma updateLayer_idempotent hiddenVals layer :
  updateLayer Number_toString colorField hiddenVals
    (updateLayer Number_toString colorField hiddenVals layer)
  = updateLayer Number_toString colorField hiddenVals layer.
Proof.
  unfold updateLayer. destruct (record layer) as [r|] eqn:Hr.
  - destruct (bool_decide _) eqn:Hb; simpl; rewrite Hr, Hb; reflexivity.
  - rewrite Hr. reflexivity.
Qed.

Lemma toggle_hiddenValues value st w :
  w ∈ hiddenValues (toggleLegendItem Number_toString colorField value st)
  <-> (if decide (w = value) then w ∉ hiddenValues st else w ∈ hiddenValues st).
Proof.
  unfold toggleLegendItem. simpl.
  destruct (decide (value ∈ hiddenValues st)) as [Hin|Hout].
  - rewrite bool_decide_eq_true_2 by exact Hin.
    rewrite elem_of_difference, elem_of_singleton.
    destruct (decide (w = value)) as [->|Hne]; intuition.
  - rewrite bool_decide_eq_false_2 by exact Hout.
    rewrite elem_of_union, elem_of_singleton.
    destruct (decide (w = value)) as [->|Hne]; intuition.
Qed.

(** The rendering effect changes the layers alone. *)
Lemma renderingEffect_hiddenValues st :
  hiddenValues (renderingEffect rendered st) = hiddenValues st.
Proof. unfold renderingEffect. destruct (layerGroup st); reflexivity. Qed.

Lemma renderingEffect_legendItems st :
  legendItems (renderingEffect rendered st) = legendItems st.
Proof. unfold renderingEffect. destruct (layerGroup st); reflexivity. Qed.

Lemma renderingEffect_layerGroup st :
  layerGroup (renderingEffect rendered st)
  = match layerGroup st with
    | Some _ => Some rendered
    | None => None
    end.
Proof.
  unfold renderingEffect. destruct (layerGroup st) eqn:Hgroup; [reflexivity|exact Hgroup].
Qed.

(** The handlers of the legend leave the layer group where it is: there
    before them, there after them. *)
Lemma handler_layerGroup st op :
  is_Some (layerGroup match op with
                      | Toggle value => toggleLegendItem Number_toString colorField value st
                      | ShowAll => showAll st
                      end)
  <-> is_Some (layerGroup st).
Proof.
  destruct op as [value|]; [|reflexivity].
  unfold toggleLegendItem, updateLayerVisibility. cbn [layerGroup].
  destruct (layerGroup st); [|reflexivity].
  destruct (_ || _); split; intros _; eexists; reflexivity.
Qed.

(** What a click leaves in the three parts of the view. *)
Lemma step_hiddenValues st op :
  hiddenValues (step Number_toString colorField rendered st op)
  = match op with
    | Toggle value => hiddenValues (toggleLegendItem Number_toString colorField value st)
    | ShowAll => ∅
    end.
Proof.
  unfold step, hiddenValuesEffect. cbn [hiddenValues].
  rewrite renderingEffect_hiddenValues. destruct op; reflexivity.
Qed.

Lemma step_legendItems st op :
  legendItems (step Number_toString colorField rendered st op)
  = match op with
    | Toggle _ => legendItems st
    | ShowAll => legendItems (showAll st)
    end.
Proof.
  unfold step, hiddenValuesEffect. cbn [legendItems].
  rewrite renderingEffect_legendItems. destruct op; reflexivity.
Qed.

Lemma step_layerGroup st op :
  layerGroup (step Number_toString colorField rendered st op)
  = match layerGroup st with
    | Some _ =>
        updateLayerVisibility Number_toString colorField
          (hiddenValues (step Number_toString colorField rendered st op)) (Some rendered)
    | None => None
    end.
Proof.
  rewrite step_hiddenValues. unfold step, hiddenValuesEffect. cbn [layerGroup].
  rewrite renderingEffect_hiddenValues, renderingEffect_layerGroup.
  pose proof (handler_layerGroup st op) as Hgroup.
  destruct (layerGroup st) as [layers|].
  - destruct (proj2 Hgroup (mk_is_Some _ _ eq_refl)) as [layers' ->].
    destruct op; reflexivity.
  - destruct (layerGroup _) as [layers'|] eqn:Hg; [|reflexivity].
    destruct (proj1 Hgroup (mk_is_Some _ _ eq_refl)) as [? [=]].
Qed.

(** A toggle leaves the legend items as they are. *)
Lemma toggle_keeps_legendItems value st :
  legendItems (step Number_toString colorField rendered st (Toggle value))
  = legendItems st.
Proof. apply step_legendItems. Qed.

Section Selected.

Hypothesis colorField_selected : colorField <> "" /\ colorField <> "default".

Lemma updateLayerVisibility_selected hiddenVals layers :
updateLayerVisibility Number_toString colorField hiddenVals (Some layers)
= Some (map (updateLayer Number_toString colorField hiddenVals) layers).
Proof.
destruct colorField_selected as [H1 H2]. unfold updateLayerVisibility.
destruct (String.eqb_spec colorField "") as [|_]; [contradiction|].
destruct (String.eqb_spec colorField "default") as [|_]; [contradiction|].
reflexivity.
Qed.

(** After a click the layers are those the rendering effect built, styled
    by the hidden values. *)
Lemma step_layers st op layers :
  layerGroup st = Some layers ->
  layerGroup (step Number_toString colorField rendered st op)
  = Some (map (updateLayer Number_toString colorField
                 (hiddenValues (step Number_toString colorField rendered st op)))
              rendered).
Proof.
  intros Hgroup. rewrite step_layerGroup, Hgroup.
  apply updateLayerVisibility_selected.
Qed.

(** After a click and its effect the layers that carry a record are styled
  by the hidden values. *)
Lemma layers_follow_hiddenValues st op layers' layer' w :
layerGroup (step Number_toString colorField rendered st op) = Some layers' ->
layer' ∈ layers' ->
layerValue Number_toString colorField layer' = Some w ->
let hidden := hiddenValues (step Number_toString colorField rendered st op) in
(w ∈ hidden -> opacity (style layer') = 0 /\ fillOpacity (style layer') = 0)
/\ (w ∉ hidden -> opacity (style layer') = 1 /\ fillOpacity (style layer') = 0.3).
Proof.
intros Hgroup Hin Hval hidden. subst hidden.
rewrite step_layerGroup in Hgroup.
destruct (layerGroup st) as [layers|]; [|discriminate].
rewrite updateLayerVisibility_selected in Hgroup. injection Hgroup as <-.
apply list_elem_of_fmap in Hin as [layer1 [-> Hin1]].
assert (Hval1 : layerValue Number_toString colorField layer1 = Some w).
{ unfold layerValue in *.
  match type of Hval with
  | context [updateLayer _ _ ?hidden layer1] =>
      destruct (updateLayer_frame hidden layer1) as [Hr _]
  end.
  rewrite Hr in Hval. exact Hval. }
apply (updateLayer_style
         (hiddenValues (step Number_toString colorField rendered st op)) layer1 w Hval1).
Qed.

Lemma run_snoc ops op st :
  run Number_toString colorField rendered (ops ++ [op]) st
  = step Number_toString colorField rendered
      (run Number_toString colorField rendered ops st) op.
Proof. unfold run. rewrite fold_left_app. reflexivity. Qed.

(** So they are after any sequence of clicks, one at least. *)
Lemma layers_follow_hiddenValues_run ops st layers' layer' w :
  ops <> [] ->
  layerGroup (run Number_toString colorField rendered ops st) = Some layers' ->
  layer' ∈ layers' ->
  layerValue Number_toString colorField layer' = Some w ->
  let hidden := hiddenValues (run Number_toString colorField rendered ops st) in
  (w ∈ hidden -> opacity (style layer') = 0 /\ fillOpacity (style layer') = 0)
  /\ (w ∉ hidden -> opacity (style layer') = 1 /\ fillOpacity (style layer') = 0.3).
Proof.
  intros Hne. destruct (exists_last Hne) as (ops' & op & ->).
  rewrite run_snoc. apply layers_follow_hiddenValues.
Qed.

End Selected.

End VisibilityFacts.

Section VisibilityTheorems.

Import JSValue ColorAssigner Legend GeometryParser Visibility Renderer.
Import Scenarios FurtherScenarios.
#[local] Open Scope float_scope.

(** The rendering effect draws the record of the scenarios as the marker
    of the view. *)
Lemma scenarioLayers_activeRecord :
  scenarioLayers [activeRecord] = [markerOf activeRecord "#FECA57"].
Proof. vm_compute. reflexivity. Qed.

(** C2, at the view of one active record: after a toggle of its value the
    value is hidden and its marker is transparent, while its legend item
    still says visible. *)
Theorem legend_item_stale_after_toggle :
  let st := step numberText "status" (scenarioLayers [activeRecord]) activeView
              (Toggle "Active") in
  "Active" ∈ hiddenValues st
  /\ legendItems st = [mkLegendItem "Active" "#FECA57" 1 true]
  /\ (exists layer, layerGroup st = Some [layer] /\ opacity (style layer) = 0)
  /\ ~ (forall item, item ∈ legendItems st ->
           visible item = negb (bool_decide (value item ∈ hiddenValues st))).
Proof.
  assert (Hin : "Active" ∈ hiddenValues
                  (step numberText "status" (scenarioLayers [activeRecord]) activeView
                     (Toggle "Active"))).
  { rewrite step_hiddenValues.
    apply (toggle_hiddenValues numberText "status" "Active" activeView "Active").
    rewrite decide_True by reflexivity. apply not_elem_of_empty. }
  split; [exact Hin|]. split; [vm_compute; reflexivity|].
  split; [eexists; split; [vm_compute; reflexivity|reflexivity]|].
  intros Hall.
  specialize (Hall (mkLegendItem "Active" "#FECA57" 1 true)).
  rewrite bool_decide_eq_true_2 in Hall by exact Hin.
  simpl in Hall. discriminate Hall. vm_compute. left.
Qed.

(** C9, at a data set of a polygon and a marker of the status [Active] and
    a marker of the status [Inactive]. The layer of the polygon in the
    group carries no record, the markers carry theirs. After a toggle of
    [Active] the value is hidden and the active marker is transparent,
    but the polygon of the same value is drawn as before; the inactive
    marker, filled at 0.8 when it is built, is filled at 0.3; and the
    layers are those the rendering effect built anew, whatever the group
    held before the click. *)
Theorem toggle_misses_polygons :
  let data := [squareRecord; activeRecord; inactiveRecord] in
  let legend := generateLegendData numberText "status" data ∅ in
  let st := step numberText "status" (scenarioLayers data)
              (mkViewState ∅ legend (Some (scenarioLayers data))) (Toggle "Active") in
  scenarioLayers data
  = [squareLayer; markerOf activeRecord "#FECA57"; markerOf inactiveRecord "#96CEB4"]
  /\ recordValue numberText "status" squareRecord = "Active"
  /\ layerValue numberText "status" squareLayer = None
  /\ "Active" ∈ hiddenValues st
  /\ layerGroup st
     = Some [squareLayer;
             setStyle (markerOf activeRecord "#FECA57") 0 0;
             setStyle (markerOf inactiveRecord "#96CEB4") 1 0.3]
  /\ opacity (style squareLayer) = 1
  /\ fillOpacity (style squareLayer) = 0.3
  /\ fillOpacity (style (markerOf inactiveRecord "#96CEB4")) = 0.8
  /\ (forall previous,
        layerGroup (step numberText "status" (scenarioLayers data)
                      (mkViewState ∅ legend (Some previous)) (Toggle "Active"))
        = layerGroup st).
Proof.
  intros data legend st.
  assert (Hsel : "status" <> "" /\ "status" <> "default") by (split; discriminate).
  split; [vm_compute; reflexivity|].
  split; [vm_compute; reflexivity|].
  split; [reflexivity|].
  split.
  { subst st. rewrite step_hiddenValues.
    apply (toggle_hiddenValues numberText "status" "Active" _ "Active").
    rewrite decide_True by reflexivity. apply not_elem_of_empty. }
  split; [vm_compute; reflexivity|].
  split; [reflexivity|]. split; [reflexivity|]. split; [reflexivity|].
  intros previous. subst st.
  rewrite (step_layers numberText "status" (scenarioLayers data) Hsel
             (mkViewState ∅ legend (Some previous)) (Toggle "Active") previous eq_refl).
  rewrite (step_layers numberText "status" (scenarioLayers data) Hsel
             (mkViewState ∅ legend (Some (scenarioLayers data))) (Toggle "Active")
             (scenarioLayers data) eq_refl).
  rewrite !step_hiddenValues. reflexivity.
Qed.

End VisibilityTheorems.

(** ** Geometry parser *)

Section StringFacts.

Import JSString.

Lemma startsWith_app s t w : startsWith s w = true -> startsWith (s +:+ t) w = true.
Proof.
  revert w. induction s as [|c s IH]; intros [|a w] H; simpl in *;
    try reflexivity; try discriminate.
  apply andb_true_iff in H as [Ha Hs].
  rewrite Ha. simpl. apply IH, Hs.
Qed.

Lemma includes_startsWith s w : startsWith s w = true -> includes s w = true.
Proof. intros H. destruct s; simpl in *; rewrite H; reflexivity. Qed.

Lemma includes_app_r pre s w : includes s w = true -> includes (pre +:+ s) w = true.
Proof.
  intros H. induction pre as [|c pre IH]; simpl; [exact H|].
  rewrite IH. apply orb_true_r.
Qed.

Lemma toUpperCase_app s t : toUpperCase (s +:+ t) = toUpperCase s +:+ toUpperCase t.
Proof. induction s as [|c s IH]; simpl; [reflexivity|]. now rewrite IH. Qed.

Lemma trimStart_suffix s : exists pre, s = pre +:+ trimStart s.
Proof.
  induction s as [|c s [pre IH]]; simpl.
  - exists "". reflexivity.
  - destruct (isWhiteSpace c).
    + exists (String c pre). change (String c s = String c (pre +:+ trimStart s)).
      f_equal. exact IH.
    + exists "". reflexivity.
Qed.

Lemma trimEnd_prefix s : exists post, s = trimEnd s +:+ post.
Proof.
  induction s as [|c s [post IH]]; simpl.
  - exists "". reflexivity.
  - destruct (trimEnd s) as [|d t] eqn:Ht.
    + destruct (isWhiteSpace c).
      * exists (String c s). reflexivity.
      * exists s. reflexivity.
    + exists post. change (String c s = String c (String d t +:+ post)).
      f_equal. exact IH.
Qed.

(** The tag test of the rendering effect is stronger than the test of the
    manual parser: a word that starts the trimmed, upper-cased text occurs
    in the upper-cased text. *)
Lemma tag_occurs s w :
  startsWith (toUpperCase (trim s)) w = true -> includes (toUpperCase s) w = true.
Proof.
  unfold trim. intros H.
  destruct (trimStart_suffix s) as [pre Hpre].
  destruct (trimEnd_prefix (trimStart s)) as [post Hpost].
  rewrite Hpre, toUpperCase_app. apply includes_app_r, includes_startsWith.
  rewrite Hpost, toUpperCase_app. apply startsWith_app, H.
Qed.

End StringFacts.

Section RegexFacts.

Import JSString Regex.

Lemma greedyStar_reaches cls k s r :
  greedyStar cls k s = Some r -> exists s', k s' = Some r.
Proof.
  induction s as [|d s IH]; simpl; intros H.
  - exists "". exact H.
  - destruct (cls d).
    + destruct (greedyStar cls k s) as [r'|] eqn:Hs.
      * injection H as <-. apply IH. reflexivity.
      * exists (String d s). exact H.
    + exists (String d s). exact H.
Qed.

(** A pattern that begins with a word matches only where the text, upper
    case, begins with the word. *)
Lemma matchHere_word w rest captured s r :
  matchHere (word w ++ rest) captured s = Some r ->
  startsWith (toUpperCase s) (toUpperCase w) = true.
Proof.
  revert s. induction w as [|c w IH]; intros s H; [reflexivity|].
  simpl in H. destruct s as [|d s]; [discriminate|].
  destruct (Ascii.eqb_spec (toUpperChar d) (toUpperChar c)) as [Heq|_]; [|discriminate].
  simpl. rewrite Heq, Ascii.eqb_refl. simpl. apply IH, H.
Qed.

Lemma regexMatch_word w rest s r :
  regexMatch (word w ++ rest) s = Some r ->
  includes (toUpperCase s) (toUpperCase w) = true.
Proof.
  induction s as [|d s IH]; simpl; intros H.
  - destruct (matchHere (word w ++ rest) "" "") as [r'|] eqn:Hm; [|discriminate].
    apply matchHere_word in Hm. simpl in Hm. rewrite Hm. reflexivity.
  - destruct (matchHere (word w ++ rest) "" (String d s)) as [r'|] eqn:Hm.
    + apply matchHere_word in Hm. simpl in Hm. rewrite Hm. reflexivity.
    + rewrite (IH H). apply orb_true_r.
Qed.

Lemma append_assoc_char acc d s :
  (acc +:+ String d "") +:+ s = acc +:+ String d s.
Proof.
  induction acc as [|c acc IH]; [reflexivity|].
  change (String c ((acc +:+ String d "") +:+ s) = String c (acc +:+ String d s)).
  now rewrite IH.
Qed.

(** A greedy star over a run of its class, before a text that does not go
    on with the class: the continuation is tried right after the run. *)
Lemma greedyStar_skips cls k run rest r :
  allChars cls run = true ->
  match rest with String d _ => cls d = false | EmptyString => True end ->
  k rest = Some r ->
  greedyStar cls k (run +:+ rest) = Some r.
Proof.
  intros Hrun Hrest Hk. induction run as [|c run IH].
  - change ("" +:+ rest) with rest.
    destruct rest as [|d rest']; simpl; [exact Hk|]. now rewrite Hrest.
  - simpl in Hrun. apply andb_true_iff in Hrun as [Hc Hrun].
    change (String c run +:+ rest) with (String c (run +:+ rest)).
    simpl. rewrite Hc, (IH Hrun). reflexivity.
Qed.

(** A greedy group over a text of its class, before a text that does not go
    on with the class: the whole text is captured when the continuation
    accepts it. *)
Lemma greedyGroup_takes_all cls k acc body rest r :
  allChars cls body = true ->
  match rest with String d _ => cls d = false | EmptyString => True end ->
  k (acc +:+ body) rest = Some r ->
  greedyGroup cls k acc (body +:+ rest) = Some r.
Proof.
  revert acc. induction body as [|c body IH]; intros acc Hbody Hrest Hk.
  - change ("" +:+ rest) with rest.
    assert (Hacc : acc +:+ "" = acc).
    { clear. induction acc as [|c acc IH]; [reflexivity|].
      change (String c (acc +:+ "") = String c acc). now rewrite IH. }
    rewrite Hacc in Hk.
    destruct rest as [|d rest']; simpl; [exact Hk|]. now rewrite Hrest.
  - simpl in Hbody. apply andb_true_iff in Hbody as [Hc Hbody].
    change (String c body +:+ rest) with (String c (body +:+ rest)).
    simpl. rewrite Hc.
    rewrite (IH (acc +:+ String c "") Hbody Hrest); [reflexivity|].
    rewrite append_assoc_char. exact Hk.
Qed.

Lemma trimStart_run s :
  exists run, s = run +:+ trimStart s /\ allChars isWhiteSpace run = true.
Proof.
  induction s as [|c s (run & IH & Hrun)]; simpl.
  - exists "". split; reflexivity.
  - destruct (isWhiteSpace c) eqn:Hc.
    + exists (String c run). split.
      * change (String c s = String c (run +:+ trimStart s)). f_equal. exact IH.
      * simpl. now rewrite Hc, Hrun.
    + exists "". split; reflexivity.
Qed.

Lemma trimStart_head s d t : trimStart s = String d t -> isWhiteSpace d = false.
Proof.
  induction s as [|c s IH]; simpl; [discriminate|].
  destruct (isWhiteSpace c) eqn:Hc; [exact IH|].
  intros [= <- _]. exact Hc.
Qed.

Lemma allChars_app cls s t :
  allChars cls (s +:+ t) = allChars cls s && allChars cls t.
Proof.
  induction s as [|c s IH]; [reflexivity|].
  change (String c s +:+ t) with (String c (s +:+ t)).
  simpl. now rewrite IH, andb_assoc.
Qed.

(** The text [POLYGON((body))], for a body that holds no closing
    parenthesis and is not blank, is matched by the pattern of [POLYGON],
    and the capture is the body from its first character that is no
    white space. *)
Lemma polygon_text_matches body :
  allChars notRparen body = true ->
  trimStart body <> "" ->
  regexMatch POLYGON_RE ("POLYGON((" +:+ body +:+ "))") = Some (trimStart body).
Proof.
  intros Hbody Hcore.
  destruct (trimStart_run body) as (run & Hsplit & Hrun).
  destruct (trimStart body) as [|d core] eqn:Htrim; [contradiction|].
  pose proof (trimStart_head body d core Htrim) as Hd.
  assert (Hcls : allChars notRparen (String d core) = true).
  { rewrite Hsplit, allChars_app in Hbody. apply andb_true_iff in Hbody. tauto. }
  simpl in Hcls. apply andb_true_iff in Hcls as [Hd' Hcore'].
  assert (Hhere : matchHere POLYGON_RE ""
                    ("POLYGON((" +:+ body +:+ "))") = Some (String d core)).
  { rewrite Hsplit.
    change (matchHere POLYGON_RE "" ("POLYGON((" +:+ (run +:+ String d core) +:+ "))"))
      with (greedyStar isWhiteSpace
              (matchHere [Group notRparen; ws; rparen; ws; rparen] "")
              ((run +:+ String d core) +:+ "))")).
    assert (Hassoc : (run +:+ String d core) +:+ "))"
                     = run +:+ (String d (core +:+ "))"))).
    { clear. induction run as [|c run IH]; [reflexivity|].
      change (String c ((run +:+ String d core) +:+ "))")
              = String c (run +:+ String d (core +:+ "))"))). now rewrite IH. }
    rewrite Hassoc.
    apply greedyStar_skips; [exact Hrun|exact Hd|].
    simpl. rewrite Hd'.
    apply greedyGroup_takes_all; [exact Hcore'|reflexivity|reflexivity]. }
  destruct body as [|c body]; simpl in *; rewrite Hhere; reflexivity.
Qed.

End RegexFacts.

Section ParserFacts.

Import JSNumber JSString JSNumeric Regex JSValue GeometryParser.

Lemma strictEq_refl x : isNaN x = false -> strictEq x x = true.
Proof.
  unfold isNaN, is_nan, strictEq. intros H. apply negb_false_iff in H. exact H.
Qed.

Lemma parsePair_valid pair p :
  parsePair pair = Some p -> isNaN (fst p) = false /\ isNaN (snd p) = false.
Proof.
  unfold parsePair.
  destruct (isNaN (parseFloatAt _ 0)) eqn:H0; [discriminate|].
  destruct (isNaN (parseFloatAt _ 1)) eqn:H1; [discriminate|].
  simpl. intros [= <-]. simpl. split; assumption.
Qed.

Lemma filterNotNull_elem {A : Type} (l : list (option A)) (a : A) :
  a ∈ filterNotNull l <-> Some a ∈ l.
Proof.
  induction l as [|[b|] l IH]; simpl.
  - split; intros H; inversion H.
  - rewrite !elem_of_cons, IH. split; intros [H|H]; auto; left; congruence.
  - rewrite elem_of_cons, IH. split; [auto|]. intros [H|H]; [discriminate|exact H].
Qed.

Lemma parseCoordPairs_valid coordString p :
  p ∈ parseCoordPairs coordString ->
  isNaN (fst p) = false /\ isNaN (snd p) = false.
Proof.
  unfold parseCoordPairs. intros H.
  apply filterNotNull_elem, list_elem_of_fmap in H as [pair [Hp _]].
  symmetry in Hp. apply parsePair_valid in Hp. exact Hp.
Qed.

Lemma parseCoordPairs_empty : parseCoordPairs "" = [].
Proof. vm_compute. reflexivity. Qed.

(** With one pair at least, closing the ring ends normally, with a closed
    ring: the pairs themselves when they are closed, the pairs and the
    first of them otherwise. *)
Lemma closeRing_spec coordPairs :
  (forall p, p ∈ coordPairs -> isNaN (fst p) = false /\ isNaN (snd p) = false) ->
  (1 <= length coordPairs)%nat ->
  exists firstPoint ring,
    coordPairs !! 0%nat = Some firstPoint
    /\ closeRing coordPairs = Normal ring
    /\ ringClosed ring = true
    /\ ring = if ringClosed coordPairs then coordPairs else coordPairs ++ [firstPoint].
Proof.
  intros Hvalid Hlen.
  destruct (lookup_lt_is_Some_2 coordPairs 0%nat ltac:(lia)) as [firstPoint Hf].
  destruct (lookup_lt_is_Some_2 coordPairs (length coordPairs - 1)%nat ltac:(lia))
    as [lastPoint Hl].
  exists firstPoint. unfold closeRing, ringClosed at 2. rewrite Hf, Hl.
  destruct (strictEq (fst firstPoint) (fst lastPoint)) eqn:H0;
    [destruct (strictEq (snd firstPoint) (snd lastPoint)) eqn:H1|]; simpl.
  - exists coordPairs. split; [reflexivity|]. split; [reflexivity|].
    split; [|reflexivity]. unfold ringClosed. now rewrite Hf, Hl, H0, H1.
  - exists (coordPairs ++ [(fst firstPoint, snd firstPoint)]).
    split; [reflexivity|]. split; [reflexivity|].
    destruct firstPoint as [x y]. simpl. split; [|reflexivity].
    unfold ringClosed. rewrite lookup_app_l by lia. rewrite Hf.
    rewrite length_app. simpl.
    replace (length coordPairs + 1 - 1)%nat with (length coordPairs) by lia.
    rewrite list_lookup_middle by reflexivity. simpl.
    destruct (Hvalid (x, y)) as [Hx Hy]; [eapply list_elem_of_lookup_2, Hf|].
    simpl in Hx, Hy. now rewrite !strictEq_refl.
  - exists (coordPairs ++ [(fst firstPoint, snd firstPoint)]).
    split; [reflexivity|]. split; [reflexivity|].
    destruct firstPoint as [x y]. simpl. split; [|reflexivity].
    unfold ringClosed. rewrite lookup_app_l by lia. rewrite Hf.
    rewrite length_app. simpl.
    replace (length coordPairs + 1 - 1)%nat with (length coordPairs) by lia.
    rewrite list_lookup_middle by reflexivity. simpl.
    destruct (Hvalid (x, y)) as [Hx Hy]; [eapply list_elem_of_lookup_2, Hf|].
    simpl in Hx, Hy. now rewrite !strictEq_refl.
Qed.

(** The body of the [try] block never throws: the handler of
    [parseMultiPolygonManually] is never entered. *)
Lemma parseMultiPolygonManually_body_normal wkt :
  exists r, parseMultiPolygonManually_body wkt = Normal r.
Proof.
  unfold parseMultiPolygonManually_body.
  destruct (appearsTruncated wkt); [eexists; reflexivity|].
  destruct (extractCoordString wkt) as [coordString isMultiPolygon].
  destruct (String.eqb coordString ""); [eexists; reflexivity|].
  destruct (Nat.ltb_spec (length (parseCoordPairs coordString)) 3) as [_|Hlen];
    [eexists; reflexivity|].
  destruct (closeRing_spec (parseCoordPairs coordString)
              (parseCoordPairs_valid coordString) ltac:(lia))
    as (firstPoint & ring & _ & Hring & _).
  rewrite Hring. destruct isMultiPolygon; eexists; reflexivity.
Qed.

(** What the manual parser answers, case by case. *)
Lemma parseMultiPolygonManually_cases wkt :
  let coordString := fst (extractCoordString wkt) in
  let isMultiPolygon := snd (extractCoordString wkt) in
  let coordPairs := parseCoordPairs coordString in
  if appearsTruncated wkt then parseMultiPolygonManually wkt = None
  else if (length coordPairs <? 3)%nat then parseMultiPolygonManually wkt = None
  else exists firstPoint ring,
      coordPairs !! 0%nat = Some firstPoint
      /\ ringClosed ring = true
      /\ ring = (if ringClosed coordPairs then coordPairs else coordPairs ++ [firstPoint])
      /\ parseMultiPolygonManually wkt
         = Some (if isMultiPolygon then MultiPolygon [[ring]] else Polygon [ring]).
Proof.
  intros coordString isMultiPolygon coordPairs.
  subst coordString isMultiPolygon coordPairs.
  unfold parseMultiPolygonManually, parseMultiPolygonManually_body.
  destruct (appearsTruncated wkt); [reflexivity|].
  destruct (extractCoordString wkt) as [coordString isMultiPolygon]. cbn [fst snd].
  destruct (Nat.ltb_spec (length (parseCoordPairs coordString)) 3) as [Hlt|Hlen].
  - destruct (String.eqb coordString ""); reflexivity.
  - destruct (String.eqb_spec coordString "") as [->|_].
    + rewrite parseCoordPairs_empty in Hlen. simpl in Hlen. lia.
    + destruct (closeRing_spec (parseCoordPairs coordString)
                  (parseCoordPairs_valid coordString) ltac:(lia))
        as (firstPoint & ring & Hf & Hring & Hclosed & Heq).
      exists firstPoint, ring. rewrite Hring.
      split; [exact Hf|]. split; [exact Hclosed|]. split; [exact Heq|].
      destruct isMultiPolygon; reflexivity.
Qed.

End ParserFacts.

(** ** Numbers and pairs of the coordinate list *)

Section FloatFacts.

(** The numbers the rounding of [SpecFloat] gives are numbers: its
    mantissas stay at zero or above, so that its branch of [NaN] is never
    taken. *)
Lemma shr_1_nonneg mrs : (0 <= shr_m mrs)%Z -> (0 <= shr_m (shr_1 mrs))%Z.
Proof.
  destruct mrs as [m r s]. destruct m as [|[p|p|]|p]; simpl; lia.
Qed.

Lemma iter_shr_1_nonneg n mrs :
  (0 <= shr_m mrs)%Z -> (0 <= shr_m (SpecFloat.iter_pos shr_1 n mrs))%Z.
Proof.
  revert mrs. induction n as [n IH|n IH|]; intros mrs H; simpl.
  - apply IH, IH, shr_1_nonneg, H.
  - apply IH, IH, H.
  - apply shr_1_nonneg, H.
Qed.

Lemma shr_fexp_nonneg m e l :
  (0 <= m)%Z -> (0 <= shr_m (fst (shr_fexp prec emax m e l)))%Z.
Proof.
  intros Hm. unfold shr_fexp, shr.
  assert (H0 : (0 <= shr_m (shr_record_of_loc m l))%Z).
  { destruct l as [|[]]; exact Hm. }
  destruct (_ - e)%Z; simpl; [exact H0| |exact H0].
  apply iter_shr_1_nonneg, H0.
Qed.

Lemma round_nearest_even_nonneg mx lx :
  (0 <= mx)%Z -> (0 <= round_nearest_even mx lx)%Z.
Proof.
  intros H. unfold round_nearest_even.
  destruct lx as [|[]]; [exact H| |exact H|lia].
  destruct (Z.even mx); lia.
Qed.

Lemma binary_round_aux_not_nan sx mx ex lx :
  (0 <= mx)%Z -> binary_round_aux prec emax sx mx ex lx <> S754_nan.
Proof.
  intros Hm. unfold binary_round_aux.
  pose proof (shr_fexp_nonneg mx ex lx Hm) as H1.
  destruct (shr_fexp prec emax mx ex lx) as [mrs' e']. simpl in H1.
  pose proof (shr_fexp_nonneg _ e' loc_Exact
                (round_nearest_even_nonneg _ (loc_of_shr_record mrs') H1)) as H2.
  destruct (shr_fexp prec emax _ e' loc_Exact) as [mrs'' e'']. simpl in H2.
  destruct (shr_m mrs'') as [|p|p]; [discriminate| |lia].
  destruct (e'' <=? _)%Z; discriminate.
Qed.

Lemma binary_round_not_nan sx mx ex : binary_round prec emax sx mx ex <> S754_nan.
Proof.
  unfold binary_round. destruct (shl_align _ _ _) as [mz ez].
  apply binary_round_aux_not_nan. lia.
Qed.

Lemma binary_normalize_not_nan m e szero :
  binary_normalize prec emax m e szero <> S754_nan.
Proof.
  destruct m; simpl; [discriminate| |]; apply binary_round_not_nan.
Qed.

Lemma is_nan_Prim2SF f : Prim2SF f <> S754_nan -> is_nan f = false.
Proof.
  intros H. destruct (is_nan f) eqn:Hn; [|reflexivity].
  exfalso. apply H. unfold Prim2SF. rewrite Hn. reflexivity.
Qed.

Lemma Prim2SF_not_nan f : is_nan f = false -> Prim2SF f <> S754_nan.
Proof.
  intros Hn. unfold Prim2SF. rewrite Hn.
  destruct (is_zero f); [discriminate|].
  destruct (is_infinity f); [discriminate|].
  destruct (Z.frexp f) as [r exp].
  destruct (shr_fexp _ _ _ _ _) as [mrs e'].
  destruct (shr_m mrs); discriminate.
Qed.

Lemma is_nan_opp f : is_nan f = false -> is_nan (- f) = false.
Proof.
  intros Hn. apply is_nan_Prim2SF. rewrite opp_spec.
  pose proof (Prim2SF_not_nan f Hn) as Hf.
  destruct (Prim2SF f); [discriminate|discriminate|contradiction|discriminate].
Qed.

Lemma SF2Prim_not_nan x : x <> S754_nan -> is_nan (SF2Prim x) = false.
Proof.
  intros Hx. destruct x as [[]|[]| |s m e]; try reflexivity; [contradiction|].
  unfold SF2Prim.
  assert (Hf : is_nan (Z.ldexp (of_uint63 (Uint63.of_Z (Z.pos m))) e) = false).
  { apply is_nan_Prim2SF.
    unfold Z.ldexp. rewrite ldshiftexp_spec, of_uint63_spec.
    unfold SFldexp.
    pose proof (binary_normalize_not_nan
                  (Uint63.to_Z (Uint63.of_Z (Z.pos m))) 0 false) as Hn.
    destruct (binary_normalize _ _ _ _ _) as [| | |s' m' e'];
      [discriminate|discriminate|contradiction|apply binary_round_not_nan]. }
  destruct s; [apply is_nan_opp, Hf|exact Hf].
Qed.

End FloatFacts.

Section PairFacts.

Import JSNumber JSString JSNumeric GeometryParser CoordinateText.

(** A decimal literal is never read as [NaN]. *)
Lemma decimalToFloat_not_nan neg m e10 : isNaN (decimalToFloat neg m e10) = false.
Proof.
  unfold isNaN, decimalToFloat.
  assert (Ha : forall a, is_nan a = false -> is_nan (if neg then (- a)%float else a) = false).
  { intros a Ha. destruct neg; [apply is_nan_opp, Ha|exact Ha]. }
  apply Ha.
  destruct (m =? 0)%N; [reflexivity|].
  destruct (0 <=? e10)%Z; apply SF2Prim_not_nan, binary_normalize_not_nan.
Qed.

(** The digits at the head of a text: none when it does not start with
    one, and then nothing is taken of the text. *)
Lemma scanDigits_no_digit s acc :
  match s with
  | String c _ => isDigit c = false
  | EmptyString => True
  end ->
  scanDigits s acc = (acc, 0%nat, s).
Proof. destruct s as [|c s]; simpl; [reflexivity|]. intros ->. reflexivity. Qed.

Lemma scanDigits_digit c s acc :
  isDigit c = true ->
  exists v n r, scanDigits (String c s) acc = (v, S n, r).
Proof.
  intros Hc. simpl. rewrite Hc.
  destruct (scanDigits s _) as [[v n] r]. exists v, n, r. reflexivity.
Qed.

(** Where [parseFloat] finds a decimal literal at the head of a text. *)
Lemma scanUnsignedDecimal_None t :
  scanUnsignedDecimal t = None
  <-> match t with
      | String c r =>
          isDigit c
          || (Ascii.eqb c "."%char
              && match r with
                 | String d _ => isDigit d
                 | EmptyString => false
                 end)
      | EmptyString => false
      end = false.
Proof.
  destruct t as [|c r]; [split; reflexivity|].
  unfold scanUnsignedDecimal.
  destruct (isDigit c) eqn:Hc.
  - destruct (scanDigits_digit c r 0%N Hc) as (v & n & r1 & ->).
    cbn [orb]. split; [|discriminate]. intros H. exfalso. revert H.
    destruct r1 as [|c1 r2]; [destruct (scanExponent _); discriminate|].
    destruct (Ascii.eqb_spec c1 "."%char) as [->|Hne].
    + destruct (scanDigits r2 v) as [[m nf] r3]. destruct (scanExponent r3).
      discriminate.
    + destruct c1 as [[] [] [] [] [] [] [] []];
        try (destruct (scanExponent _); discriminate).
      contradiction Hne. reflexivity.
  - rewrite (scanDigits_no_digit (String c r) 0%N Hc). cbn [orb].
    destruct (Ascii.eqb_spec c "."%char) as [->|Hne].
    + cbn [andb]. destruct r as [|d r'].
      * simpl. split; reflexivity.
      * destruct (isDigit d) eqn:Hd.
        -- destruct (scanDigits_digit d r' 0%N Hd) as (v & n & r3 & ->).
           destruct (scanExponent r3). split; discriminate.
        -- rewrite (scanDigits_no_digit (String d r') 0%N Hd). split; reflexivity.
    + cbn [andb]. split; [reflexivity|]. intros _.
      destruct c as [[] [] [] [] [] [] [] []]; try reflexivity.
      contradiction Hne. reflexivity.
Qed.

Lemma readsNumber_scanSign s :
  readsNumber s = startsNumeral (snd (scanSign (trimStart s))).
Proof.
  unfold readsNumber, scanSign. destruct (trimStart s) as [|c t]; [reflexivity|].
  destruct c as [[] [] [] [] [] [] [] []]; reflexivity.
Qed.

(** [parseFloat] answers [NaN] exactly for the texts that do not read as a
    number. *)
Lemma parseFloat_isNaN s : isNaN (parseFloat s) = negb (readsNumber s).
Proof.
  rewrite readsNumber_scanSign. unfold parseFloat, startsNumeral.
  destruct (scanSign (trimStart s)) as [neg t]. cbn [snd].
  destruct (startsWith t "Infinity"); [destruct neg; reflexivity|].
  cbn [orb].
  destruct (scanUnsignedDecimal t) as [[[m e] r]|] eqn:Hscan.
  - rewrite decimalToFloat_not_nan. symmetry. apply negb_false_iff.
    apply not_false_is_true. intros Hfalse.
    apply scanUnsignedDecimal_None in Hfalse. congruence.
  - apply scanUnsignedDecimal_None in Hscan. rewrite Hscan. reflexivity.
Qed.

(** The callback of the parser gives the pair a token stands for. *)
Lemma parsePair_tokenPair token : parsePair token = tokenPair token.
Proof.
  unfold parsePair, tokenPair, parseFloatAt.
  destruct (splitWhiteSpace (trim token)) as [|a [|b rest]]; cbn [lookup list_lookup].
  - reflexivity.
  - rewrite orb_true_r. reflexivity.
  - rewrite !parseFloat_isNaN.
    destruct (readsNumber a), (readsNumber b); reflexivity.
Qed.

Lemma filterNotNull_omap {A B : Type} (f : A -> option B) (l : list A) :
  filterNotNull (map f l) = omap f l.
Proof.
  induction l as [|a l IH]; [reflexivity|]. cbn [map filterNotNull omap list_omap].
  destruct (f a); rewrite IH; reflexivity.
Qed.

(** The pairs the parser keeps are the pairs of the coordinate list. *)
Lemma parseCoordPairs_coordinatePairs coordString :
  parseCoordPairs coordString = coordinatePairs coordString.
Proof.
  unfold parseCoordPairs, coordinatePairs.
  rewrite <- filterNotNull_omap. f_equal. apply map_ext, parsePair_tokenPair.
Qed.

(** The ring of a list of pairs is the list when it is closed, the list
    and its first pair otherwise. *)
Lemma closedRing_cases pairs firstPoint :
  pairs !! 0%nat = Some firstPoint ->
  closedRing pairs = if ringClosed pairs then pairs else pairs ++ [firstPoint].
Proof.
  intros Hf. destruct pairs as [|p l]; [discriminate|]. injection Hf as ->.
  unfold closedRing, ringClosed. rewrite last_lookup.
  cbn [length Init.Nat.pred].
  replace (S (length l) - 1)%nat with (length l) by lia.
  change ((firstPoint :: l) !! 0%nat) with (Some firstPoint).
  destruct ((firstPoint :: l) !! length l) as [final|] eqn:Hl; [reflexivity|].
  exfalso. apply lookup_ge_None in Hl. simpl in Hl. lia.
Qed.

End PairFacts.

Section ParserTheorems.

Import JSNumber JSString JSNumeric Regex JSValue GeometryParser CoordinateText Scenarios.
#[local] Open Scope float_scope.

Lemma not_multipolygon_not_truncated wkt :
  includes (toUpperCase wkt) "MULTIPOLYGON" = false -> appearsTruncated wkt = false.
Proof. unfold appearsTruncated. intros ->. reflexivity. Qed.

Lemma extractCoordString_polygon wkt coordString :
  includes (toUpperCase wkt) "MULTIPOLYGON" = false ->
  regexMatch POLYGON_RE wkt = Some coordString ->
  extractCoordString wkt = (coordString, false).
Proof.
  intros Hmulti Hmatch. unfold extractCoordString. rewrite Hmulti.
  assert (Hword : includes (toUpperCase wkt) "POLYGON" = true).
  { unfold POLYGON_RE in Hmatch. apply regexMatch_word in Hmatch. exact Hmatch. }
  rewrite Hword, Hmatch. reflexivity.
Qed.

(** What the manual parser answers to a text of a polygon, in the pairs of
    its coordinate list. *)
Lemma polygon_match_parses wkt coordString :
  includes (toUpperCase wkt) "MULTIPOLYGON" = false ->
  regexMatch POLYGON_RE wkt = Some coordString ->
  parseMultiPolygonManually wkt
  = if (length (coordinatePairs coordString) <? 3)%nat then None
    else Some (Polygon [closedRing (coordinatePairs coordString)]).
Proof.
  intros Hmulti Hmatch.
  pose proof (parseMultiPolygonManually_cases wkt) as Hcases.
  rewrite (not_multipolygon_not_truncated wkt Hmulti) in Hcases.
  rewrite (extractCoordString_polygon wkt coordString Hmulti Hmatch) in Hcases.
  cbn [fst snd] in Hcases. rewrite parseCoordPairs_coordinatePairs in Hcases.
  destruct (length (coordinatePairs coordString) <? 3)%nat; [exact Hcases|].
  destruct Hcases as (firstPoint & ring & Hf & _ & Hring & Hparse).
  rewrite Hparse, Hring, (closedRing_cases _ _ Hf). reflexivity.
Qed.

(** A ring made of pairs that hold no [NaN] is closed. *)
Lemma closedRing_closed coordString :
  (1 <= length (coordinatePairs coordString))%nat ->
  ringClosed (closedRing (coordinatePairs coordString)) = true
  /\ exists firstPoint,
      coordinatePairs coordString !! 0%nat = Some firstPoint
      /\ closedRing (coordinatePairs coordString)
         = (if ringClosed (coordinatePairs coordString)
            then coordinatePairs coordString
            else coordinatePairs coordString ++ [firstPoint]).
Proof.
  intros Hlen. rewrite <- parseCoordPairs_coordinatePairs in *.
  destruct (closeRing_spec (parseCoordPairs coordString)
              (parseCoordPairs_valid coordString) Hlen)
    as (firstPoint & ring & Hf & _ & Hclosed & Hring).
  rewrite (closedRing_cases _ _ Hf), <- Hring.
  split; [exact Hclosed|]. exists firstPoint. split; [exact Hf|exact Hring].
Qed.


(** The text [POLYGON((body))] of a body without a closing parenthesis,
    not blank and without the word [MULTIPOLYGON] in the text, is answered
    by [null] when the body gives fewer than three pairs and by the
    polygon of the ring of its pairs otherwise. *)
Lemma polygon_text_parses body :
  allChars notRparen body = true ->
  trimStart body <> "" ->
  includes (toUpperCase ("POLYGON((" +:+ body +:+ "))")) "MULTIPOLYGON" = false ->
  let pairs := coordinatePairs (trimStart body) in
  parseMultiPolygonManually ("POLYGON((" +:+ body +:+ "))")
  = (if (length pairs <? 3)%nat then None else Some (Polygon [closedRing pairs]))
  /\ ((3 <= length pairs)%nat -> ringClosed (closedRing pairs) = true).
Proof.
  intros Hbody Hcore Hmulti pairs. split.
  - apply (polygon_match_parses _ _ Hmulti (polygon_text_matches body Hbody Hcore)).
  - intros Hlen. apply closedRing_closed. fold pairs. lia.
Qed.

(** The scenarios of the specification, run. An open ring of three pairs is
    closed by a fourth, and two pairs are not enough. *)
Example parse_scenarios :
  parseMultiPolygonManually scenarioPolygon
  = Some (Polygon [[(77.1, 12.9); (77.2, 12.9); (77.2, 13.0); (77.1, 12.9)]%float])
  /\ parseMultiPolygonManually scenarioTruncated = None
  /\ parseMultiPolygonManually "POLYGON((0 0, 1 0, 1 1))"
     = Some (Polygon [[(0, 0); (1, 0); (1, 1); (0, 0)]%float])
  /\ parseMultiPolygonManually "polygon (( 0 0 , 1 0 ))" = None
  /\ parseMultiPolygonManually "MultiPolygon (((0 0, 1 0, 1 1)))"
     = Some (MultiPolygon [[[(0, 0); (1, 0); (1, 1); (0, 0)]%float]]).
Proof. repeat split; vm_compute; reflexivity. Qed.




(** C4: a text in which [MULTIPOLYGON] occurs and [)))] does not is answered
    by [null], without a throw. Without the fallback parser the cell of
    such a text adds no polygon, and when the text starts with the tag the
    cell is a WKT cell without a geometry; with the fallback parser loaded
    the cell holds what that parser answers, and nothing of the manual
    parser. *)
Theorem truncated_multipolygon_is_null (wkt : string) :
  includes (toUpperCase wkt) "MULTIPOLYGON" = true ->
  includes wkt ")))" = false ->
  parseMultiPolygonManually wkt = None
  /\ parseMultiPolygonManually_body wkt = Normal None
  /\ (forall g, processGeometryData None (JsString wkt) <> WktGeometry (Some g))
  /\ (startsWith (toUpperCase (trim wkt)) "MULTIPOLYGON" = true ->
      processGeometryData None (JsString wkt) = WktGeometry None
      /\ forall parse,
          processGeometryData (Some parse) (JsString wkt)
          = WktGeometry (catchNull (parse wkt))).
Proof.
  intros Htag Hparens.
  assert (Hbody : parseMultiPolygonManually_body wkt = Normal None).
  { unfold parseMultiPolygonManually_body, appearsTruncated.
    rewrite Htag, Hparens. reflexivity. }
  assert (Hnull : parseMultiPolygonManually wkt = None).
  { unfold parseMultiPolygonManually. rewrite Hbody. reflexivity. }
  split; [exact Hnull|]. split; [exact Hbody|]. split.
  - intros g. unfold processGeometryData. rewrite Hnull.
    destruct (truthy (JsString wkt)); [|discriminate].
    destruct (_ || _); discriminate.
  - intros Hstart. unfold processGeometryData. rewrite Hnull, Hstart.
    destruct wkt as [|c wkt]; [discriminate Htag|]. simpl.
    rewrite orb_true_r. split; [reflexivity|]. intros parse. reflexivity.
Qed.

Lemma truncated_multipolygon_is_null_witness :
  parseMultiPolygonManually scenarioTruncated = None
  /\ processGeometryData None (JsString scenarioTruncated) = WktGeometry None.
Proof.
  destruct (truncated_multipolygon_is_null scenarioTruncated
              ltac:(vm_compute; reflexivity) ltac:(vm_compute; reflexivity))
    as (Hnull & _ & _ & Hcell).
  split; [exact Hnull|]. apply Hcell. vm_compute. reflexivity.
Defined.

(** C5, at the text of a point whose second field is no number. The text
    can not be parsed, yet [parseCoordinates] does not answer [null]: it
    answers a pair whose latitude is [NaN], since the route of [POINT]
    reads its fields with [Number] and does not test them. The route of
    the comma and the manual parser of polygons do test for [NaN]: a pair
    read from a comma text never holds one, and a text without a number
    is answered by [null] there. The cell of the point is handed to
    Leaflet as a marker, which Leaflet refuses by an exception that the
    rendering effect catches: no layer is added. *)
Theorem point_without_number_is_not_null :
  parseCoordinates "POINT(1e3 12px)" = Some (nan, 1000)
  /\ parseCoordinates "POINT(north east)" = Some (nan, nan)
  /\ (forall wellknown,
        processGeometryData wellknown (JsString "POINT(1e3 12px)")
        = Marker (Some (nan, 1000)))
  /\ addsFeature (Marker (Some (nan, 1000))) = false
  /\ (forall coordString lat lng,
        includes (trim coordString) "POINT" = false ->
        parseCoordinates coordString = Some (lat, lng) ->
        isNaN lat = false /\ isNaN lng = false)
  /\ parseCoordinates "1e3, north" = None
  /\ parseMultiPolygonManually "POLYGON((1e3 north, 1 1, 2 2))" = None.
Proof.
  split; [vm_compute; reflexivity|]. split; [vm_compute; reflexivity|].
  split; [intros wellknown; vm_compute; reflexivity|].
  split; [vm_compute; reflexivity|].
  split; [|split; vm_compute; reflexivity].
  intros coordString lat lng Hpoint. unfold parseCoordinates.
  destruct (String.eqb coordString ""); [discriminate|]. rewrite Hpoint.
  destruct (includes (trim coordString) ","); [|discriminate].
  destruct (map _ (split "," (trim coordString))) as [|p0 [|p1 rest]];
    try discriminate.
  destruct (isNaN p0) eqn:H0; [discriminate|].
  destruct (isNaN p1) eqn:H1; [discriminate|]. simpl.
  destruct (Math_abs p0 <=? 90)%float; intros [= <- <-]; auto.
Qed.

(** The manual parser never throws: the body of its [try] block always
    ends normally. Its answer is [null] exactly for a truncated text and
    for a text whose coordinate list, as the patterns extract it, gives
    fewer than three pairs; a cell that is no text is not rendered, nor
    is the empty text; and where the fallback parser throws, the cell
    holds what the manual parser answered. *)
Theorem manual_parser_never_throws
    (wellknown : option (string -> completion (option Geometry)))
    (geomData : JsValue) :
  (forall wkt, exists r, parseMultiPolygonManually_body wkt = Normal r)
  /\ (forall wkt,
        parseMultiPolygonManually wkt = None
        <-> appearsTruncated wkt = true
            \/ (length (coordinatePairs (fst (extractCoordString wkt))) < 3)%nat)
  /\ ((forall s, geomData <> JsString s) ->
      processGeometryData wellknown geomData = NotRendered)
  /\ processGeometryData wellknown (JsString "") = NotRendered
  /\ addsFeature NotRendered = false
  /\ (forall s,
        startsWith (toUpperCase (trim s)) "POLYGON"
        || startsWith (toUpperCase (trim s)) "MULTIPOLYGON" = true ->
        processGeometryData (Some (fun _ => Throw)) (JsString s)
        = WktGeometry (parseMultiPolygonManually s)
        /\ processGeometryData None (JsString s)
           = WktGeometry (parseMultiPolygonManually s)).
Proof.
  split; [apply parseMultiPolygonManually_body_normal|]. split.
  - intros wkt. pose proof (parseMultiPolygonManually_cases wkt) as Hcases.
    cbn zeta in Hcases. rewrite parseCoordPairs_coordinatePairs in Hcases.
    destruct (appearsTruncated wkt); [intuition|].
    destruct (Nat.ltb_spec
                (length (coordinatePairs (fst (extractCoordString wkt)))) 3)
      as [Hlt|Hge].
    + intuition.
    + destruct Hcases as (firstPoint & ring & _ & _ & _ & Hparse).
      rewrite Hparse. split; [discriminate|]. intros [H|H]; [discriminate|lia].
  - split.
    { intros Hs. unfold processGeometryData.
      destruct geomData as [| |b|x|s]; try (destruct (truthy _); reflexivity).
      exfalso. apply (Hs s). reflexivity. }
    split; [reflexivity|]. split; [reflexivity|].
    intros s Htag. unfold processGeometryData. rewrite Htag.
    destruct (truthy (JsString s)) eqn:Ht.
    + destruct (parseMultiPolygonManually s); split; reflexivity.
    + exfalso. destruct s; [discriminate Htag|discriminate Ht].
Qed.

End ParserTheorems.

(* ===================================================================== *)
(** * Further properties *)
(* ===================================================================== *)

(** ** Geometry parser and feature builder *)

Section ParserMore.

Import JSNumber JSString JSNumeric Regex JSValue GeometryParser Scenarios.
Import FurtherScenarios.

Lemma extractCoordString_tag wkt :
  snd (extractCoordString wkt) = includes (toUpperCase wkt) "MULTIPOLYGON".
Proof.
  unfold extractCoordString.
  destruct (includes (toUpperCase wkt) "MULTIPOLYGON"); [reflexivity|].
  destruct (includes (toUpperCase wkt) "POLYGON"); reflexivity.
Qed.

(** Whatever the manual parser answers but [null] is one closed ring of
    three positions or more, none of them [NaN]: a multipolygon of that
    one ring when the text holds the word [MULTIPOLYGON], which then also
    holds [)))], and a polygon otherwise. *)
Theorem parseMultiPolygonManually_sound (wkt : string) (g : Geometry) :
  parseMultiPolygonManually wkt = Some g ->
  exists ring,
    g = (if includes (toUpperCase wkt) "MULTIPOLYGON"
         then MultiPolygon [[ring]] else Polygon [ring])
    /\ ringClosed ring = true
    /\ (3 <= length ring)%nat
    /\ (forall p, p ∈ ring -> isNaN (fst p) = false /\ isNaN (snd p) = false)
    /\ (includes (toUpperCase wkt) "MULTIPOLYGON" = true -> includes wkt ")))" = true).
Proof.
  intros Hparse.
  pose proof (parseMultiPolygonManually_cases wkt) as Hcases. cbn zeta in Hcases.
  rewrite extractCoordString_tag in Hcases.
  destruct (appearsTruncated wkt) eqn:Htrunc; [congruence|].
  destruct (Nat.ltb_spec (length (parseCoordPairs (fst (extractCoordString wkt)))) 3)
    as [Hlt|Hge]; [congruence|].
  destruct Hcases as (firstPoint & ring & Hf & Hclosed & Hring & Hsome).
  rewrite Hsome in Hparse. injection Hparse as <-.
  exists ring. split.
  { destruct (includes (toUpperCase wkt) "MULTIPOLYGON"); reflexivity. }
  split; [exact Hclosed|].
  set (coordPairs := parseCoordPairs (fst (extractCoordString wkt))) in *.
  assert (Hvalid : forall p, p ∈ coordPairs -> isNaN (fst p) = false /\ isNaN (snd p) = false)
    by apply parseCoordPairs_valid.
  split; [|split].
  - rewrite Hring. destruct (ringClosed coordPairs); [exact Hge|].
    rewrite length_app. lia.
  - intros p Hp. rewrite Hring in Hp. destruct (ringClosed coordPairs).
    + apply Hvalid, Hp.
    + apply elem_of_app in Hp as [Hp|Hp]; [apply Hvalid, Hp|].
      apply list_elem_of_singleton in Hp. subst p.
      apply Hvalid. eapply list_elem_of_lookup_2, Hf.
  - intros Htag. unfold appearsTruncated in Htrunc. rewrite Htag in Htrunc.
    simpl in Htrunc. apply negb_false_iff in Htrunc. exact Htrunc.
Qed.

Lemma parseMultiPolygonManually_sound_witness :
  exists ring,
    Polygon [[(77.1, 12.9); (77.2, 12.9); (77.2, 13.0); (77.1, 12.9)]%float]
    = Polygon [ring]
    /\ ringClosed ring = true /\ (3 <= length ring)%nat.
Proof.
  destruct (parseMultiPolygonManually_sound scenarioPolygon
              (Polygon [[(77.1, 12.9); (77.2, 12.9); (77.2, 13.0); (77.1, 12.9)]%float])
              ltac:(vm_compute; reflexivity))
    as (ring & Hg & Hclosed & Hlen & _).
  exists ring. split; [exact Hg|]. split; [exact Hclosed|exact Hlen].
Defined.

Lemma polygon_text_parses_witness :
  parseMultiPolygonManually ("POLYGON((" +:+ scenarioCoordString +:+ "))")
  = Some (Polygon [[(77.1, 12.9); (77.2, 12.9); (77.2, 13.0); (77.1, 12.9)]%float])
  /\ parseMultiPolygonManually ("POLYGON((" +:+ "0 0, 1 0, north 1" +:+ "))") = None.
Proof.
  pose proof (polygon_text_parses scenarioCoordString
                ltac:(vm_compute; reflexivity) ltac:(vm_compute; discriminate)
                ltac:(vm_compute; reflexivity)) as [Hring _].
  pose proof (polygon_text_parses "0 0, 1 0, north 1"
                ltac:(vm_compute; reflexivity) ltac:(vm_compute; discriminate)
                ltac:(vm_compute; reflexivity)) as [Hnull _].
  split; [rewrite Hring|rewrite Hnull]; vm_compute; reflexivity.
Defined.

(** The coordinate pair of a cell. A text without [POINT] and without a
    comma has none, and neither has a text that holds [POINT] but not in
    the shape of the pattern, whatever else it holds. A pair read from a
    comma text never holds [NaN], and its latitude is within 90 degrees
    unless the number it took as longitude is beyond them. *)
Theorem parseCoordinates_routes (coordString : string) :
  (includes (trim coordString) "POINT" = false ->
   includes (trim coordString) "," = false ->
   parseCoordinates coordString = None)
  /\ (includes (trim coordString) "POINT" = true ->
      regexMatch POINT_RE (trim coordString) = None ->
      parseCoordinates coordString = None)
  /\ (includes (trim coordString) "POINT" = false ->
      forall lat lng,
        parseCoordinates coordString = Some (lat, lng) ->
        isNaN lat = false /\ isNaN lng = false
        /\ ((Math_abs lat <=? 90)%float = true \/ (Math_abs lng <=? 90)%float = false)).
Proof.
  unfold parseCoordinates.
  destruct (String.eqb coordString "").
  { repeat split; intros; try reflexivity; discriminate. }
  split; [intros -> ->; reflexivity|].
  split; [intros -> ->; reflexivity|].
  intros -> lat lng.
  destruct (includes (trim coordString) ","); [|discriminate].
  destruct (map _ (split "," (trim coordString))) as [|p0 [|p1 rest]];
    try discriminate.
  destruct (isNaN p0) eqn:H0; [discriminate|].
  destruct (isNaN p1) eqn:H1; [discriminate|]. simpl.
  destruct (Math_abs p0 <=? 90)%float eqn:Hle; intros [= <- <-]; auto.
Qed.

Lemma parseCoordinates_routes_witness :
  parseCoordinates "polygon" = None
  /\ parseCoordinates "POINT 12.9, 77.5" = None.
Proof.
  pose proof (parseCoordinates_routes "polygon") as (Hnone & _).
  pose proof (parseCoordinates_routes "POINT 12.9, 77.5") as (_ & Hpoint & _).
  split; [apply Hnone|apply Hpoint]; vm_compute; reflexivity.
Defined.

(** A feature comes from a record of the data set and one of the geometry
    columns, whose cell holds a text that is not empty: a number, a
    boolean, [null] or a missing cell never gives a feature. There are no
    more features than cells. *)
Theorem buildFeatures_sound
    (wellknown : option (string -> completion (option Geometry)))
    (geometryColumns : list Column) (data : list DataRecord)
    (r : DataRecord) (k : string) :
  ((r, k) ∈ buildFeatures wellknown geometryColumns data ->
   r ∈ data
   /\ (exists col, col ∈ geometryColumns /\ key col = k)
   /\ (exists s, getField r k = JsString s /\ s <> "")
   /\ addsFeature (processGeometryData wellknown (getField r k)) = true)
  /\ (length (buildFeatures wellknown geometryColumns data)
      <= length data * length geometryColumns)%nat.
Proof.
  split.
  - unfold buildFeatures. intros Hin.
    apply list_elem_of_In, in_flat_map in Hin as (r0 & Hr0 & Hin).
    apply in_flat_map in Hin as (col & Hcol & Hin).
    apply list_elem_of_In, list_elem_of_filter in Hcol as [Htruthy Hcol].
    destruct (addsFeature (processGeometryData wellknown (getField r0 (key col))))
      eqn:Hadds; [|inversion Hin].
    destruct Hin as [[= <- <-]|[]].
    split; [apply list_elem_of_In, Hr0|].
    split; [exists col; split; [exact Hcol|reflexivity]|].
    split; [|exact Hadds].
    unfold processGeometryData in Hadds. rewrite Htruthy in Hadds.
    destruct (getField r0 (key col)) as [| |b|x|s] eqn:Hv; try discriminate.
    exists s. split; [reflexivity|]. intros ->. discriminate Htruthy.
  - unfold buildFeatures. induction data as [|r0 data IH]; simpl; [lia|].
    rewrite length_app.
    assert (Hrow : (length (flat_map
                      (fun geometryCol =>
                         if addsFeature (processGeometryData wellknown
                                           (getField r0 (key geometryCol)))
                         then [(r0, key geometryCol)] else [])
                      (recordGeometryColumns geometryColumns r0))
                    <= length geometryColumns)%nat).
    { clear IH. unfold recordGeometryColumns.
      induction geometryColumns as [|col cols IHc]; simpl; [lia|].
      rewrite filter_cons. destruct (decide _); simpl.
      - rewrite length_app. destruct (addsFeature _); simpl; lia.
      - lia. }
    lia.
Qed.

Lemma buildFeatures_sound_witness :
  (squareRecord, "geometry") ∈ buildFeatures None [geometryColumn] [squareRecord]
  /\ squareRecord ∈ [squareRecord]
  /\ (exists s, getField squareRecord "geometry" = JsString s /\ s <> "")
  /\ (length (buildFeatures None [geometryColumn] [squareRecord]) <= 1 * 1)%nat.
Proof.
  assert (Hfeature : (squareRecord, "geometry")
                     ∈ buildFeatures None [geometryColumn] [squareRecord])
    by (vm_compute; left).
  pose proof (buildFeatures_sound None [geometryColumn] [squareRecord]
                squareRecord "geometry") as [Hsound Hlength].
  destruct (Hsound Hfeature) as (Hdata & _ & Htext & _).
  split; [exact Hfeature|]. split; [exact Hdata|]. split; [exact Htext|exact Hlength].
Defined.

End ParserMore.

(** ** Columns, popup and colours *)

Section ColumnFacts.

Import JSValue GeometryParser ColorAssigner Columns Scenarios FurtherScenarios.

Lemma permissionIs_hidden col :
  permissionIs hidden col = false <-> permission col <> Some hidden.
Proof.
  unfold permissionIs. destruct (permission col) as [[| |]|]; split;
    intros H; try reflexivity; try discriminate; try congruence.
Qed.

Lemma permissionIs_edit col :
  permissionIs edit col = true <-> permission col = Some edit.
Proof.
  unfold permissionIs. destruct (permission col) as [[| |]|]; split;
    intros H; try reflexivity; try discriminate.
Qed.

Lemma visibleColumns_elem columns col :
  col ∈ visibleColumns columns <-> col ∈ columns /\ permission col <> Some hidden.
Proof.
  unfold visibleColumns. rewrite list_elem_of_filter, negb_true_iff, permissionIs_hidden.
  tauto.
Qed.

Lemma buildFeatures_complete wellknown geometryColumns data r col :
  r ∈ data -> col ∈ geometryColumns ->
  truthy (getField r (key col)) = true ->
  addsFeature (processGeometryData wellknown (getField r (key col))) = true ->
  (r, key col) ∈ buildFeatures wellknown geometryColumns data.
Proof.
  intros Hr Hcol Htruthy Hadds. unfold buildFeatures.
  apply list_elem_of_In, in_flat_map. exists r. split; [apply list_elem_of_In, Hr|].
  apply in_flat_map. exists col. split.
  - apply list_elem_of_In, list_elem_of_filter. split; assumption.
  - rewrite Hadds. left. reflexivity.
Qed.

(** The permission [hidden] keeps a column out of the table and the popup,
    but not off the map: a geometry column is rendered whatever its
    permission, so a record whose cell in a hidden geometry column parses
    gets its feature. *)
Theorem hidden_geometry_column_is_drawn
    (wellknown : option (string -> completion (option Geometry)))
    (columns : list Column) (data : list DataRecord)
    (r : DataRecord) (col : Column) :
  r ∈ data -> col ∈ columns ->
  isGeometry col = true -> permission col = Some hidden ->
  addsFeature (processGeometryData wellknown (getField r (key col))) = true ->
  (col ∉ visibleColumns columns)
  /\ (r, key col) ∈ buildFeatures wellknown (geometryColumns columns) data.
Proof.
  intros Hr Hcol Hgeo Hperm Hadds. split.
  - rewrite visibleColumns_elem. intros [_ Hne]. contradiction.
  - apply buildFeatures_complete; [exact Hr| |  |exact Hadds].
    + unfold geometryColumns. apply list_elem_of_filter. split; assumption.
    + unfold processGeometryData in Hadds.
      destruct (truthy (getField r (key col))); [reflexivity|discriminate].
Qed.

Lemma hidden_geometry_column_is_drawn_witness :
  (hiddenGeometryColumn ∉ visibleColumns [hiddenGeometryColumn])
  /\ (squareRecord, "geometry")
     ∈ buildFeatures None (geometryColumns [hiddenGeometryColumn]) [squareRecord].
Proof.
  apply (hidden_geometry_column_is_drawn None [hiddenGeometryColumn] [squareRecord]
           squareRecord hiddenGeometryColumn);
    [left|left|reflexivity|reflexivity|vm_compute; reflexivity].
Defined.

(** The fields of a popup: six at most, in the order of the columns, none
    of a hidden column, none of the columns [id] and [Id] and not the
    geometry column of the feature. An input is given to the fields whose
    permission is [edit]; the buttons are given when any column of the
    table is editable and no geometry, whether the popup shows it or not. *)
Theorem popupColumns_spec (columns : list Column) (geometryCol : string) :
  (length (popupColumns columns geometryCol) <= 6)%nat
  /\ popupColumns columns geometryCol `sublist_of` columns
  /\ (forall col, col ∈ popupColumns columns geometryCol ->
        permission col <> Some hidden
        /\ key col <> "id" /\ key col <> "Id" /\ key col <> geometryCol)
  /\ (forall col, col ∈ popupInputs columns geometryCol -> permission col = Some edit)
  /\ (hasEditableFields columns = true
      <-> exists col, col ∈ columns /\ permission col = Some edit /\ isGeometry col = false).
Proof.
  split; [unfold popupColumns; rewrite length_take; lia|].
  split.
  { unfold popupColumns, visibleColumns.
    etransitivity; [apply sublist_take|].
    etransitivity; apply sublist_filter; apply _. }
  split.
  { intros col Hin. unfold popupColumns in Hin.
    apply elem_of_take in Hin as (i & Hi & _).
    apply list_elem_of_lookup_2, list_elem_of_filter in Hi as [Hkeys Hvis].
    apply visibleColumns_elem in Hvis as [_ Hperm].
    apply andb_true_iff in Hkeys as [Hkeys HId].
    apply andb_true_iff in Hkeys as [Hid Hgeo].
    apply negb_true_iff, String.eqb_neq in Hid, HId, Hgeo. auto. }
  split.
  { intros col Hin. unfold popupInputs in Hin.
    apply list_elem_of_filter in Hin as [Hedit _]. apply permissionIs_edit, Hedit. }
  unfold hasEditableFields. rewrite negb_true_iff, Nat.eqb_neq. split.
  - intros Hne. destruct (editableColumns columns) as [|col rest] eqn:He;
      [contradiction Hne; reflexivity|].
    assert (Hin : col ∈ editableColumns columns) by (rewrite He; left).
    unfold editableColumns in Hin.
    apply list_elem_of_filter in Hin as [Hp Hvis].
    apply visibleColumns_elem in Hvis as [Hcol _].
    apply andb_true_iff in Hp as [Hedit Hgeo].
    exists col. split; [exact Hcol|].
    split; [apply permissionIs_edit, Hedit|apply negb_true_iff, Hgeo].
  - intros (col & Hcol & Hperm & Hgeo) Hlen.
    assert (Hin : col ∈ editableColumns columns).
    { unfold editableColumns. apply list_elem_of_filter. split.
      - apply andb_true_iff. split; [apply permissionIs_edit, Hperm|].
        apply negb_true_iff, Hgeo.
      - apply visibleColumns_elem. split; [exact Hcol|congruence]. }
    destruct (editableColumns columns); [inversion Hin|discriminate Hlen].
Qed.

(** The colour of a feature is always one of the two palettes, never
    [undefined]; without a colour field, or for a record whose field is
    empty, it is the default colour of the index of the record, the same
    every eight records. *)
Theorem getFeatureColor_in_palettes (Number_toString : float -> string)
    (colorField : string) (record : DataRecord) (index : nat) :
  getFeatureColor Number_toString colorField record index ∈ colors ++ defaultColors
  /\ (colorField = "" \/ colorField = "default"
      \/ truthy (getField record colorField) = false ->
      getFeatureColor Number_toString colorField record index ∈ defaultColors
      /\ getFeatureColor Number_toString colorField record (index + 8)
         = getFeatureColor Number_toString colorField record index).
Proof.
  assert (Hdefault : forall i,
             default "undefined" (defaultColors !! (i mod length defaultColors)%nat)
             ∈ defaultColors).
  { intros i.
    destruct (lookup_lt_is_Some_2 defaultColors (i mod length defaultColors)%nat)
      as [c Hc].
    - apply Nat.mod_upper_bound. discriminate.
    - rewrite Hc. simpl. eapply list_elem_of_lookup_2, Hc. }
  split.
  - unfold getFeatureColor. destruct (_ && _).
    + apply elem_of_app. left. apply getColorForValue_in_palette.
    + apply elem_of_app. right. apply Hdefault.
  - intros Hcase. unfold getFeatureColor.
    assert (Hcond : negb (String.eqb colorField "")
                    && negb (String.eqb colorField "default")
                    && truthy (getField record colorField) = false).
    { destruct Hcase as [->|[->|Hfalsy]]; [reflexivity|reflexivity|].
      rewrite Hfalsy. apply andb_false_r. }
    rewrite Hcond. split; [apply Hdefault|].
    change (length defaultColors) with 8%nat.
    replace (index + 8)%nat with (index + 1 * 8)%nat by lia.
    rewrite Nat.Div0.mod_add. reflexivity.
Qed.

Lemma hashOf_exact_range_witness : (Z.abs (hashOf "Active") < 2 ^ 53)%Z.
Proof.
  apply (hashOf_exact_range "Active").
  apply Nat.le_trans with (2 ^ 3)%nat; [simpl; lia|].
  apply Nat.pow_le_mono_r; lia.
Defined.

End ColumnFacts.

(** ** Legend and visibility *)

Section LegendMore.

Import JSValue ColorAssigner Legend Visibility Filter Scenarios.

Variable Number_toString : float -> string.
Variable colorField : string.
Variable rendered : list Layer.

Lemma mapIncrement_total (m : ValueColorMap) k :
  mapHas m k = true ->
  foldr (fun entry n => (entryCount (snd entry) + n)%nat) 0%nat (mapIncrement m k)
  = S (foldr (fun entry n => (entryCount (snd entry) + n)%nat) 0%nat m).
Proof.
  induction m as [|[k' info] m IH]; simpl; [discriminate|].
  destruct (String.eqb k' k); simpl; [reflexivity|].
  intros Hhas. rewrite (IH Hhas). lia.
Qed.

Lemma entryTotal_from (m : ValueColorMap) (a : nat) :
  foldr (fun entry n => (entryCount (snd entry) + n)%nat) a m
  = (foldr (fun entry n => (entryCount (snd entry) + n)%nat) 0%nat m + a)%nat.
Proof. induction m as [|[k info] m IH]; simpl; [reflexivity|]. rewrite IH. lia. Qed.

Lemma countRecord_total (m : ValueColorMap) r :
  foldr (fun entry n => (entryCount (snd entry) + n)%nat) 0%nat
        (countRecord Number_toString colorField m r)
  = S (foldr (fun entry n => (entryCount (snd entry) + n)%nat) 0%nat m).
Proof.
  unfold countRecord.
  destruct (mapHas m _) eqn:Hhas; [apply mapIncrement_total, Hhas|].
  unfold mapSetNew. rewrite foldr_app, entryTotal_from. simpl. lia.
Qed.

Lemma fold_countRecord_total data (m : ValueColorMap) :
  foldr (fun entry n => (entryCount (snd entry) + n)%nat) 0%nat
        (fold_left (countRecord Number_toString colorField) data m)
  = (length data
     + foldr (fun entry n => (entryCount (snd entry) + n)%nat) 0%nat m)%nat.
Proof.
  revert m. induction data as [|r data IH]; intros m; simpl; [reflexivity|].
  rewrite IH, countRecord_total. lia.
Qed.

(** Every record of the data set is counted once: the counts of the legend
    add up to the number of records. *)
Theorem legend_counts_add_up (data : list DataRecord) (hiddenValues : gset string) :
  colorField <> "" -> colorField <> "default" ->
  totalCount (generateLegendData Number_toString colorField data hiddenValues)
  = length data.
Proof.
  intros H1 H2. destruct data as [|r data].
  { unfold generateLegendData. rewrite orb_true_r. reflexivity. }
  rewrite (generateLegendData_selected Number_toString colorField (r :: data)
             hiddenValues H1 H2 ltac:(discriminate)).
  pose proof (fold_countRecord_total (r :: data) []) as Htotal.
  simpl foldr in Htotal at 2. rewrite Nat.add_0_r in Htotal. rewrite <- Htotal.
  generalize (fold_left (countRecord Number_toString colorField) (r :: data) []).
  intros m. unfold totalCount.
  induction m as [|[k info] m IH]; simpl; [reflexivity|]. now rewrite IH.
Qed.

(** The legend is empty exactly when no colour field is selected or there
    is no record. *)
Theorem legend_empty_iff (data : list DataRecord) (hiddenValues : gset string) :
  generateLegendData Number_toString colorField data hiddenValues = []
  <-> colorField = "" \/ colorField = "default" \/ data = [].
Proof.
  split.
  - intros Hnil.
    destruct (decide (colorField = "")) as [|H1]; [auto|].
    destruct (decide (colorField = "default")) as [|H2]; [auto|].
    destruct data as [|r data]; [auto|]. exfalso.
    destruct (generateLegendData_items Number_toString colorField (r :: data)
                hiddenValues H1 H2 ltac:(discriminate)) as (_ & Hkeys & _).
    assert (Hin : recordValue Number_toString colorField r
                  ∈ value <$> generateLegendData Number_toString colorField
                                (r :: data) hiddenValues).
    { apply Hkeys. exists r. split; [left|reflexivity]. }
    rewrite Hnil in Hin. inversion Hin.
  - unfold generateLegendData. intros [Hc | [Hc | Hd]].
    + rewrite Hc. reflexivity.
    + rewrite Hc. reflexivity.
    + rewrite Hd. rewrite orb_true_r. reflexivity.
Qed.

Lemma fresh_legend_all_visible data item :
  item ∈ generateLegendData Number_toString colorField data ∅ ->
  visible item = true.
Proof.
  unfold generateLegendData. destruct (_ || _); [intros H; inversion H|].
  intros Hin. apply list_elem_of_fmap in Hin as ([k info] & -> & _). simpl.
  rewrite bool_decide_eq_false_2; [reflexivity|apply not_elem_of_empty].
Qed.

Lemma step_keeps_all_visible st op :
  (forall item, item ∈ legendItems st -> visible item = true) ->
  forall item,
    item ∈ legendItems (step Number_toString colorField rendered st op) ->
    visible item = true.
Proof.
  intros Hall item. rewrite step_legendItems. destruct op as [v|]; simpl.
  - apply Hall.
  - intros Hin. apply list_elem_of_fmap in Hin as (item0 & -> & _). reflexivity.
Qed.

Lemma showAllOffered_false items :
  (forall item, item ∈ items -> visible item = true) -> showAllOffered items = false.
Proof.
  intros Hall. unfold showAllOffered. induction items as [|item items IH]; [reflexivity|].
  simpl. rewrite (Hall item) by left. simpl. apply IH.
  intros item' Hin. apply Hall. now right.
Qed.

(** From a legend built with nothing hidden, no sequence of toggles ever
    brings up the button [Show All]: the flags it looks at are those of
    the legend items, which a toggle does not change, although the toggled
    value is hidden. *)
Theorem showAll_never_offered_after_toggles
    (data : list DataRecord) (group : option (list Layer)) (ops : list LegendOp)
    (v : string) :
  showAllOffered
    (legendItems
       (run Number_toString colorField rendered ops
          (mkViewState ∅ (generateLegendData Number_toString colorField data ∅) group)))
  = false
  /\ v ∈ hiddenValues
           (run Number_toString colorField rendered [Toggle v]
              (mkViewState ∅ (generateLegendData Number_toString colorField data ∅)
                 group)).
Proof.
  split.
  - apply showAllOffered_false.
    assert (Hrun : forall st,
               (forall item, item ∈ legendItems st -> visible item = true) ->
               forall item,
                 item ∈ legendItems (run Number_toString colorField rendered ops st) ->
                 visible item = true).
    { unfold run. induction ops as [|op ops' IH]; intros st Hall; simpl; [exact Hall|].
      apply IH. apply step_keeps_all_visible, Hall. }
    apply Hrun. intros item. simpl. apply fresh_legend_all_visible.
  - set (st0 := mkViewState ∅ (generateLegendData Number_toString colorField data ∅)
                    group).
    change (v ∈ hiddenValues (step Number_toString colorField rendered st0 (Toggle v))).
    rewrite step_hiddenValues. apply toggle_hiddenValues. rewrite decide_True by reflexivity.
    apply not_elem_of_empty.
Qed.

End LegendMore.

Section VisibilityMore.

Import JSValue ColorAssigner Legend GeometryParser Visibility Filter Renderer.
Import Scenarios FurtherScenarios.
#[local] Open Scope float_scope.

Lemma legend_counts_add_up_witness :
  totalCount (generateLegendData numberText "status" [truncatedRecord; activeRecord] ∅)
  = 2%nat.
Proof.
  exact (legend_counts_add_up numberText "status" [truncatedRecord; activeRecord] ∅
           ltac:(discriminate) ltac:(discriminate)).
Defined.

Section Selected.

Variable Number_toString : float -> string.
Variable colorField : string.
Variable rendered : list Layer.
Hypothesis colorField_selected : colorField <> "" /\ colorField <> "default".

(** A later restyling overrides an earlier one. *)
Lemma updateLayer_absorb hidden1 hidden2 layer :
  updateLayer Number_toString colorField hidden2
    (updateLayer Number_toString colorField hidden1 layer)
  = updateLayer Number_toString colorField hidden2 layer.
Proof.
  clear colorField_selected. unfold updateLayer.
  destruct (record layer) as [r|] eqn:Hr.
  - destruct (bool_decide (_ ∈ hidden1)); simpl; rewrite Hr;
      destruct (bool_decide (_ ∈ hidden2)); reflexivity.
  - rewrite Hr. reflexivity.
Qed.

Lemma step_toggle_hiddenValues value st w :
  w ∈ hiddenValues (step Number_toString colorField rendered st (Toggle value))
  <-> (if decide (w = value) then w ∉ hiddenValues st else w ∈ hiddenValues st).
Proof. rewrite step_hiddenValues. apply toggle_hiddenValues. Qed.

(** Two toggles of one value undo each other: the hidden values are those
    of before, the legend items are those of before, and the layers are
    those the rendering effect builds, styled by the hidden values of
    before. *)
Theorem toggle_twice_restores (value : string) (st : ViewState) (layers : list Layer) :
  layerGroup st = Some layers ->
  let st2 := step Number_toString colorField rendered
               (step Number_toString colorField rendered st (Toggle value))
               (Toggle value) in
  hiddenValues st2 = hiddenValues st
  /\ legendItems st2 = legendItems st
  /\ layerGroup st2
     = Some (map (updateLayer Number_toString colorField (hiddenValues st)) rendered).
Proof.
  intros Hgroup st2.
  assert (Hhidden : hiddenValues st2 = hiddenValues st).
  { apply set_eq. intros w. subst st2.
    rewrite step_toggle_hiddenValues.
    destruct (decide (w = value)) as [Heq | Hne];
      rewrite step_toggle_hiddenValues;
      [rewrite decide_True by exact Heq | rewrite decide_False by exact Hne].
    - split; [apply dec_stable | auto].
    - reflexivity. }
  split; [exact Hhidden|]. split.
  { subst st2. rewrite !toggle_keeps_legendItems. reflexivity. }
  pose proof (step_layers Number_toString colorField rendered colorField_selected
                st (Toggle value) layers Hgroup) as Hfirst.
  subst st2.
  rewrite (step_layers Number_toString colorField rendered colorField_selected
             _ (Toggle value) _ Hfirst).
  rewrite Hhidden. reflexivity.
Qed.

(** Toggles of two values commute. *)
Theorem toggles_commute (v w : string) (st : ViewState) (layers : list Layer) :
  layerGroup st = Some layers ->
  let vw := step Number_toString colorField rendered
              (step Number_toString colorField rendered st (Toggle v)) (Toggle w) in
  let wv := step Number_toString colorField rendered
              (step Number_toString colorField rendered st (Toggle w)) (Toggle v) in
  hiddenValues vw = hiddenValues wv
  /\ legendItems vw = legendItems wv
  /\ layerGroup vw = layerGroup wv.
Proof.
  intros Hgroup vw wv.
  assert (Hhidden : hiddenValues vw = hiddenValues wv).
  { apply set_eq. intros u. subst vw wv.
    rewrite !(step_toggle_hiddenValues _ (step _ _ _ _ _)).
    destruct (decide (u = w)) as [Hw | Hw], (decide (u = v)) as [Hv | Hv];
      rewrite !step_toggle_hiddenValues;
      repeat first [rewrite decide_True by assumption
                   | rewrite decide_False by assumption];
      reflexivity. }
  split; [exact Hhidden|]. split.
  { subst vw wv. rewrite !toggle_keeps_legendItems. reflexivity. }
  pose proof (step_layers Number_toString colorField rendered colorField_selected
                st (Toggle v) layers Hgroup) as Hv.
  pose proof (step_layers Number_toString colorField rendered colorField_selected
                st (Toggle w) layers Hgroup) as Hw.
  subst vw wv.
  rewrite (step_layers Number_toString colorField rendered colorField_selected
             _ (Toggle w) _ Hv).
  rewrite (step_layers Number_toString colorField rendered colorField_selected
             _ (Toggle v) _ Hw).
  rewrite Hhidden. reflexivity.
Qed.

(** [Show All] and the render after it: nothing is hidden any more, every
    legend item says visible, with its value, colour and count as
    before, so the flags and the hidden values agree, and the layers are
    those the rendering effect builds, restyled by the empty set: every
    layer that carries a record is shown at 1 and 0.3, and a layer that
    carries none is as it was built. *)
Theorem showAll_restores (st : ViewState) (layers : list Layer) :
  layerGroup st = Some layers ->
  let st' := step Number_toString colorField rendered st ShowAll in
  hiddenValues st' = ∅
  /\ length (legendItems st') = length (legendItems st)
  /\ (forall i item, legendItems st !! i = Some item ->
        legendItems st' !! i
        = Some (mkLegendItem (value item) (Legend.color item) (count item) true))
  /\ (forall item, item ∈ legendItems st' ->
        visible item = negb (bool_decide (value item ∈ hiddenValues st')))
  /\ layerGroup st'
     = Some (map (updateLayer Number_toString colorField ∅) rendered)
  /\ (forall layer w,
        layerValue Number_toString colorField layer = Some w ->
        opacity (style (updateLayer Number_toString colorField ∅ layer)) = 1
        /\ fillOpacity (style (updateLayer Number_toString colorField ∅ layer)) = 0.3)
  /\ (forall layer,
        layerValue Number_toString colorField layer = None ->
        updateLayer Number_toString colorField ∅ layer = layer).
Proof.
  intros Hgroup st'. subst st'.
  assert (Hhidden : hiddenValues (step Number_toString colorField rendered st ShowAll) = ∅)
    by apply step_hiddenValues.
  split; [exact Hhidden|].
  rewrite step_legendItems.
  split; [cbn; apply length_map|].
  split.
  { intros i item Hi. cbn. rewrite list_lookup_fmap, Hi. reflexivity. }
  split.
  { intros item Hin. cbn in Hin.
    apply list_elem_of_fmap in Hin as (item0 & -> & _). rewrite Hhidden.
    rewrite bool_decide_eq_false_2 by apply not_elem_of_empty. reflexivity. }
  split.
  { rewrite (step_layers Number_toString colorField rendered colorField_selected
               st ShowAll layers Hgroup), Hhidden. reflexivity. }
  split.
  - intros layer w Hw.
    apply (updateLayer_style Number_toString colorField ∅ layer w Hw).
    apply not_elem_of_empty.
  - intros layer Hnone. apply updateLayer_no_record, Hnone.
Qed.

End Selected.

Lemma toggle_twice_restores_witness :
  let st2 := step numberText "status" (scenarioLayers [activeRecord])
               (step numberText "status" (scenarioLayers [activeRecord]) activeView
                  (Toggle "Active"))
               (Toggle "Active") in
  hiddenValues st2 = hiddenValues activeView
  /\ layerGroup st2
     = Some (map (updateLayer numberText "status" (hiddenValues activeView))
                 (scenarioLayers [activeRecord])).
Proof.
  assert (Hsel : "status" <> "" /\ "status" <> "default") by (split; discriminate).
  assert (Hgroup : layerGroup activeView = Some [markerOf activeRecord "#FECA57"])
    by reflexivity.
  pose proof (toggle_twice_restores numberText "status" (scenarioLayers [activeRecord])
                Hsel "Active" activeView _ Hgroup) as (Hhidden & _ & Hlayers).
  split; [exact Hhidden | exact Hlayers].
Defined.

Lemma toggles_commute_witness :
  hiddenValues (step numberText "status" (scenarioLayers [activeRecord])
                  (step numberText "status" (scenarioLayers [activeRecord]) activeView
                     (Toggle "Active"))
                  (Toggle "Inactive"))
  = hiddenValues (step numberText "status" (scenarioLayers [activeRecord])
                    (step numberText "status" (scenarioLayers [activeRecord]) activeView
                       (Toggle "Inactive"))
                    (Toggle "Active")).
Proof.
  assert (Hsel : "status" <> "" /\ "status" <> "default") by (split; discriminate).
  assert (Hgroup : layerGroup activeView = Some [markerOf activeRecord "#FECA57"])
    by reflexivity.
  pose proof (toggles_commute numberText "status" (scenarioLayers [activeRecord]) Hsel
                "Active" "Inactive" activeView _ Hgroup) as [Hhidden _].
  exact Hhidden.
Defined.

Lemma showAll_restores_witness :
  let st' := step numberText "status" (scenarioLayers [activeRecord]) hiddenActiveView
               ShowAll in
  legendItems hiddenActiveView = [mkLegendItem "Active" "#FECA57" 1 false]
  /\ hiddenValues st' = ∅
  /\ legendItems st' !! 0%nat = Some (mkLegendItem "Active" "#FECA57" 1 true)
  /\ layerGroup st'
     = Some (map (updateLayer numberText "status" ∅) (scenarioLayers [activeRecord])).
Proof.
  assert (Hsel : "status" <> "" /\ "status" <> "default") by (split; discriminate).
  assert (Hgroup : layerGroup hiddenActiveView
                   = Some [setStyle (markerOf activeRecord "#FECA57") 0 0])
    by reflexivity.
  assert (Hitems : legendItems hiddenActiveView
                   = [mkLegendItem "Active" "#FECA57" 1 false])
    by (vm_compute; reflexivity).
  pose proof (showAll_restores numberText "status" (scenarioLayers [activeRecord]) Hsel
                hiddenActiveView _ Hgroup)
    as (Hhidden & _ & Hlegend & _ & Hlayers & _).
  split; [exact Hitems|]. split; [exact Hhidden|].
  split; [|exact Hlayers].
  apply (Hlegend 0%nat (mkLegendItem "Active" "#FECA57" 1 false)).
  rewrite Hitems. reflexivity.
Defined.

Lemma layers_follow_hiddenValues_run_witness :
  opacity (style (setStyle (markerOf activeRecord "#FECA57") 0 0)) = 0
  /\ fillOpacity (style (setStyle (markerOf activeRecord "#FECA57") 0 0)) = 0.
Proof.
  assert (Hsel : "status" <> "" /\ "status" <> "default") by (split; discriminate).
  assert (Hops : [Toggle "Active"] <> []) by discriminate.
  assert (Hgroup : layerGroup (run numberText "status" (scenarioLayers [activeRecord])
                                 [Toggle "Active"] activeView)
                   = Some [setStyle (markerOf activeRecord "#FECA57") 0 0])
    by (vm_compute; reflexivity).
  assert (Hin : setStyle (markerOf activeRecord "#FECA57") 0 0
                ∈ [setStyle (markerOf activeRecord "#FECA57") 0 0]) by left.
  assert (Hval : layerValue numberText "status"
                   (setStyle (markerOf activeRecord "#FECA57") 0 0) = Some "Active")
    by (vm_compute; reflexivity).
  pose proof (layers_follow_hiddenValues_run numberText "status"
                (scenarioLayers [activeRecord]) Hsel
                [Toggle "Active"] activeView _ _ "Active" Hops Hgroup Hin Hval)
    as [Hhidden _].
  apply Hhidden.
  change (run numberText "status" (scenarioLayers [activeRecord])
            [Toggle "Active"] activeView)
    with (step numberText "status" (scenarioLayers [activeRecord]) activeView
            (Toggle "Active")).
  rewrite step_hiddenValues.
  apply (toggle_hiddenValues numberText "status" "Active" activeView "Active").
  rewrite decide_True by reflexivity. apply not_elem_of_empty.
Defined.

End VisibilityMore.

Section FilterFacts.

Import JSNumber JSString JSValue ColorAssigner Legend GeometryParser Visibility Filter.
Import Renderer Scenarios FurtherScenarios.
#[local] Open Scope float_scope.

Lemma toLowerChar_idempotent c : toLowerChar (toLowerChar c) = toLowerChar c.
Proof. destruct c as [[] [] [] [] [] [] [] []]; vm_compute; reflexivity. Qed.

Lemma toLowerCase_idempotent s : toLowerCase (toLowerCase s) = toLowerCase s.
Proof.
  induction s as [|c s IH]; [reflexivity|].
  cbn [toLowerCase]. rewrite toLowerChar_idempotent, IH. reflexivity.
Qed.

Lemma toLowerCase_empty s : String.eqb (toLowerCase s) "" = String.eqb s "".
Proof. destruct s; reflexivity. Qed.

Lemma eachLayerSetStyle_ext (f g : Layer -> float * float) layers :
  (forall layer, f layer = g layer) ->
  eachLayerSetStyle f layers = eachLayerSetStyle g layers.
Proof.
  intros Hfg. induction layers as [|layer rest IH]; [reflexivity|].
  cbn [eachLayerSetStyle]. rewrite IH, Hfg. reflexivity.
Qed.

Lemma eachLayerSetStyle_no_label (styleFor : Layer -> float * float) layers :
  Forall (fun layer => isLabel layer = false) layers ->
  eachLayerSetStyle styleFor layers
  = (map (fun layer => setStyle layer (fst (styleFor layer)) (snd (styleFor layer)))
         layers, false).
Proof.
  induction 1 as [|layer rest Hlayer _ IH]; [reflexivity|].
  cbn [eachLayerSetStyle map]. rewrite IH. unfold isLabel in Hlayer.
  destruct (shape layer); [reflexivity|reflexivity|discriminate].
Qed.

Lemma eachLayerSetStyle_at_label (styleFor : Layer -> float * float) pre label post :
  Forall (fun layer => isLabel layer = false) pre ->
  isLabel label = true ->
  eachLayerSetStyle styleFor (pre ++ label :: post)
  = (map (fun layer => setStyle layer (fst (styleFor layer)) (snd (styleFor layer))) pre
     ++ label :: post, true).
Proof.
  intros Hpre Hlabel. induction Hpre as [|layer rest Hlayer _ IH].
  - cbn [app map eachLayerSetStyle]. unfold isLabel in Hlabel.
    destruct (shape label); [discriminate|discriminate|reflexivity].
  - cbn [app map eachLayerSetStyle]. rewrite IH. unfold isLabel in Hlayer.
    destruct (shape layer); [reflexivity|reflexivity|discriminate].
Qed.

(** The filter does not tell upper case from lower case in the value
    typed: with the value in lower case [applyFilter] does the same. *)
Theorem applyFilter_case_insensitive (Number_toString : float -> string)
    (filterField filterValue : string) (group : option (list Layer)) :
  applyFilter Number_toString filterField (toLowerCase filterValue) group
  = applyFilter Number_toString filterField filterValue group.
Proof.
  unfold applyFilter. rewrite toLowerCase_empty.
  destruct (String.eqb filterField "" || String.eqb filterValue ""); [reflexivity|].
  destruct group as [layers|]; [|reflexivity].
  rewrite (eachLayerSetStyle_ext _
             (fun layer =>
                if matchesFilter Number_toString filterField filterValue layer
                then (1, 0.6) else (0.3, 0.1))); [reflexivity|].
  intros layer. unfold matchesFilter. rewrite toLowerCase_idempotent. reflexivity.
Qed.

(** With a field and a value chosen and no label on the map, [applyFilter]
    ends and styles every layer: the layers whose record holds a truthy
    value in the field whose text contains the value, to 1 and 0.6, all the
    others to 0.3 and 0.1, among them the layers whose value in the field
    is falsy (0, the empty string, false, null or missing). *)
Theorem applyFilter_styles (Number_toString : float -> string)
    (filterField filterValue : string) (layers : list Layer) :
  filterField <> "" ->
  filterValue <> "" ->
  Forall (fun layer => isLabel layer = false) layers ->
  applyFilter Number_toString filterField filterValue (Some layers)
  = (Some (map (fun layer =>
                  if matchesFilter Number_toString filterField filterValue layer
                  then setStyle layer 1 0.6 else setStyle layer 0.3 0.1)
               layers), false)
  /\ (forall layer,
        truthy (getField (default ∅ (record layer)) filterField) = false ->
        matchesFilter Number_toString filterField filterValue layer = false).
Proof.
  intros Hfield Hvalue Hlabels. split.
  - unfold applyFilter.
    apply String.eqb_neq in Hfield. apply String.eqb_neq in Hvalue.
    rewrite Hfield, Hvalue. cbn [orb].
    rewrite (eachLayerSetStyle_no_label _ _ Hlabels).
    do 2 f_equal. apply map_ext. intros layer.
    destruct (matchesFilter _ _ _ layer); reflexivity.
  - intros layer Hfalsy. unfold matchesFilter. cbn zeta. rewrite Hfalsy. reflexivity.
Qed.

(** With a label on the map, both buttons of the filter throw at the first
    label, which has no [setStyle]: the layers before it are restyled, the
    label and the layers after it are not, and [clearFilter] leaves the two
    states of the filter as they were. *)
Theorem filter_throws_at_first_label (Number_toString : float -> string)
    (filterField filterValue : string) (pre post : list Layer) (label : Layer) :
  Forall (fun layer => isLabel layer = false) pre ->
  isLabel label = true ->
  clearFilter filterField filterValue (Some (pre ++ label :: post))
  = (Some (map (fun layer => setStyle layer 1 0.3) pre ++ label :: post),
     (filterField, filterValue), true)
  /\ (filterField <> "" -> filterValue <> "" ->
      applyFilter Number_toString filterField filterValue (Some (pre ++ label :: post))
      = (Some (map (fun layer =>
                      if matchesFilter Number_toString filterField filterValue layer
                      then setStyle layer 1 0.6 else setStyle layer 0.3 0.1) pre
               ++ label :: post), true)).
Proof.
  intros Hpre Hlabel. split.
  - unfold clearFilter. rewrite (eachLayerSetStyle_at_label _ _ _ _ Hpre Hlabel).
    reflexivity.
  - intros Hfield Hvalue. unfold applyFilter.
    apply String.eqb_neq in Hfield. apply String.eqb_neq in Hvalue.
    rewrite Hfield, Hvalue. cbn [orb].
    rewrite (eachLayerSetStyle_at_label _ _ _ _ Hpre Hlabel).
    do 3 f_equal. apply map_ext. intros layer.
    destruct (matchesFilter _ _ _ layer); reflexivity.
Qed.

Section Selected.

Variable Number_toString : float -> string.
Variable colorField : string.
Variable rendered : list Layer.
Hypothesis colorField_selected : colorField <> "" /\ colorField <> "default".

Lemma isLabel_updateLayer hidden layer :
  isLabel (updateLayer Number_toString colorField hidden layer) = isLabel layer.
Proof.
  clear colorField_selected. unfold updateLayer, isLabel.
  destruct (record layer); [|reflexivity].
  destruct (bool_decide _); reflexivity.
Qed.

Lemma setStyle_updateLayer hidden layer a b :
  setStyle (updateLayer Number_toString colorField hidden layer) a b
  = setStyle layer a b.
Proof.
  clear colorField_selected. unfold updateLayer.
  destruct (record layer); [|reflexivity].
  destruct (bool_decide _); reflexivity.
Qed.

(** A click depends on the hidden values and the legend items of the view
    and on whether the map is there, not on the layers of the group. *)
Lemma step_ext st st' op :
  hiddenValues st = hiddenValues st' ->
  legendItems st = legendItems st' ->
  (is_Some (layerGroup st) <-> is_Some (layerGroup st')) ->
  step Number_toString colorField rendered st op
  = step Number_toString colorField rendered st' op.
Proof.
  clear colorField_selected. intros Hhidden Hitems Hgroup.
  assert (Hh : hiddenValues (step Number_toString colorField rendered st op)
               = hiddenValues (step Number_toString colorField rendered st' op)).
  { rewrite !step_hiddenValues. destruct op as [value|]; [|reflexivity].
    unfold toggleLegendItem. cbn [hiddenValues]. rewrite Hhidden. reflexivity. }
  assert (Hi : legendItems (step Number_toString colorField rendered st op)
               = legendItems (step Number_toString colorField rendered st' op)).
  { rewrite !step_legendItems. destruct op as [value|]; [exact Hitems|].
    unfold showAll. cbn [legendItems]. rewrite Hitems. reflexivity. }
  assert (Hg : layerGroup (step Number_toString colorField rendered st op)
               = layerGroup (step Number_toString colorField rendered st' op)).
  { rewrite !step_layerGroup, Hh.
    destruct (layerGroup st) as [layers|], (layerGroup st') as [layers'|];
      try reflexivity.
    - destruct (proj1 Hgroup (mk_is_Some _ _ eq_refl)) as [? [=]].
    - destruct (proj2 Hgroup (mk_is_Some _ _ eq_refl)) as [? [=]]. }
  destruct (step Number_toString colorField rendered st op),
           (step Number_toString colorField rendered st' op).
  cbn in Hh, Hi, Hg. subst. reflexivity.
Qed.

(** [Clear Filter] after a legend item was switched off, with no label
    among the layers. The loop shows every layer at 1 and 0.3, the layers
    of the hidden value too. When a state of the filter was set, the
    render that follows the click builds the layers anew and the effect
    of [hiddenValues] does not run: the layers of the hidden value are
    drawn as they are built. Either way the value is still hidden and
    the two states of the filter are empty. *)
Theorem clearFilter_overrides_legend (filterField filterValue value : string)
    (st : ViewState) (layers : list Layer) :
  layerGroup st = Some layers ->
  Forall (fun layer => isLabel layer = false) rendered ->
  value ∉ hiddenValues st ->
  let st1 := step Number_toString colorField rendered st (Toggle value) in
  let result := clearFilterClick rendered filterField filterValue st1 in
  value ∈ hiddenValues (fst (fst result))
  /\ snd (fst result) = ("", "")
  /\ snd result = false
  /\ layerGroup (fst (fst result))
     = Some (if String.eqb filterField "" && String.eqb filterValue ""
             then map (fun layer => setStyle layer 1 0.3) rendered
             else rendered).
Proof.
  intros Hgroup Hlabels Hshown st1 result.
  assert (Hhidden : value ∈ hiddenValues st1).
  { subst st1. rewrite step_hiddenValues. apply toggle_hiddenValues.
    rewrite decide_True by reflexivity. exact Hshown. }
  assert (Hlayers : layerGroup st1
                    = Some (map (updateLayer Number_toString colorField
                                   (hiddenValues st1)) rendered)).
  { subst st1. apply (step_layers _ _ _ colorField_selected _ _ layers Hgroup). }
  assert (Hloop : clearFilter filterField filterValue (layerGroup st1)
                  = (Some (map (fun layer => setStyle layer 1 0.3) rendered),
                     ("", ""), false)).
  { rewrite Hlayers. unfold clearFilter. rewrite eachLayerSetStyle_no_label.
    - rewrite map_map. do 3 f_equal. apply map_ext. intros layer. cbn [fst snd].
      apply setStyle_updateLayer.
    - apply Forall_map. eapply Forall_impl; [exact Hlabels|].
      intros layer Hlabel. rewrite isLabel_updateLayer. exact Hlabel. }
  subst result. unfold clearFilterClick. rewrite Hloop. cbn [orb].
  destruct (String.eqb filterField "" && String.eqb filterValue "");
    cbn [fst snd hiddenValues layerGroup].
  - repeat split. exact Hhidden.
  - unfold rerender. rewrite renderingEffect_hiddenValues, renderingEffect_layerGroup.
    cbn [hiddenValues layerGroup]. repeat split. exact Hhidden.
Qed.

(** A click in the legend undoes the filter: the view after the click is
    the one the click gives without the filter, whatever the filter had
    styled. *)
Theorem legend_click_erases_filter (filterField filterValue : string)
    (st : ViewState) (op : LegendOp) :
  let filtered :=
    mkViewState (hiddenValues st) (legendItems st)
      (fst (applyFilter Number_toString filterField filterValue (layerGroup st))) in
  step Number_toString colorField rendered filtered op
  = step Number_toString colorField rendered st op.
Proof.
  clear colorField_selected. intros filtered. subst filtered.
  apply step_ext; [reflexivity|reflexivity|]. cbn [layerGroup].
  unfold applyFilter.
  destruct (String.eqb filterField "" || String.eqb filterValue ""); [reflexivity|].
  destruct (layerGroup st) as [layers|]; [|reflexivity].
  destruct (eachLayerSetStyle _ layers) as [layers' threw]. cbn [fst].
  split; intros _; eexists; reflexivity.
Qed.

End Selected.

Lemma strictEquals_refl v :
  match v with JsNumber x => isNaN x = false | _ => True end ->
  strictEquals v v = true.
Proof.
  destruct v as [| |b|x|s]; cbn [strictEquals]; intros H; try reflexivity.
  - destruct b; reflexivity.
  - unfold isNaN, is_nan in H. apply negb_false_iff in H. exact H.
  - apply String.eqb_refl.
Qed.

(** A click on a row of the table zooms to the layers of its record, as
    long as its [Id] is no [NaN]. The layers of other records with the same
    [Id] are zoomed to as well: when the clicked record has no [Id], those
    are all the layers whose record has none. *)
Theorem zoomToRecord_matches (layers : list Layer) (clicked : DataRecord) (layer : Layer) :
  layer ∈ layers ->
  (record layer = Some clicked ->
   match getField clicked "Id" with JsNumber x => isNaN x = false | _ => True end ->
   layer ∈ zoomMatches layers clicked)
  /\ (forall r,
        record layer = Some r ->
        getField r "Id" = JsUndefined ->
        getField clicked "Id" = JsUndefined ->
        layer ∈ zoomMatches layers clicked).
Proof.
  intros Hin. unfold zoomMatches. split.
  - intros Hrecord Hid. apply list_elem_of_filter. split; [|exact Hin].
    rewrite Hrecord. apply strictEquals_refl. exact Hid.
  - intros r Hrecord Hr Hclicked. apply list_elem_of_filter. split; [|exact Hin].
    rewrite Hrecord, Hr, Hclicked. reflexivity.
Qed.

Lemma applyFilter_styles_witness :
  applyFilter numberText "status" "ACT"
    (Some [markerOf activeRecord "#FECA57"; markerOf inactiveRecord "#10AC84"])
  = (Some [setStyle (markerOf activeRecord "#FECA57") 1 0.6;
           setStyle (markerOf inactiveRecord "#10AC84") 1 0.6], false).
Proof.
  assert (Hfield : "status" <> "") by discriminate.
  assert (Hvalue : "ACT" <> "") by discriminate.
  assert (Hlabels : Forall (fun layer => isLabel layer = false)
                      [markerOf activeRecord "#FECA57"; markerOf inactiveRecord "#10AC84"])
    by (repeat constructor).
  pose proof (applyFilter_styles numberText "status" "ACT" _ Hfield Hvalue Hlabels)
    as [Hstyles _].
  rewrite Hstyles. vm_compute. reflexivity.
Defined.

Lemma filter_throws_at_first_label_witness :
  clearFilter "status" "act"
    (Some [markerOf activeRecord "#FECA57"; labelOf "A"; markerOf inactiveRecord "#10AC84"])
  = (Some [setStyle (markerOf activeRecord "#FECA57") 1 0.3; labelOf "A";
           markerOf inactiveRecord "#10AC84"],
     ("status", "act"), true).
Proof.
  assert (Hpre : Forall (fun layer => isLabel layer = false)
                   [markerOf activeRecord "#FECA57"]) by (repeat constructor).
  assert (Hlabel : isLabel (labelOf "A") = true) by reflexivity.
  pose proof (filter_throws_at_first_label numberText "status" "act"
                [markerOf activeRecord "#FECA57"] [markerOf inactiveRecord "#10AC84"]
                (labelOf "A") Hpre Hlabel) as [Hclear _].
  exact Hclear.
Defined.

Lemma clearFilter_overrides_legend_witness :
  let st1 := step numberText "status" (scenarioLayers [activeRecord]) activeView
               (Toggle "Active") in
  let result := clearFilterClick (scenarioLayers [activeRecord]) "status" "act" st1 in
  layerGroup st1 = Some [setStyle (markerOf activeRecord "#FECA57") 0 0]
  /\ "Active" ∈ hiddenValues (fst (fst result))
  /\ layerGroup (fst (fst result)) = Some [markerOf activeRecord "#FECA57"].
Proof.
  assert (Hsel : "status" <> "" /\ "status" <> "default") by (split; discriminate).
  assert (Hgroup : layerGroup activeView = Some [markerOf activeRecord "#FECA57"])
    by reflexivity.
  assert (Hlabels : Forall (fun layer => isLabel layer = false)
                      (scenarioLayers [activeRecord])).
  { rewrite scenarioLayers_activeRecord. repeat constructor. }
  assert (Hshown : "Active" ∉ hiddenValues activeView) by apply not_elem_of_empty.
  pose proof (clearFilter_overrides_legend numberText "status"
                (scenarioLayers [activeRecord]) Hsel "status" "act" "Active" activeView
                _ Hgroup Hlabels Hshown) as (Hhidden & _ & _ & Hlayers).
  split; [vm_compute; reflexivity|]. split; [exact Hhidden|].
  rewrite Hlayers. cbn [String.eqb andb]. rewrite scenarioLayers_activeRecord.
  reflexivity.
Defined.

Lemma legend_click_erases_filter_witness :
  step numberText "status" (scenarioLayers [activeRecord])
    (mkViewState (hiddenValues activeView) (legendItems activeView)
       (fst (applyFilter numberText "status" "act" (layerGroup activeView))))
    (Toggle "Inactive")
  = step numberText "status" (scenarioLayers [activeRecord]) activeView
      (Toggle "Inactive").
Proof.
  exact (legend_click_erases_filter numberText "status" (scenarioLayers [activeRecord])
           "status" "act" activeView (Toggle "Inactive")).
Defined.

Lemma zoomToRecord_matches_witness :
  markerOf (lowerIdRecord 2) "#FECA57"
  ∈ zoomMatches [markerOf (lowerIdRecord 1) "#FECA57"; markerOf (lowerIdRecord 2) "#FECA57"]
      (lowerIdRecord 1).
Proof.
  assert (Hin : markerOf (lowerIdRecord 2) "#FECA57"
                ∈ [markerOf (lowerIdRecord 1) "#FECA57";
                   markerOf (lowerIdRecord 2) "#FECA57"]) by (right; left).
  pose proof (zoomToRecord_matches _ (lowerIdRecord 1) _ Hin) as [_ Hshared].
  apply (Hshared (lowerIdRecord 2)); reflexivity.
Defined.

End FilterFacts.

(** ** Rendering effect *)

Section RenderFacts.

Import JSNumber JSValue GeometryParser ColorAssigner Legend Visibility Measurement.
Import Renderer Filter Scenarios FurtherScenarios.
#[local] Open Scope float_scope.

Section Built.

Variable Number_toString : float -> string.
Variable wellknown : option (string -> completion (option Geometry)).
Variable colorField labelField : string.
Variable geometryColumns : list Column.

(** The layer of a polygon as the effect builds it. *)
Lemma renderCell_polygon r index col geometry :
  processGeometryData wellknown (getField r (key col)) = WktGeometry (Some geometry) ->
  mkLayer None (GeoJSONShape geometry)
    (mkPathStyle (getFeatureColor Number_toString colorField r index) 2 1
       (getFeatureColor Number_toString colorField r index) 0.3)
  ∈ renderCell Number_toString wellknown colorField labelField r index col.
Proof.
  intros Hcell. unfold renderCell. rewrite Hcell.
  destruct (_ && _); [|left].
  destruct (getCenter _); left.
Qed.

(** What the effect builds for a cell: a layer at the opacity 1, which is
    the layer of a polygon, without a record and filled at 0.3, or the
    marker of a pair without [NaN], with the record and filled at 0.8, or
    a label, without a record. *)
Lemma renderCell_layer r index col layer :
  layer ∈ renderCell Number_toString wellknown colorField labelField r index col ->
  opacity (style layer) = 1
  /\ match shape layer with
     | GeoJSONShape geometry =>
         record layer = None
         /\ fillOpacity (style layer) = 0.3
         /\ processGeometryData wellknown (getField r (key col))
            = WktGeometry (Some geometry)
     | CircleMarkerShape latitude longitude =>
         record layer = Some r
         /\ fillOpacity (style layer) = 0.8
         /\ isNaN latitude = false /\ isNaN longitude = false
         /\ processGeometryData wellknown (getField r (key col))
            = Marker (Some (latitude, longitude))
     | LabelShape _ => record layer = None
     end.
Proof.
  unfold renderCell.
  destruct (processGeometryData wellknown (getField r (key col)))
    as [|[geometry|]|[[latitude longitude]|]] eqn:Hcell;
    try (intros H; inversion H; fail).
  - assert (Hpolygon : forall l,
               l ∈ [mkLayer None (GeoJSONShape geometry)
                      (mkPathStyle (getFeatureColor Number_toString colorField r index)
                         2 1 (getFeatureColor Number_toString colorField r index) 0.3)] ->
               opacity (style l) = 1
               /\ match shape l with
                  | GeoJSONShape g =>
                      record l = None /\ fillOpacity (style l) = 0.3
                      /\ WktGeometry (Some geometry) = WktGeometry (Some g)
                  | CircleMarkerShape a b =>
                      record l = Some r /\ fillOpacity (style l) = 0.8
                      /\ isNaN a = false /\ isNaN b = false
                      /\ WktGeometry (Some geometry) = Marker (Some (a, b))
                  | LabelShape _ => record l = None
                  end).
    { intros l Hl. apply list_elem_of_singleton in Hl. subst l.
      cbn. repeat split; reflexivity. }
    destruct (_ && _); [|apply Hpolygon].
    destruct (getCenter _); [|apply Hpolygon].
    intros Hin. apply elem_of_cons in Hin as [->|Hin].
    + apply Hpolygon. left.
    + apply list_elem_of_singleton in Hin. subst layer. cbn. split; reflexivity.
  - destruct (isNaN latitude) eqn:Hlat; [intros H; inversion H|].
    destruct (isNaN longitude) eqn:Hlng; [intros H; inversion H|].
    cbn [orb]. intros Hin. apply list_elem_of_singleton in Hin. subst layer.
    cbn. repeat split; try reflexivity; assumption.
Qed.

(** The layers of the group come from the cells of the geometry columns
    that hold something. *)
Lemma renderLayers_elem data layer :
  layer ∈ renderLayers Number_toString wellknown colorField labelField geometryColumns
            data
  <-> exists index r col,
      data !! index = Some r
      /\ col ∈ geometryColumns
      /\ truthy (getField r (key col)) = true
      /\ layer ∈ renderCell Number_toString wellknown colorField labelField r index col.
Proof.
  unfold renderLayers, renderRecord. rewrite list_elem_of_In, in_concat. split.
  - intros (cells & Hcells & Hin).
    apply list_elem_of_In, elem_of_lookup_imap in Hcells as (index & r & -> & Hr).
    apply in_flat_map in Hin as (col & Hcol & Hin).
    apply list_elem_of_In, list_elem_of_filter in Hcol as [Htruthy Hcol].
    exists index, r, col. split; [exact Hr|]. split; [exact Hcol|].
    split; [exact Htruthy|]. apply list_elem_of_In, Hin.
  - intros (index & r & col & Hr & Hcol & Htruthy & Hin).
    eexists. split.
    + apply list_elem_of_In, elem_of_lookup_imap. exists index, r.
      split; [reflexivity|exact Hr].
    + apply in_flat_map. exists col. split; [|apply list_elem_of_In, Hin].
      apply list_elem_of_In, list_elem_of_filter. split; assumption.
Qed.

(** Every layer is built at the opacity 1, and the layer of a polygon
    carries no record. *)
Lemma renderLayers_built data layer :
  layer ∈ renderLayers Number_toString wellknown colorField labelField geometryColumns
            data ->
  opacity (style layer) = 1
  /\ (forall geometry, shape layer = GeoJSONShape geometry ->
        record layer = None /\ fillOpacity (style layer) = 0.3).
Proof.
  intros Hin. apply renderLayers_elem in Hin as (index & r & col & _ & _ & _ & Hin).
  apply renderCell_layer in Hin as [Hopacity Hshape].
  split; [exact Hopacity|]. intros geometry Hg. rewrite Hg in Hshape.
  destruct Hshape as (Hrecord & Hfill & _). split; assumption.
Qed.

(** The layers of a cell that are no labels: one when the cell adds a
    feature, none otherwise. *)
Lemma renderCell_features r index col :
  length (filter (fun layer => isLabel layer = false)
            (renderCell Number_toString wellknown colorField labelField r index col))
  = if addsFeature (processGeometryData wellknown (getField r (key col)))
    then 1%nat else 0%nat.
Proof.
  unfold renderCell, addsFeature.
  destruct (processGeometryData wellknown (getField r (key col)))
    as [|[geometry|]|[[latitude longitude]|]]; try reflexivity.
  - destruct (_ && _); [|reflexivity]. destruct (getCenter _); reflexivity.
  - destruct (isNaN latitude), (isNaN longitude); reflexivity.
Qed.

Lemma filter_flat_map_length {A : Type} (f : A -> list Layer) (l : list A) :
  length (filter (fun layer => isLabel layer = false) (flat_map f l))
  = length (flat_map (fun a => filter (fun layer => isLabel layer = false) (f a)) l).
Proof.
  induction l as [|a l IH]; [reflexivity|]. cbn [flat_map].
  rewrite filter_app, !length_app, IH. reflexivity.
Qed.

Lemma renderRecord_features r index :
  length (filter (fun layer => isLabel layer = false)
            (renderRecord Number_toString wellknown colorField labelField
               geometryColumns index r))
  = length (flat_map
              (fun geometryCol =>
                 if addsFeature (processGeometryData wellknown
                                   (getField r (key geometryCol)))
                 then [(r, key geometryCol)] else [])
              (recordGeometryColumns geometryColumns r)).
Proof.
  unfold renderRecord. rewrite filter_flat_map_length.
  induction (recordGeometryColumns geometryColumns r) as [|col cols IH]; [reflexivity|].
  cbn [flat_map]. rewrite !length_app, IH, renderCell_features.
  destruct (addsFeature _); reflexivity.
Qed.

(** The rendering effect draws the features of the data set, one layer
    each, and labels besides. *)
Theorem renderLayers_draws_features (data : list DataRecord) :
  length (filter (fun layer => isLabel layer = false)
            (renderLayers Number_toString wellknown colorField labelField
               geometryColumns data))
  = length (buildFeatures wellknown geometryColumns data)
  /\ (forall layer,
        layer ∈ renderLayers Number_toString wellknown colorField labelField
                  geometryColumns data ->
        opacity (style layer) = 1
        /\ (isLabel layer = true -> record layer = None)
        /\ (forall geometry, shape layer = GeoJSONShape geometry ->
              record layer = None /\ fillOpacity (style layer) = 0.3)
        /\ (forall latitude longitude,
              shape layer = CircleMarkerShape latitude longitude ->
              (exists r, record layer = Some r /\ r ∈ data)
              /\ fillOpacity (style layer) = 0.8
              /\ isNaN latitude = false /\ isNaN longitude = false)).
Proof.
  split.
  - unfold renderLayers, buildFeatures.
    assert (Hshift : forall k,
               length (filter (fun layer => isLabel layer = false)
                         (concat (imap (fun i => renderRecord Number_toString wellknown
                                                   colorField labelField geometryColumns
                                                   (k + i)) data)))
               = length (flat_map
                           (fun r =>
                              flat_map
                                (fun geometryCol =>
                                   if addsFeature (processGeometryData wellknown
                                                     (getField r (key geometryCol)))
                                   then [(r, key geometryCol)] else [])
                                (recordGeometryColumns geometryColumns r))
                           data)).
    { induction data as [|r data IH]; intros k; [reflexivity|].
      rewrite imap_cons. cbn [concat flat_map].
      rewrite filter_app, !length_app, renderRecord_features. f_equal.
      rewrite <- (IH (S k)). do 3 f_equal. apply imap_ext. intros i x _.
      cbn. f_equal. lia. }
    apply (Hshift 0%nat).
  - intros layer Hin.
    apply renderLayers_elem in Hin as (index & r & col & Hr & _ & _ & Hin).
    apply renderCell_layer in Hin as [Hopacity Hshape].
    split; [exact Hopacity|]. unfold isLabel.
    destruct (shape layer) as [geometry|latitude longitude|labelText].
    + destruct Hshape as (Hrecord & Hfill & _).
      split; [discriminate|]. split; [|discriminate].
      intros g _. split; assumption.
    + destruct Hshape as (Hrecord & Hfill & Hlat & Hlng & _).
      split; [discriminate|]. split; [discriminate|].
      intros a b [= <- <-]. split; [|auto].
      exists r. split; [exact Hrecord|]. eapply list_elem_of_lookup_2, Hr.
    + split; [intros _; exact Hshape|]. split; discriminate.
Qed.

(** The legend never hides a polygon. A record whose cell in a geometry
    column parses to a geometry has its layer in the group after every
    click in the legend, drawn as it was built, at the opacity 1 and
    filled at 0.3, whatever the hidden values are, those of the record
    among them: the layer of the group carries no record to go by. *)
Theorem legend_never_hides_polygons (data : list DataRecord) (st : ViewState)
    (op : LegendOp) (layers : list Layer)
    (index : nat) (r : DataRecord) (col : Column) (geometry : Geometry) :
  layerGroup st = Some layers ->
  data !! index = Some r ->
  col ∈ geometryColumns ->
  processGeometryData wellknown (getField r (key col)) = WktGeometry (Some geometry) ->
  let rendered :=
    renderLayers Number_toString wellknown colorField labelField geometryColumns data in
  let fill := getFeatureColor Number_toString colorField r index in
  exists layers',
    layerGroup (step Number_toString colorField rendered st op) = Some layers'
    /\ mkLayer None (GeoJSONShape geometry) (mkPathStyle fill 2 1 fill 0.3) ∈ layers'.
Proof.
  intros Hgroup Hr Hcol Hcell rendered fill.
  assert (Hbuilt : mkLayer None (GeoJSONShape geometry) (mkPathStyle fill 2 1 fill 0.3)
                   ∈ rendered).
  { apply renderLayers_elem. exists index, r, col.
    split; [exact Hr|]. split; [exact Hcol|]. split.
    - unfold processGeometryData in Hcell.
      destruct (truthy (getField r (key col))); [reflexivity|discriminate].
    - apply renderCell_polygon, Hcell. }
  rewrite step_layerGroup, Hgroup. unfold updateLayerVisibility.
  destruct (_ || _); [exists rendered; split; [reflexivity|exact Hbuilt]|].
  eexists. split; [reflexivity|].
  apply list_elem_of_fmap.
  exists (mkLayer None (GeoJSONShape geometry) (mkPathStyle fill 2 1 fill 0.3)).
  split; [reflexivity|exact Hbuilt].
Qed.

(** A render that another state brings about shows what the legend had
    hidden. After a toggle has hidden a value, a render of which
    [hiddenValues] is no cause, as a key in the box of the filter or the
    choice of a feature brings one about, leaves the value hidden and
    the group with the layers as they are built, every one of them at
    the opacity 1. *)
Theorem rerender_shows_hidden_layers (data : list DataRecord) (st : ViewState)
    (value : string) (layers : list Layer) :
  layerGroup st = Some layers ->
  value ∉ hiddenValues st ->
  let rendered :=
    renderLayers Number_toString wellknown colorField labelField geometryColumns data in
  let st' := rerender rendered (step Number_toString colorField rendered st
                                  (Toggle value)) in
  value ∈ hiddenValues st'
  /\ layerGroup st' = Some rendered
  /\ (forall layer, layer ∈ rendered -> opacity (style layer) = 1).
Proof.
  intros Hgroup Hshown rendered st'. subst st'. unfold rerender.
  rewrite renderingEffect_hiddenValues, renderingEffect_layerGroup.
  rewrite step_hiddenValues, step_layerGroup, Hgroup.
  split; [|split].
  - apply toggle_hiddenValues. rewrite decide_True by reflexivity. exact Hshown.
  - unfold updateLayerVisibility. destruct (_ || _); reflexivity.
  - intros layer Hin. apply (renderLayers_built data layer Hin).
Qed.

End Built.

Lemma renderLayers_draws_features_witness :
  let data := [squareRecord; activeRecord] in
  length (filter (fun layer => isLabel layer = false) (scenarioLayers data)) = 2%nat
  /\ record squareLayer = None
  /\ fillOpacity (style squareLayer) = 0.3
  /\ exists r, record (markerOf activeRecord "#FECA57") = Some r /\ r ∈ data.
Proof.
  intros data.
  pose proof (renderLayers_draws_features numberText None "status" "" [geometryColumn]
                data) as [Hlength Hlayers].
  assert (Hsquare : squareLayer ∈ scenarioLayers data) by (vm_compute; left).
  assert (Hmarker : markerOf activeRecord "#FECA57" ∈ scenarioLayers data)
    by (vm_compute; right; left).
  split; [exact Hlength|].
  destruct (Hlayers _ Hsquare) as (_ & _ & Hpolygon & _).
  destruct (Hpolygon _ eq_refl) as [Hrecord Hfill].
  split; [exact Hrecord|]. split; [exact Hfill|].
  destruct (Hlayers _ Hmarker) as (_ & _ & _ & Hcircle).
  destruct (Hcircle _ _ eq_refl) as [Hsource _]. exact Hsource.
Defined.

Lemma legend_never_hides_polygons_witness :
  let data := [squareRecord; activeRecord] in
  let st := mkViewState ∅ (generateLegendData numberText "status" data ∅)
              (Some (scenarioLayers data)) in
  recordValue numberText "status" squareRecord = "Active"
  /\ exists layers',
      layerGroup (step numberText "status" (scenarioLayers data) st (Toggle "Active"))
      = Some layers'
      /\ squareLayer ∈ layers'.
Proof.
  intros data st.
  assert (Hgroup : layerGroup st = Some (scenarioLayers data)) by reflexivity.
  assert (Hrecord : data !! 0%nat = Some squareRecord) by reflexivity.
  assert (Hcol : geometryColumn ∈ [geometryColumn]) by left.
  assert (Hcell : processGeometryData None (getField squareRecord (key geometryColumn))
                  = WktGeometry
                      (Some (Polygon [[(0, 0); (1, 0); (1, 1); (0, 1); (0, 0)]])))
    by (vm_compute; reflexivity).
  destruct (legend_never_hides_polygons numberText None "status" "" [geometryColumn]
              data st (Toggle "Active") _ 0%nat squareRecord geometryColumn _
              Hgroup Hrecord Hcol Hcell) as (layers' & Hlayers & Hin).
  split; [vm_compute; reflexivity|].
  exists layers'. split; [exact Hlayers|]. exact Hin.
Defined.

Lemma rerender_shows_hidden_layers_witness :
  let st' := rerender (scenarioLayers [activeRecord])
               (step numberText "status" (scenarioLayers [activeRecord]) activeView
                  (Toggle "Active")) in
  "Active" ∈ hiddenValues st'
  /\ layerGroup st' = Some [markerOf activeRecord "#FECA57"].
Proof.
  assert (Hgroup : layerGroup activeView = Some [markerOf activeRecord "#FECA57"])
    by reflexivity.
  assert (Hshown : "Active" ∉ hiddenValues activeView) by apply not_elem_of_empty.
  pose proof (rerender_shows_hidden_layers numberText None "status" "" [geometryColumn]
                [activeRecord] activeView "Active" _ Hgroup Hshown)
    as (Hhidden & Hlayers & _).
  split; [exact Hhidden|]. rewrite <- scenarioLayers_activeRecord. exact Hlayers.
Defined.

End RenderFacts.

Section MeasurementMore.

Import JSNumber Measurement FurtherScenarios.
#[local] Open Scope float_scope.

Lemma lineDistanceLoop_snoc distanceTo total points p q :
  last points = Some p ->
  lineDistanceLoop distanceTo total (points ++ [q])
  = lineDistanceLoop distanceTo total points + distanceTo p q.
Proof.
  revert total. induction points as [|a [|b rest] IH]; intros total Hlast.
  - discriminate.
  - injection Hlast as ->. reflexivity.
  - change (lineDistanceLoop distanceTo (total + distanceTo a b) ((b :: rest) ++ [q])
            = lineDistanceLoop distanceTo (total + distanceTo a b) (b :: rest)
              + distanceTo p q).
    apply IH. exact Hlast.
Qed.

(** Each click after the first adds the distance from the last point to
    the new one to the distance shown before: the total is the same sum,
    taken in the same order. *)
Theorem calculateLineDistance_next_click (distanceTo : LatLng -> LatLng -> float)
    (points : list LatLng) (p q : LatLng) :
  last points = Some p ->
  calculateLineDistance distanceTo (points ++ [q])
  = calculateLineDistance distanceTo points + distanceTo p q.
Proof. apply lineDistanceLoop_snoc. Qed.

Lemma calculateLineDistance_next_click_witness :
  calculateLineDistance taxicab linePoints = 3 + 4.
Proof.
  assert (Hlast : last [mkLatLng 0 0; mkLatLng 0 3] = Some (mkLatLng 0 3)) by reflexivity.
  pose proof (calculateLineDistance_next_click taxicab [mkLatLng 0 0; mkLatLng 0 3]
                (mkLatLng 0 3) (mkLatLng 4 3) Hlast) as Hnext.
  etransitivity; [exact Hnext|]. vm_compute. reflexivity.
Defined.

Lemma abs_not_negative x : (abs x <? 0) = false.
Proof.
  rewrite ltb_spec, abs_spec.
  destruct (Prim2SF x) as [s| s| |s m e]; reflexivity.
Qed.

(** The area [calculatePolygonArea] returns is never below zero, whatever
    the points: it is zero, the absolute value of a number, or [NaN]. *)
Theorem calculatePolygonArea_not_negative (points : list LatLng) :
  (calculatePolygonArea points <? 0) = false.
Proof.
  unfold calculatePolygonArea.
  destruct (length points <? 3)%nat; [reflexivity|].
  destruct (getBounds points); [apply abs_not_negative|reflexivity].
Qed.

End MeasurementMore.
